(** * InstaAllergy: the food scanner and its camera view

    A shallow embedding of the two React components of the repository,
    [FoodScanner] (image staging, the two two-stage pipelines, tab
    switching) and [CameraView] (the camera stream), and the properties
    of the specification proved or refuted on it.

    React state is a record with one field per [useState] hook; a handler
    is a command, a function from worlds to worlds, written as the
    sequence of its statements.  An [await] registers the suspended rest
    of the handler under a fresh identifier; the settlement of the
    awaited promise is a later event that resumes it.  The [disabled]
    attributes and the conditional rendering of the JSX are the guards of
    the user events. *)

From Stdlib Require Import String List Bool NArith Lia.
From Stdlib Require QArith.
From stdpp Require Import base option gmap.

Import ListNotations.
Local Open Scope string_scope.
Local Open Scope list_scope.

(** ** Values exchanged with the remote flows *)

(** [Array.prototype.join] on an array of strings. *)
Fixpoint join (sep : string) (l : list string) : string :=
  match l with
  | [] => ""
  | [x] => x
  | x :: xs => x ++ sep ++ join sep xs
  end.

(** JavaScript truthiness of a [string | null]: [null] and the empty
    string are falsy. *)
Definition truthy (v : option string) : bool :=
  match v with
  | Some s => negb (s =? "")
  | None => false
  end.

(** Truthiness of a plain string, as in [if (extractedText)]. *)
Definition nonempty (s : string) : bool := negb (s =? "").

Record FoodDetails := {
  ingredients : list string;
  nutritionalData : string;
  region : string;
  history : string
}.

(** [ClassifyFoodOutput]; [confidence] is only carried along. *)
Record ClassifyFoodOutput := {
  classification : string;
  confidence : QArith_base.Q;
  isFood : bool;
  foodDetails : option FoodDetails;
  alternativeSuggestions : list string
}.

Inductive AlertLevel := HIGH | MODERATE | SAFE.

(** [DetectAllergensOutput]; [alert] is what [getAlertBadgeProps]
    receives, [None] standing for [undefined]. *)
Record DetectAllergensOutput := {
  alert : option AlertLevel;
  allergenDetected : bool;
  detectedAllergens : list string
}.

Definition AllergenResult := DetectAllergensOutput.

Record File := {
  fileName : string;
  fileType : string;
  fileSize : N
}.

Record Toast := {
  toastVariant : string;
  title : string;
  description : string
}.

(** The remote operations a handler can call, with their arguments. *)
Inductive RemoteCall :=
| classifyFood (photoDataUri : string)
| extractTextFromImage (photoDataUri : string)
| detectAllergensAndGenerateAlert (ingredientsText : string) (allergens : list string).

Module FoodScanner.

(** ** Component state: one field per [useState], plus the form value *)

Record State := {
  preview : option string;
  activeTab : string;
  classificationResult : option ClassifyFoodOutput;
  allergenResult : option AllergenResult;
  isClassifyLoading : bool;
  classifyError : option string;
  isOcrLoading : bool;
  extractedText : option string;
  ocrAllergenResult : option AllergenResult;
  ocrError : option string;
  isCameraOpen : bool;
  formImage : option File
}.

(** What a suspended computation waits for, with the variables its
    continuation has captured. *)
Inductive Pending :=
| AwaitClassify (allergens : list string)   (* onSubmit at [await classifyFood] *)
| AwaitDetectFood                           (* onSubmit at [await detectAllergens...] *)
| AwaitExtract (allergens : list string)    (* handleScanLabel at [await extractText...] *)
| AwaitDetectLabel                          (* handleScanLabel at [await detectAllergens...] *)
| ReaderLoading (file : File)               (* FileReader before [onloadend] *)
| BlobFetching.                             (* [fetch(dataUri).then(res => res.blob())] *)

(** The world: the component state, what the handlers read from their
    environment ([navigator.onLine], [useUser().allergens]) and what they
    emit (toasts, remote calls, suspended continuations). *)
Record World := {
  st : State;
  onLine : bool;
  userAllergens : list string;
  toasts : list Toast;
  calls : list RemoteCall;
  pending : gmap nat Pending;
  nextId : nat
}.

Definition Cmd := World -> World.

Definition seq (c1 c2 : Cmd) : Cmd := fun w => c2 (c1 w).
Notation "c1 >> c2" := (seq c1 c2) (at level 61, left associativity).

Definition skip : Cmd := fun w => w.

Definition modify (f : State -> State) : Cmd := fun w =>
  {| st := f (st w); onLine := onLine w; userAllergens := userAllergens w;
     toasts := toasts w; calls := calls w; pending := pending w;
     nextId := nextId w |}.

(** *** The state setters *)

Definition setPreview (v : option string) : Cmd := modify (fun s =>
  {| preview := v; activeTab := activeTab s;
     classificationResult := classificationResult s;
     allergenResult := allergenResult s;
     isClassifyLoading := isClassifyLoading s;
     classifyError := classifyError s; isOcrLoading := isOcrLoading s;
     extractedText := extractedText s;
     ocrAllergenResult := ocrAllergenResult s; ocrError := ocrError s;
     isCameraOpen := isCameraOpen s; formImage := formImage s |}).

Definition setActiveTab (v : string) : Cmd := modify (fun s =>
  {| preview := preview s; activeTab := v;
     classificationResult := classificationResult s;
     allergenResult := allergenResult s;
     isClassifyLoading := isClassifyLoading s;
     classifyError := classifyError s; isOcrLoading := isOcrLoading s;
     extractedText := extractedText s;
     ocrAllergenResult := ocrAllergenResult s; ocrError := ocrError s;
     isCameraOpen := isCameraOpen s; formImage := formImage s |}).

Definition setClassificationResult (v : option ClassifyFoodOutput) : Cmd :=
  modify (fun s =>
  {| preview := preview s; activeTab := activeTab s;
     classificationResult := v;
     allergenResult := allergenResult s;
     isClassifyLoading := isClassifyLoading s;
     classifyError := classifyError s; isOcrLoading := isOcrLoading s;
     extractedText := extractedText s;
     ocrAllergenResult := ocrAllergenResult s; ocrError := ocrError s;
     isCameraOpen := isCameraOpen s; formImage := formImage s |}).

Definition setAllergenResult (v : option AllergenResult) : Cmd :=
  modify (fun s =>
  {| preview := preview s; activeTab := activeTab s;
     classificationResult := classificationResult s;
     allergenResult := v;
     isClassifyLoading := isClassifyLoading s;
     classifyError := classifyError s; isOcrLoading := isOcrLoading s;
     extractedText := extractedText s;
     ocrAllergenResult := ocrAllergenResult s; ocrError := ocrError s;
     isCameraOpen := isCameraOpen s; formImage := formImage s |}).

Definition setIsClassifyLoading (v : bool) : Cmd := modify (fun s =>
  {| preview := preview s; activeTab := activeTab s;
     classificationResult := classificationResult s;
     allergenResult := allergenResult s;
     isClassifyLoading := v;
     classifyError := classifyError s; isOcrLoading := isOcrLoading s;
     extractedText := extractedText s;
     ocrAllergenResult := ocrAllergenResult s; ocrError := ocrError s;
     isCameraOpen := isCameraOpen s; formImage := formImage s |}).

Definition setClassifyError (v : option string) : Cmd := modify (fun s =>
  {| preview := preview s; activeTab := activeTab s;
     classificationResult := classificationResult s;
     allergenResult := allergenResult s;
     isClassifyLoading := isClassifyLoading s;
     classifyError := v; isOcrLoading := isOcrLoading s;
     extractedText := extractedText s;
     ocrAllergenResult := ocrAllergenResult s; ocrError := ocrError s;
     isCameraOpen := isCameraOpen s; formImage := formImage s |}).

Definition setIsOcrLoading (v : bool) : Cmd := modify (fun s =>
  {| preview := preview s; activeTab := activeTab s;
     classificationResult := classificationResult s;
     allergenResult := allergenResult s;
     isClassifyLoading := isClassifyLoading s;
     classifyError := classifyError s; isOcrLoading := v;
     extractedText := extractedText s;
     ocrAllergenResult := ocrAllergenResult s; ocrError := ocrError s;
     isCameraOpen := isCameraOpen s; formImage := formImage s |}).

Definition setExtractedText (v : option string) : Cmd := modify (fun s =>
  {| preview := preview s; activeTab := activeTab s;
     classificationResult := classificationResult s;
     allergenResult := allergenResult s;
     isClassifyLoading := isClassifyLoading s;
     classifyError := classifyError s; isOcrLoading := isOcrLoading s;
     extractedText := v;
     ocrAllergenResult := ocrAllergenResult s; ocrError := ocrError s;
     isCameraOpen := isCameraOpen s; formImage := formImage s |}).

Definition setOcrAllergenResult (v : option AllergenResult) : Cmd :=
  modify (fun s =>
  {| preview := preview s; activeTab := activeTab s;
     classificationResult := classificationResult s;
     allergenResult := allergenResult s;
     isClassifyLoading := isClassifyLoading s;
     classifyError := classifyError s; isOcrLoading := isOcrLoading s;
     extractedText := extractedText s;
     ocrAllergenResult := v; ocrError := ocrError s;
     isCameraOpen := isCameraOpen s; formImage := formImage s |}).

Definition setOcrError (v : option string) : Cmd := modify (fun s =>
  {| preview := preview s; activeTab := activeTab s;
     classificationResult := classificationResult s;
     allergenResult := allergenResult s;
     isClassifyLoading := isClassifyLoading s;
     classifyError := classifyError s; isOcrLoading := isOcrLoading s;
     extractedText := extractedText s;
     ocrAllergenResult := ocrAllergenResult s; ocrError := v;
     isCameraOpen := isCameraOpen s; formImage := formImage s |}).

Definition setIsCameraOpen (v : bool) : Cmd := modify (fun s =>
  {| preview := preview s; activeTab := activeTab s;
     classificationResult := classificationResult s;
     allergenResult := allergenResult s;
     isClassifyLoading := isClassifyLoading s;
     classifyError := classifyError s; isOcrLoading := isOcrLoading s;
     extractedText := extractedText s;
     ocrAllergenResult := ocrAllergenResult s; ocrError := ocrError s;
     isCameraOpen := v; formImage := formImage s |}).

(** [form.setValue("image", file)] and [form.reset()]. *)
Definition setFormImage (v : option File) : Cmd := modify (fun s =>
  {| preview := preview s; activeTab := activeTab s;
     classificationResult := classificationResult s;
     allergenResult := allergenResult s;
     isClassifyLoading := isClassifyLoading s;
     classifyError := classifyError s; isOcrLoading := isOcrLoading s;
     extractedText := extractedText s;
     ocrAllergenResult := ocrAllergenResult s; ocrError := ocrError s;
     isCameraOpen := isCameraOpen s; formImage := v |}).

(** *** Emissions *)

Definition toast (t : Toast) : Cmd := fun w =>
  {| st := st w; onLine := onLine w; userAllergens := userAllergens w;
     toasts := toasts w ++ [t]; calls := calls w; pending := pending w;
     nextId := nextId w |}.

(** Suspend on a promise: the continuation [k] is stored under a fresh
    identifier. *)
Definition suspend (k : Pending) : Cmd := fun w =>
  {| st := st w; onLine := onLine w; userAllergens := userAllergens w;
     toasts := toasts w; calls := calls w;
     pending := <[nextId w := k]> (pending w);
     nextId := S (nextId w) |}.

(** Issue a remote call. *)
Definition invoke (c : RemoteCall) : Cmd := fun w =>
  {| st := st w; onLine := onLine w; userAllergens := userAllergens w;
     toasts := toasts w; calls := calls w ++ [c]; pending := pending w;
     nextId := nextId w |}.

(** [await c], the rest of the handler being [k]. *)
Definition await (c : RemoteCall) (k : Pending) : Cmd := invoke c >> suspend k.

(** The promise [id] is settled: its continuation leaves the store. *)
Definition settled (id : nat) : Cmd := fun w =>
  {| st := st w; onLine := onLine w; userAllergens := userAllergens w;
     toasts := toasts w; calls := calls w;
     pending := delete id (pending w);
     nextId := nextId w |}.

Definition setOnLine (b : bool) : Cmd := fun w =>
  {| st := st w; onLine := b; userAllergens := userAllergens w;
     toasts := toasts w; calls := calls w; pending := pending w;
     nextId := nextId w |}.

Definition setUserAllergens (l : list string) : Cmd := fun w =>
  {| st := st w; onLine := onLine w; userAllergens := l;
     toasts := toasts w; calls := calls w; pending := pending w;
     nextId := nextId w |}.

(** ** The handlers of [FoodScanner] *)

Definition resetResults : Cmd :=
  setClassificationResult None >>
  setAllergenResult None >>
  setClassifyError None >>
  setExtractedText None >>
  setOcrAllergenResult None >>
  setOcrError None.

(** [resetState]; the value of the hidden file input is not part of the
    state modelled here. *)
Definition resetState : Cmd :=
  setFormImage None >>
  setPreview None >>
  resetResults >>
  setIsCameraOpen false.

Definition openCamera : Cmd :=
  resetState >>
  setIsCameraOpen true.

(** [handleFileChange]: with a file, a reader is started; the body of
    [reader.onloadend] is [onloadend]. *)
Definition handleFileChange (file : option File) : Cmd :=
  match file with
  | Some f => suspend (ReaderLoading f)
  | None => skip
  end.

Definition onloadend (file : File) (result : option string) : Cmd :=
  setPreview result >>
  setFormImage (Some file) >>
  resetResults.

(** [handleCapture]: the preview is set at once, the form value and the
    results in the callback of the blob, [onblob]. *)
Definition handleCapture (dataUri : string) : Cmd :=
  setPreview (Some dataUri) >>
  suspend BlobFetching >>
  setIsCameraOpen false.

Definition onblob (size : N) : Cmd :=
  setFormImage (Some {| fileName := "capture.jpg"; fileType := "image/jpeg";
                        fileSize := size |}) >>
  resetResults.

Definition offlineToast (what : string) : Toast :=
  {| toastVariant := "destructive"; title := "You're Offline";
     description := "An internet connection is required to " ++ what |}.

Definition pleaseSelect : string := "Please select an image first.".

(** [onSubmit] up to its first [await]. *)
Definition onSubmit : Cmd := fun w =>
  if negb (onLine w) then
    toast (offlineToast "analyze food.") w
  else if negb (truthy (preview (st w))) then
    setClassifyError (Some pleaseSelect) w
  else
    (setIsClassifyLoading true >>
     resetResults >>
     await (classifyFood (default "" (preview (st w))))
           (AwaitClassify (userAllergens w))) w.

(** [onSubmit] after [await classifyFood] has returned [cfOutput]. *)
Definition onSubmit_classified (allergens : list string)
    (cfOutput : ClassifyFoodOutput) : Cmd :=
  setClassificationResult (Some cfOutput) >>
  match isFood cfOutput, foodDetails cfOutput with
  | true, Some details =>
      await (detectAllergensAndGenerateAlert
               (join ", " (ingredients details)) allergens)
            AwaitDetectFood
  | _, _ => setIsClassifyLoading false
  end.

(** [onSubmit] after [await detectAllergensAndGenerateAlert]. *)
Definition onSubmit_detected (daOutput : DetectAllergensOutput) : Cmd :=
  setAllergenResult (Some daOutput) >>
  setIsClassifyLoading false.

Definition analysisError : string :=
  "An error occurred during analysis. Please try again.".

(** The [catch] block of [onSubmit]; what it writes to the console is
    left out. *)
Definition onSubmit_catch : Cmd :=
  setClassifyError (Some analysisError) >>
  toast {| toastVariant := "destructive"; title := "Analysis Failed";
           description := "Could not analyze the food item." |} >>
  setIsClassifyLoading false.

(** [handleScanLabel] up to its first [await]. *)
Definition handleScanLabel : Cmd := fun w =>
  if negb (onLine w) then
    toast (offlineToast "scan labels.") w
  else if negb (truthy (preview (st w))) then
    setOcrError (Some pleaseSelect) w
  else
    (setIsOcrLoading true >>
     resetResults >>
     await (extractTextFromImage (default "" (preview (st w))))
           (AwaitExtract (userAllergens w))) w.

Definition handleScanLabel_extracted (allergens : list string)
    (text : string) : Cmd :=
  setExtractedText (Some text) >>
  if nonempty text then
    await (detectAllergensAndGenerateAlert text allergens) AwaitDetectLabel
  else
    setIsOcrLoading false.

Definition handleScanLabel_detected (daOutput : DetectAllergensOutput) : Cmd :=
  setOcrAllergenResult (Some daOutput) >>
  setIsOcrLoading false.

Definition labelError : string :=
  "An error occurred during label analysis. Please try again.".

Definition handleScanLabel_catch : Cmd :=
  setOcrError (Some labelError) >>
  toast {| toastVariant := "destructive"; title := "Analysis Failed";
           description := "Could not analyze the product label." |} >>
  setIsOcrLoading false.

(** [onValueChange] of the tabs. *)
Definition onValueChange (value : string) : Cmd :=
  setActiveTab value >>
  resetResults.

(** ** What is rendered *)

Record BadgeProps := {
  variant : string;
  className : string;
  children : string
}.

Definition getAlertBadgeProps (alertLevel : option AlertLevel) : BadgeProps :=
  match alertLevel with
  | Some HIGH =>
      {| variant := "destructive"; className := ""; children := "HIGH RISK" |}
  | Some MODERATE =>
      {| variant := "secondary"; className := "border-yellow-500/50";
         children := "MODERATE RISK" |}
  | Some SAFE =>
      {| variant := "default";
         className := "bg-chart-2 text-accent-foreground hover:bg-chart-2/90";
         children := "SAFE" |}
  | None =>
      {| variant := "outline"; className := ""; children := "UNKNOWN" |}
  end.

Definition classifyBadgeProps (s : State) : BadgeProps :=
  match allergenResult s with
  | Some r => getAlertBadgeProps (alert r)
  | None => getAlertBadgeProps None
  end.

Definition ocrBadgeProps (s : State) : BadgeProps :=
  match ocrAllergenResult s with
  | Some r => getAlertBadgeProps (alert r)
  | None => getAlertBadgeProps None
  end.

Definition isSome {A} (o : option A) : bool :=
  match o with Some _ => true | None => false end.

(** What stands at the right of a result card's header. *)
Inductive HeaderElem :=
| Spinner                          (* [<Loader2 .../>] *)
| AllergenBadge (props : BadgeProps) (* the badge fed by the allergen check *)
| UnknownOutline                   (* [<Badge variant="outline">UNKNOWN</Badge>] *)
| Nothing.

(** The header of the classification card (the nested conditional after
    the confidence bar). *)
Definition classifyHeader (s : State) (c : ClassifyFoodOutput) : HeaderElem :=
  if isClassifyLoading s && negb (isSome (allergenResult s)) then Spinner
  else if isSome (allergenResult s) then AllergenBadge (classifyBadgeProps s)
  else if negb (isSome (foodDetails c)) then UnknownOutline
  else Nothing.

(** The classification card: rendered when
    [classificationResult && activeTab === 'analyze-food']. *)
Definition classificationCard (s : State)
    : option (ClassifyFoodOutput * HeaderElem) :=
  match classificationResult s with
  | Some c =>
      if activeTab s =? "analyze-food" then Some (c, classifyHeader s c)
      else None
  | None => None
  end.

Definition scanHeader (s : State) : HeaderElem :=
  if isOcrLoading s && negb (isSome (ocrAllergenResult s)) then Spinner
  else if isSome (ocrAllergenResult s) then AllergenBadge (ocrBadgeProps s)
  else Nothing.

(** The scan card: rendered when
    [extractedText !== null && activeTab === 'scan-label']; it shows the
    text in a read-only text area. *)
Definition scanCard (s : State) : option (string * HeaderElem) :=
  match extractedText s with
  | Some text =>
      if activeTab s =? "scan-label" then Some (text, scanHeader s)
      else None
  | None => None
  end.

(** The two error banners. *)
Definition classifyErrorBanner (s : State) : option string :=
  if truthy (classifyError s) && (activeTab s =? "analyze-food")
  then classifyError s else None.

Definition ocrErrorBanner (s : State) : option string :=
  if truthy (ocrError s) && (activeTab s =? "scan-label")
  then ocrError s else None.

(** *** Which controls are rendered and enabled *)

Definition loading (s : State) : bool := isClassifyLoading s || isOcrLoading s.

(** The image with its clear button is rendered when [preview] is truthy,
    else the camera view when [isCameraOpen], else the upload box. *)
Definition clearEnabled (s : State) : bool :=
  truthy (preview s) && negb (loading s).

Definition cameraViewRendered (s : State) : bool :=
  negb (truthy (preview s)) && isCameraOpen s.

Definition uploadBoxEnabled (s : State) : bool :=
  negb (truthy (preview s)) && negb (isCameraOpen s) && negb (loading s).

(** The schema of the form: the image is optional, and non-empty when
    present. *)
Definition formValid (s : State) : bool :=
  match formImage s with
  | Some f => N.ltb 0 (fileSize f)
  | None => true
  end.

Definition submitEnabled (s : State) : bool :=
  (activeTab s =? "analyze-food")
  && negb (isClassifyLoading s || negb (truthy (preview s))).

Definition scanEnabled (s : State) : bool :=
  negb (activeTab s =? "analyze-food")
  && negb (isOcrLoading s || negb (truthy (preview s))).

(** ** Events *)

(** How a pending promise settles. *)
Inductive Outcome :=
| Classified (cfOutput : ClassifyFoodOutput)
| Extracted (text : string)
| Detected (daOutput : DetectAllergensOutput)
| Thrown                                (* the awaited promise rejects *)
| LoadEnd (result : option string)      (* [reader.result], null on error *)
| Blob (size : N).

Inductive Event :=
| FileChange (file : option File)  (* the hidden file input changes *)
| Capture (dataUri : string)       (* [onCapture] of the camera view *)
| CameraClose                      (* [onClose] of the camera view *)
| OpenCamera                       (* the button Use Camera *)
| ClearImage                       (* the button over the preview *)
| TabChange (value : string)
| Submit                           (* the button Analyze Food *)
| ScanLabel                        (* the button Scan Product Label *)
| Settle (id : nat) (o : Outcome)
| Connectivity (b : bool)          (* [navigator.onLine] changes *)
| ProfileChange (allergens : list string).

(** The continuation stored as [k] resumed with outcome [o]; [None] when
    the outcome is not one the awaited promise can have. *)
Definition resume (k : Pending) (o : Outcome) : option Cmd :=
  match k, o with
  | AwaitClassify al, Classified cf => Some (onSubmit_classified al cf)
  | AwaitClassify _, Thrown => Some onSubmit_catch
  | AwaitDetectFood, Detected da => Some (onSubmit_detected da)
  | AwaitDetectFood, Thrown => Some onSubmit_catch
  | AwaitExtract al, Extracted text => Some (handleScanLabel_extracted al text)
  | AwaitExtract _, Thrown => Some handleScanLabel_catch
  | AwaitDetectLabel, Detected da => Some (handleScanLabel_detected da)
  | AwaitDetectLabel, Thrown => Some handleScanLabel_catch
  | ReaderLoading f, LoadEnd result => Some (onloadend f result)
  | BlobFetching, Blob size => Some (onblob size)
  | BlobFetching, Thrown => Some skip     (* no rejection handler *)
  | _, _ => None
  end.

Definition guard (b : bool) (c : Cmd) (w : World) : option World :=
  if b then Some (c w) else None.

(** One event of the user interface, when the control it comes from is
    rendered and enabled.  The capture button of the camera view is also
    disabled until the camera has been granted; that guard lives in the
    camera view and is not repeated here. *)
Definition step (e : Event) (w : World) : option World :=
  match e with
  | FileChange file => guard (uploadBoxEnabled (st w)) (handleFileChange file) w
  | Capture dataUri => guard (cameraViewRendered (st w)) (handleCapture dataUri) w
  | CameraClose => guard (cameraViewRendered (st w)) (setIsCameraOpen false) w
  | OpenCamera => guard (uploadBoxEnabled (st w)) openCamera w
  | ClearImage => guard (clearEnabled (st w)) resetState w
  | TabChange value => Some (onValueChange value w)
  | Submit => guard (submitEnabled (st w) && formValid (st w)) onSubmit w
  | ScanLabel => guard (scanEnabled (st w)) handleScanLabel w
  | Settle id o =>
      match pending w !! id with
      | Some k =>
          match resume k o with
          | Some c => Some ((settled id >> c) w)
          | None => None
          end
      | None => None
      end
  | Connectivity b => Some (setOnLine b w)
  | ProfileChange al => Some (setUserAllergens al w)
  end.

Fixpoint run (es : list Event) (w : World) : option World :=
  match es with
  | [] => Some w
  | e :: es' =>
      match step e w with
      | Some w' => run es' w'
      | None => None
      end
  end.

(** The initial values of the hooks. *)
Definition initialState : State :=
  {| preview := None; activeTab := "analyze-food";
     classificationResult := None; allergenResult := None;
     isClassifyLoading := false; classifyError := None;
     isOcrLoading := false; extractedText := None;
     ocrAllergenResult := None; ocrError := None;
     isCameraOpen := false; formImage := None |}.

Definition initial (online : bool) (allergens : list string) : World :=
  {| st := initialState; onLine := online; userAllergens := allergens;
     toasts := []; calls := []; pending := ∅; nextId := 0 |}.

(** *** Runs in flight *)

(** A continuation of [onSubmit], of [handleScanLabel]. *)
Definition foodRun (k : Pending) : bool :=
  match k with
  | AwaitClassify _ | AwaitDetectFood => true
  | _ => false
  end.

Definition labelRun (k : Pending) : bool :=
  match k with
  | AwaitExtract _ | AwaitDetectLabel => true
  | _ => false
  end.

(** What holds of every world the user interface can reach: identifiers
    are fresh; while a run of a kind is in flight the loading flag of
    that kind is set, its stage-2 slot is empty and no other run of that
    kind is in flight; while stage 1 is awaited its stage-1 slot is
    empty. *)
Record Inv (w : World) : Prop := {
  inv_fresh : forall id k, pending w !! id = Some k -> id < nextId w;
  inv_food : forall id k, pending w !! id = Some k -> foodRun k = true ->
    isClassifyLoading (st w) = true /\ allergenResult (st w) = None;
  inv_food_unique : forall id1 k1 id2 k2,
    pending w !! id1 = Some k1 -> pending w !! id2 = Some k2 ->
    foodRun k1 = true -> foodRun k2 = true -> id1 = id2;
  inv_classify : forall id al, pending w !! id = Some (AwaitClassify al) ->
    classificationResult (st w) = None;
  inv_label : forall id k, pending w !! id = Some k -> labelRun k = true ->
    isOcrLoading (st w) = true /\ ocrAllergenResult (st w) = None;
  inv_label_unique : forall id1 k1 id2 k2,
    pending w !! id1 = Some k1 -> pending w !! id2 = Some k2 ->
    labelRun k1 = true -> labelRun k2 = true -> id1 = id2;
  inv_extract : forall id al, pending w !! id = Some (AwaitExtract al) ->
    extractedText (st w) = None
}.

(** The six result and error slots of the two pipelines. *)
Definition slots (s : State) :=
  (classificationResult s, allergenResult s, classifyError s,
   extractedText s, ocrAllergenResult s, ocrError s).

Definition noSlots :
  option ClassifyFoodOutput * option AllergenResult * option string *
  option string * option AllergenResult * option string :=
  (None, None, None, None, None, None).

End FoodScanner.

Module CameraView.

(** ** The camera view

    Every mount of the component creates an instance with refs and state
    of its own; a continuation suspended in [startCamera] keeps the refs
    of the instance that started it.  The streams that the platform has
    handed out and whose tracks have not been stopped are [live]. *)

Record Instance := {
  streamRef : option nat;       (* [streamRef.current], a stream *)
  hasPermission : option bool;  (* [boolean | null] *)
  srcObject : option nat;       (* [videoRef.current.srcObject] *)
  mounted : bool                (* [videoRef.current] is set while mounted *)
}.

Record World := {
  instances : gmap nat Instance;
  current : option nat;         (* the instance on screen *)
  nextInstance : nat;
  live : gset nat;              (* streams with running tracks *)
  nextStream : nat;
  requests : gmap nat nat;      (* pending [getUserMedia]: promise to instance *)
  nextRequest : nat;
  apiPresent : bool;            (* [navigator.mediaDevices?.getUserMedia] *)
  toasts : list Toast;
  captured : list string;       (* the calls of [onCapture] *)
  closed : nat                  (* the calls of [onClose] *)
}.

Definition Cmd := World -> World.

Definition seq (c1 c2 : Cmd) : Cmd := fun w => c2 (c1 w).
Notation "c1 >> c2" := (seq c1 c2) (at level 61, left associativity).

Definition skip : Cmd := fun w => w.

Definition setInstances (m : gmap nat Instance) : Cmd := fun w =>
  {| instances := m; current := current w; nextInstance := nextInstance w;
     live := live w; nextStream := nextStream w; requests := requests w;
     nextRequest := nextRequest w; apiPresent := apiPresent w;
     toasts := toasts w; captured := captured w; closed := closed w |}.

Definition setLive (l : gset nat) : Cmd := fun w =>
  {| instances := instances w; current := current w;
     nextInstance := nextInstance w;
     live := l; nextStream := nextStream w; requests := requests w;
     nextRequest := nextRequest w; apiPresent := apiPresent w;
     toasts := toasts w; captured := captured w; closed := closed w |}.

Definition setCurrent (c : option nat) : Cmd := fun w =>
  {| instances := instances w; current := c;
     nextInstance := nextInstance w;
     live := live w; nextStream := nextStream w; requests := requests w;
     nextRequest := nextRequest w; apiPresent := apiPresent w;
     toasts := toasts w; captured := captured w; closed := closed w |}.

Definition toast (t : Toast) : Cmd := fun w =>
  {| instances := instances w; current := current w;
     nextInstance := nextInstance w;
     live := live w; nextStream := nextStream w; requests := requests w;
     nextRequest := nextRequest w; apiPresent := apiPresent w;
     toasts := toasts w ++ [t]; captured := captured w; closed := closed w |}.

Definition onCapture (dataUri : string) : Cmd := fun w =>
  {| instances := instances w; current := current w;
     nextInstance := nextInstance w;
     live := live w; nextStream := nextStream w; requests := requests w;
     nextRequest := nextRequest w; apiPresent := apiPresent w;
     toasts := toasts w; captured := captured w ++ [dataUri];
     closed := closed w |}.

Definition onClose : Cmd := fun w =>
  {| instances := instances w; current := current w;
     nextInstance := nextInstance w;
     live := live w; nextStream := nextStream w; requests := requests w;
     nextRequest := nextRequest w; apiPresent := apiPresent w;
     toasts := toasts w; captured := captured w; closed := S (closed w) |}.

Definition setApiPresent (b : bool) : Cmd := fun w =>
  {| instances := instances w; current := current w;
     nextInstance := nextInstance w;
     live := live w; nextStream := nextStream w; requests := requests w;
     nextRequest := nextRequest w; apiPresent := b;
     toasts := toasts w; captured := captured w; closed := closed w |}.

(** Update the instance [i], when it exists. *)
Definition update (i : nat) (f : Instance -> Instance) : Cmd := fun w =>
  setInstances (alter f i (instances w)) w.

Definition setStreamRef (i : nat) (v : option nat) : Cmd :=
  update i (fun c =>
    {| streamRef := v; hasPermission := hasPermission c;
       srcObject := srcObject c; mounted := mounted c |}).

(** [setHasPermission]; a state update of an unmounted component is
    dropped by React. *)
Definition setHasPermission (i : nat) (v : bool) : Cmd :=
  update i (fun c =>
    {| streamRef := streamRef c;
       hasPermission := if mounted c then Some v else hasPermission c;
       srcObject := srcObject c; mounted := mounted c |}).

(** [if (videoRef.current) videoRef.current.srcObject = stream]. *)
Definition setSrcObject (i : nat) (v : nat) : Cmd :=
  update i (fun c =>
    {| streamRef := streamRef c; hasPermission := hasPermission c;
       srcObject := if mounted c then Some v else srcObject c;
       mounted := mounted c |}).

Definition setUnmounted (i : nat) : Cmd :=
  update i (fun c =>
    {| streamRef := streamRef c; hasPermission := hasPermission c;
       srcObject := srcObject c; mounted := false |}).

(** [stopCamera] of instance [i]: stop the tracks of the stream in
    [streamRef], if any, and forget it. *)
Definition stopCamera (i : nat) : Cmd := fun w =>
  match instances w !! i with
  | Some c =>
      match streamRef c with
      | Some s => (setLive (live w ∖ {[s]}) >> setStreamRef i None) w
      | None => w
      end
  | None => w
  end.

(** The [catch] block of [startCamera]; [name] is [err.name]. *)
Definition cameraErrorToast (name : string) : Toast :=
  if name =? "NotAllowedError" then
    {| toastVariant := "destructive"; title := "Camera Access Denied";
       description := "Please enable camera permissions in your browser settings to use this feature." |}
  else if name =? "NotFoundError" then
    {| toastVariant := "destructive"; title := "No Camera Found";
       description := "We couldn't find a camera on your device." |}
  else
    {| toastVariant := "destructive"; title := "Camera Error";
       description := "Could not access the camera. Please try again." |}.

Definition startCamera_catch (i : nat) (name : string) : Cmd :=
  setHasPermission i false >>
  toast (cameraErrorToast name).

(** A pending [getUserMedia] of instance [i]. *)
Definition getUserMedia (i : nat) : Cmd := fun w =>
  {| instances := instances w; current := current w;
     nextInstance := nextInstance w;
     live := live w; nextStream := nextStream w;
     requests := <[nextRequest w := i]> (requests w);
     nextRequest := S (nextRequest w); apiPresent := apiPresent w;
     toasts := toasts w; captured := captured w; closed := closed w |}.

(** [startCamera] up to its [await]; [new Error(...)] has the name
    ["Error"]. *)
Definition startCamera (i : nat) : Cmd :=
  stopCamera i >>
  (fun w =>
     if negb (apiPresent w) then startCamera_catch i "Error" w
     else getUserMedia i w).

(** [startCamera] once the platform has handed out [stream]. *)
Definition startCamera_granted (i : nat) (stream : nat) : Cmd :=
  setStreamRef i (Some stream) >>
  setSrcObject i stream >>
  setHasPermission i true.

(** The platform opens a new stream for the promise [rq]. *)
Definition openStream (rq : nat) : Cmd := fun w =>
  {| instances := instances w; current := current w;
     nextInstance := nextInstance w;
     live := live w ∪ {[nextStream w]}; nextStream := S (nextStream w);
     requests := delete rq (requests w);
     nextRequest := nextRequest w; apiPresent := apiPresent w;
     toasts := toasts w; captured := captured w; closed := closed w |}.

Definition rejectRequest (rq : nat) : Cmd := fun w =>
  {| instances := instances w; current := current w;
     nextInstance := nextInstance w;
     live := live w; nextStream := nextStream w;
     requests := delete rq (requests w);
     nextRequest := nextRequest w; apiPresent := apiPresent w;
     toasts := toasts w; captured := captured w; closed := closed w |}.

(** Mounting: a fresh instance, then the effect, [startCamera()]. *)
Definition mount : Cmd := fun w =>
  let i := nextInstance w in
  startCamera i
    {| instances := <[i := {| streamRef := None; hasPermission := None;
                              srcObject := None; mounted := true |}]>
                      (instances w);
       current := Some i; nextInstance := S i;
       live := live w; nextStream := nextStream w; requests := requests w;
       nextRequest := nextRequest w; apiPresent := apiPresent w;
       toasts := toasts w; captured := captured w; closed := closed w |}.

(** Unmounting: the cleanup of the effect, [stopCamera()]. *)
Definition unmount (i : nat) : Cmd :=
  stopCamera i >> setUnmounted i >> setCurrent None.

(** [handleCapture] of the camera view; the canvas and its data URI come
    from the platform. *)
Definition handleCapture (dataUri : string) : Cmd := onCapture dataUri.

Inductive Event :=
| Mount                       (* the parent renders the camera view *)
| Teardown                    (* the parent stops rendering it *)
| ClickCapture (dataUri : string)
| ClickCancel
| Granted (rq : nat)          (* [getUserMedia] resolves *)
| Rejected (rq : nat) (name : string)   (* it rejects with [err.name] *)
| ApiPresent (b : bool).

(** One event.  After [onCapture] and after [onClose] the parent no
    longer renders the camera view ([FoodScanner.handleCapture] and the
    [onClose] it passes both set [isCameraOpen] to false), so both end
    with the unmount. *)
Definition step (e : Event) (w : World) : option World :=
  match e with
  | Mount =>
      match current w with
      | None => Some (mount w)
      | Some _ => None
      end
  | Teardown =>
      match current w with
      | Some i => Some (unmount i w)
      | None => None
      end
  | ClickCapture dataUri =>
      match current w with
      | Some i =>
          match instances w !! i with
          | Some c =>
              match hasPermission c with
              | Some true => Some ((handleCapture dataUri >> unmount i) w)
              | _ => None       (* the button is disabled *)
              end
          | None => None
          end
      | None => None
      end
  | ClickCancel =>
      match current w with
      | Some i => Some ((onClose >> unmount i) w)
      | None => None
      end
  | Granted rq =>
      match requests w !! rq with
      | Some i => Some ((openStream rq >> startCamera_granted i (nextStream w)) w)
      | None => None
      end
  | Rejected rq name =>
      match requests w !! rq with
      | Some i => Some ((rejectRequest rq >> startCamera_catch i name) w)
      | None => None
      end
  | ApiPresent b => Some (setApiPresent b w)
  end.

Fixpoint run (es : list Event) (w : World) : option World :=
  match es with
  | [] => Some w
  | e :: es' =>
      match step e w with
      | Some w' => run es' w'
      | None => None
      end
  end.

Definition initial (api : bool) : World :=
  {| instances := ∅; current := None; nextInstance := 0;
     live := ∅; nextStream := 0; requests := ∅; nextRequest := 0;
     apiPresent := api; toasts := []; captured := []; closed := 0 |}.

(** The event leaves the view while no [getUserMedia] is pending, or
    does not leave it. *)
Definition orderly (e : Event) (w : World) : bool :=
  match e with
  | Teardown | ClickCancel | ClickCapture _ => bool_decide (requests w = ∅)
  | _ => true
  end.

Fixpoint run_orderly (es : list Event) (w : World) : option World :=
  match es with
  | [] => Some w
  | e :: es' =>
      if orderly e w then
        match step e w with
        | Some w' => run_orderly es' w'
        | None => None
        end
      else None
  end.

(** What holds as long as every exit is orderly: a live stream is the
    one in the ref of the instance on screen, and while a request is
    pending it is the only one, it belongs to the instance on screen, and
    no stream is live. *)
Record Exclusive (w : World) : Prop := {
  ex_live : forall s, s ∈ live w ->
    exists i c, current w = Some i /\ instances w !! i = Some c
                /\ streamRef c = Some s;
  ex_request : forall rq i, requests w !! rq = Some i ->
    current w = Some i /\ live w = ∅ /\ requests w = {[rq := i]};
  ex_current : forall i, current w = Some i -> is_Some (instances w !! i)
}.

(** *** The failures of [startCamera] and what the user sees of them *)

(** How [startCamera] can fail: the capture API is absent, or
    [getUserMedia] rejects with an error of the given name. *)
Inductive Failure :=
| ApiAbsent
| MediaError (name : string).

Definition errName (f : Failure) : string :=
  match f with
  | ApiAbsent => "Error"
  | MediaError name => name
  end.

(** The camera view mounted and failing in this way. *)
Definition failing (f : Failure) : option World :=
  match f with
  | ApiAbsent => run [Mount] (initial false)
  | MediaError name => run [Mount; Rejected 0 name] (initial true)
  end.

(** What the user sees of the failure: the toasts, and the permission
    state that decides the overlay and the capture button. *)
Definition surfaced (f : Failure) : option (list Toast * option bool) :=
  match failing f with
  | Some w =>
      match instances w !! 0 with
      | Some c => Some (toasts w, hasPermission c)
      | None => None
      end
  | None => None
  end.

(** The camera errors as the specification names them, and the one it
    gives to each failure: permission denial is [NotAllowed], no device
    [NotFound], an absent capture API [Unsupported]. *)
Inductive CameraError := NotAllowed | NotFound | Unsupported | Other.

Definition spec_cameraError (f : Failure) : CameraError :=
  match f with
  | ApiAbsent => Unsupported
  | MediaError name =>
      if name =? "NotAllowedError" then NotAllowed
      else if name =? "NotFoundError" then NotFound
      else Other
  end.

End CameraView.

(** ** Sample data for the scenarios below *)

Module Samples.
Import FoodScanner.

Definition dish : File :=
  {| fileName := "dish.png"; fileType := "image/png"; fileSize := 2048 |}.

Definition label : File :=
  {| fileName := "label.png"; fileType := "image/png"; fileSize := 1024 |}.

Definition dishUri : string := "data:image/png;base64,ZGlzaA==".
Definition labelUri : string := "data:image/png;base64,bGFiZWw=".

Definition milkshake : ClassifyFoodOutput :=
  {| classification := "Milkshake";
     confidence := QArith_base.Qmake 9 10;
     isFood := true;
     foodDetails := Some {| ingredients := ["milk"; "sugar"];
                            nutritionalData := "320 kcal";
                            region := "United States";
                            history := "Soda fountains" |};
     alternativeSuggestions := [] |}.

Definition bicycle : ClassifyFoodOutput :=
  {| classification := "Bicycle";
     confidence := QArith_base.Qmake 4 5;
     isFood := false;
     foodDetails := None;
     alternativeSuggestions := [] |}.

Definition milkAlert : DetectAllergensOutput :=
  {| alert := Some HIGH; allergenDetected := true;
     detectedAllergens := ["milk"] |}.

(** An image has been uploaded and read. *)
Definition stage : list Event :=
  [FileChange (Some dish); Settle 0 (LoadEnd (Some dishUri))].

(** The same, and then the connection is lost. *)
Definition offlineWorld : World :=
  default (initial false [])
          (run (stage ++ [Connectivity false]) (initial true ["milk"])).

(** Stage 1 of a food run has succeeded, stage 2 is awaited (promise 2). *)
Definition awaitingFoodCheck : World :=
  default (initial false [])
          (run (stage ++ [Submit; Settle 1 (Classified milkshake)])
               (initial true ["milk"])).

(** Stage 1 of a label run has succeeded, stage 2 is awaited (promise 2). *)
Definition awaitingLabelCheck : World :=
  default (initial false [])
          (run (stage ++ [TabChange "scan-label"; ScanLabel;
                          Settle 1 (Extracted "milk, cocoa")])
               (initial true ["milk"])).

(** A food run awaits its classification (promise 1). *)
Definition awaitingClassification : World :=
  default (initial false [])
          (run (stage ++ [Submit]) (initial true ["milk"])).

(** A label run awaits the extracted text (promise 1). *)
Definition awaitingText : World :=
  default (initial false [])
          (run (stage ++ [TabChange "scan-label"; ScanLabel])
               (initial true ["milk"])).

(** Run A, a food run, is started (promise 1); the user switches to the
    other tab and starts run B, a label run, which completes and is on
    display.  A's classification is still awaited. *)
Definition supersededByScan : list Event :=
  stage ++ [Submit; TabChange "scan-label"; ScanLabel;
            Settle 2 (Extracted "milk, cocoa"); Settle 3 (Detected milkAlert)].

Definition scanDisplayed : World :=
  default (initial false []) (run supersededByScan (initial true ["milk"])).

(** Run A is started; the user switches to the other tab and back. *)
Definition supersededByTabs : list Event :=
  stage ++ [Submit; TabChange "scan-label"; TabChange "analyze-food"].

(** Two files are picked one after the other; the second is read first
    and analysed (promise 2); then the first has been read and becomes
    the staged image; then the classification of the second arrives. *)
Definition restaged : list Event :=
  [FileChange (Some label); FileChange (Some dish);
   Settle 1 (LoadEnd (Some dishUri)); Submit;
   Settle 0 (LoadEnd (Some labelUri));
   Settle 2 (Classified milkshake)].

(** Scenario 1 of the specification: a dish with milk, for a user
    allergic to milk. *)
Definition scenario1 : list Event :=
  stage ++ [Submit; Settle 1 (Classified milkshake);
            Settle 2 (Detected milkAlert)].

(** Scenario 2: the image is no food. *)
Definition scenario2 : list Event :=
  stage ++ [Submit; Settle 1 (Classified bicycle)].

(** Scenario 3: a label on which no text is found. *)
Definition scenario3 : list Event :=
  stage ++ [TabChange "scan-label"; ScanLabel; Settle 1 (Extracted "")].

End Samples.

Module CameraSamples.
Import CameraView.

(** The camera is opened and cancelled while the permission prompt is
    still up; then the permission is given. *)
Definition cancelledEarly : list Event := [Mount; ClickCancel; Granted 0].

(** The same, and the camera is opened once more and granted. *)
Definition reopened : list Event := cancelledEarly ++ [Mount; Granted 1].

(** The camera is opened, granted, and a photo is taken. *)
Definition photoTaken : list Event :=
  [Mount; Granted 0; ClickCapture "data:image/jpeg;base64,cGhvdG8="].

End CameraSamples.

(** ** Further invariants and sample worlds *)

Module FoodScannerRuns.
Import FoodScanner Samples.

(** A loading flag that is set has its run in flight. *)
Definition Tracked (w : World) : Prop :=
  (isClassifyLoading (st w) = true ->
   exists id k, pending w !! id = Some k /\ foodRun k = true)
  /\ (isOcrLoading (st w) = true ->
      exists id k, pending w !! id = Some k /\ labelRun k = true).

(** An image has been uploaded; the analyze-food tab is active. *)
Definition staged : World :=
  default (initial false []) (run stage (initial true ["milk"])).

(** The same, on the scan-label tab. *)
Definition stagedForScan : World :=
  default (initial false [])
          (run (stage ++ [TabChange "scan-label"]) (initial true ["milk"])).

(** A classification that is no food but comes with details. *)
Definition waxApple : ClassifyFoodOutput :=
  {| classification := "Wax apple (decoration)";
     confidence := QArith_base.Qmake 7 10;
     isFood := false;
     foodDetails := Some {| ingredients := ["paraffin wax"];
                            nutritionalData := "Not edible";
                            region := "";
                            history := "" |};
     alternativeSuggestions := [] |}.

(** The first scenario has run to its end. *)
Definition completed : World :=
  default (initial false []) (run scenario1 (initial true ["milk"])).

End FoodScannerRuns.

Module CameraViewRuns.
Import CameraView.

(** The instance on screen is mounted, and once its permission state is
    true its ref holds a stream that is live and is the source of the
    video element. *)
Definition Holding (w : World) : Prop :=
  forall i, current w = Some i ->
    exists c, instances w !! i = Some c
      /\ mounted c = true
      /\ (hasPermission c = Some true ->
          exists s, streamRef c = Some s /\ srcObject c = Some s
                    /\ s ∈ live w).

(** The camera is open and granted. *)
Definition streaming : World :=
  default (initial true) (run [Mount; Granted 0] (initial true)).

(** The camera is open and the permission prompt is up. *)
Definition requested : World :=
  default (initial true) (run [Mount] (initial true)).

(** The camera is opened, granted, cancelled, opened again and granted. *)
Definition reopenedInOrder : list Event :=
  [Mount; Granted 0; ClickCancel; Mount; Granted 1].

Definition streamingAgain : World :=
  default (initial true) (run reopenedInOrder (initial true)).

Definition photo : string := "data:image/jpeg;base64,cGhvdG8=".

End CameraViewRuns.

Module RecommendationsPage.

(** ** The recommendations page *)

(** [String.prototype.includes]. *)
Fixpoint includes (sub s : string) : bool :=
  if String.prefix sub s then true
  else match s with
       | EmptyString => false
       | String _ s' => includes sub s'
       end.

Record RecommendedFood := {
  name : string;
  description : string;
  reasoning : string;
  dataAiHint : string
}.

(** [RecommendedFood & { imageUrl }]. *)
Record EnrichedRecommendation := {
  food : RecommendedFood;
  imageUrl : string
}.

(** The output of [recommendSafeFoods]. *)
Record Recommendations := {
  recommendations_of : list RecommendedFood;
  overallReasoning_of : string
}.

(** A toast of this page; the variant may be left out. *)
Record Notice := {
  noticeVariant : option string;
  noticeTitle : string;
  noticeDescription : string
}.

Inductive Call :=
| recommendSafeFoods (allergens : list string) (dietaryPreferences : string)
                     (nutritionGoals : string) (cuisinePreference : string)
| generateFoodImage (foodName : string).

Record State := {
  recommendations : option (list EnrichedRecommendation);
  overallReasoning : option string;
  isLoading : bool;
  cuisine : string;
  error : option string
}.

(** Where [handleGetRecommendations] is suspended. *)
Inductive Pending :=
| AwaitRecommendations
| AwaitImages (result : Recommendations).   (* at [await Promise.all(...)] *)

Record World := {
  st : State;
  onLine : bool;
  allergens : list string;
  toasts : list Notice;
  calls : list Call;
  pending : gmap nat Pending;
  nextId : nat
}.

Definition Cmd := World -> World.

Definition seq (c1 c2 : Cmd) : Cmd := fun w => c2 (c1 w).
Notation "c1 >> c2" := (seq c1 c2) (at level 61, left associativity).

Definition skip : Cmd := fun w => w.

Definition modify (f : State -> State) : Cmd := fun w =>
  {| st := f (st w); onLine := onLine w; allergens := allergens w;
     toasts := toasts w; calls := calls w; pending := pending w;
     nextId := nextId w |}.

Definition setRecommendations (v : option (list EnrichedRecommendation)) : Cmd :=
  modify (fun s =>
  {| recommendations := v; overallReasoning := overallReasoning s;
     isLoading := isLoading s; cuisine := cuisine s; error := error s |}).

Definition setOverallReasoning (v : option string) : Cmd := modify (fun s =>
  {| recommendations := recommendations s; overallReasoning := v;
     isLoading := isLoading s; cuisine := cuisine s; error := error s |}).

Definition setIsLoading (v : bool) : Cmd := modify (fun s =>
  {| recommendations := recommendations s;
     overallReasoning := overallReasoning s;
     isLoading := v; cuisine := cuisine s; error := error s |}).

Definition setCuisine (v : string) : Cmd := modify (fun s =>
  {| recommendations := recommendations s;
     overallReasoning := overallReasoning s;
     isLoading := isLoading s; cuisine := v; error := error s |}).

Definition setError (v : option string) : Cmd := modify (fun s =>
  {| recommendations := recommendations s;
     overallReasoning := overallReasoning s;
     isLoading := isLoading s; cuisine := cuisine s; error := v |}).

Definition toast (t : Notice) : Cmd := fun w =>
  {| st := st w; onLine := onLine w; allergens := allergens w;
     toasts := toasts w ++ [t]; calls := calls w; pending := pending w;
     nextId := nextId w |}.

Definition invoke (c : Call) : Cmd := fun w =>
  {| st := st w; onLine := onLine w; allergens := allergens w;
     toasts := toasts w; calls := calls w ++ [c]; pending := pending w;
     nextId := nextId w |}.

Definition suspend (k : Pending) : Cmd := fun w =>
  {| st := st w; onLine := onLine w; allergens := allergens w;
     toasts := toasts w; calls := calls w;
     pending := <[nextId w := k]> (pending w);
     nextId := S (nextId w) |}.

Definition settled (id : nat) : Cmd := fun w =>
  {| st := st w; onLine := onLine w; allergens := allergens w;
     toasts := toasts w; calls := calls w;
     pending := delete id (pending w);
     nextId := nextId w |}.

Definition setOnLine (b : bool) : Cmd := fun w =>
  {| st := st w; onLine := b; allergens := allergens w;
     toasts := toasts w; calls := calls w; pending := pending w;
     nextId := nextId w |}.

Definition setAllergens (l : list string) : Cmd := fun w =>
  {| st := st w; onLine := onLine w; allergens := l;
     toasts := toasts w; calls := calls w; pending := pending w;
     nextId := nextId w |}.

(** [cuisine || 'any']. *)
Definition cuisinePreference_of (c : string) : string :=
  if c =? "" then "any" else c.

(** [handleGetRecommendations] up to its first [await]; the [finally]
    block follows the early return of the [try]. *)
Definition handleGetRecommendations : Cmd := fun w =>
  if negb (onLine w) then
    toast {| noticeVariant := Some "destructive";
             noticeTitle := "You're Offline";
             noticeDescription :=
               "An internet connection is required to get recommendations." |}
          w
  else
    (setIsLoading true >>
     setRecommendations None >>
     setOverallReasoning None >>
     setError None >>
     (fun w1 =>
        match allergens w with
        | [] =>
            (toast {| noticeVariant := None;
                      noticeTitle := "Update Your Profile";
                      noticeDescription :=
                        "Please add at least one allergen to your profile to get recommendations." |} >>
             setIsLoading false >>
             setIsLoading false) w1
        | _ :: _ =>
            (invoke (recommendSafeFoods (allergens w) "None specified"
                       "General healthy eating"
                       (cuisinePreference_of (cuisine (st w)))) >>
             suspend AwaitRecommendations) w1
        end)) w.

(** The argument of [generateFoodImage] for a recommendation. *)
Definition foodName_of (rec : RecommendedFood) : string :=
  name rec ++ ", " ++ dataAiHint rec.

(** After [recommendSafeFoods] has returned: the image of every
    recommendation is requested, in their order, and all are awaited. *)
Definition handle_recommended (result : Recommendations) : Cmd :=
  (fun w => fold_left (fun w' rec => invoke (generateFoodImage (foodName_of rec)) w')
                      (recommendations_of result) w) >>
  suspend (AwaitImages result).

Definition placeholder : string := "https://placehold.co/600x400.png".

(** One recommendation with its image: the generated one, or the
    placeholder when the generation has failed. *)
Definition enrich (rec : RecommendedFood) (image : option string)
    : EnrichedRecommendation :=
  {| food := rec; imageUrl := default placeholder image |}.

(** After [Promise.all]: [images] holds, for every recommendation in
    order, the generated data URI, or nothing when its generation threw. *)
Definition handle_enriched (result : Recommendations)
    (images : list (option string)) : Cmd :=
  setRecommendations
    (Some (zip_with enrich (recommendations_of result) images)) >>
  setOverallReasoning (Some (overallReasoning_of result)) >>
  setIsLoading false.

Definition keyError : string :=
  "The API key is missing or invalid. Please add your own Google AI API key to the .env file as instructed in the README.".

Definition fetchError : string :=
  "Could not fetch recommendations. Please try again later.".

(** What [recommendSafeFoods] can throw, as far as the [catch] block
    looks at it; [err] has the type [any]. *)
Inductive Rejection :=
| Nullish                       (* [null] or [undefined]: reading [err.message] throws *)
| NoMessage                     (* [err.message] is [undefined] or another falsy value that is no string *)
| Text (message : string)       (* [err.message] is a string *)
| Opaque (answer : option bool).
    (* [err.message] is truthy and no string: its [includes] throws or is
       no function (nothing), or returns a truthy or a falsy value *)

(** The condition [err.message && err.message.includes(...)]: whether it
    holds, or nothing when its evaluation throws. *)
Definition keyCondition (err : Rejection) : option bool :=
  match err with
  | Nullish => None
  | NoMessage => Some false
  | Text message =>
      Some (nonempty message && includes "CONSUMER_SUSPENDED" message)
  | Opaque answer => answer
  end.

(** The [catch] and [finally] blocks.  When the condition throws, the
    [catch] block is left before [setError] and the toast; the [finally]
    block runs in every case. *)
Definition handle_catch (err : Rejection) : Cmd :=
  (fun w =>
     match keyCondition err with
     | Some key =>
         (setError (Some (if key then keyError else fetchError)) >>
          toast {| noticeVariant := Some "destructive"; noticeTitle := "Error";
                   noticeDescription :=
                     "Could not fetch recommendations. Please try again." |}) w
     | None => w
     end) >>
  setIsLoading false.

Inductive Outcome :=
| Recommended (result : Recommendations)
| Images (images : list (option string))
| Thrown (err : Rejection).

Inductive Event :=
| Click                          (* the button Recommend Foods *)
| CuisineInput (value : string)  (* the input Preferred Cuisine *)
| Settle (id : nat) (o : Outcome)
| Connectivity (b : bool)
| ProfileChange (l : list string).

(** [Promise.all] over callbacks that catch their own errors cannot
    reject, and yields one image outcome per recommendation. *)
Definition resume (k : Pending) (o : Outcome) : option Cmd :=
  match k, o with
  | AwaitRecommendations, Recommended result => Some (handle_recommended result)
  | AwaitRecommendations, Thrown err => Some (handle_catch err)
  | AwaitImages result, Images images =>
      if Nat.eqb (length images) (length (recommendations_of result))
      then Some (handle_enriched result images) else None
  | _, _ => None
  end.

(** The button and the input are disabled while loading. *)
Definition step (e : Event) (w : World) : option World :=
  match e with
  | Click =>
      if isLoading (st w) then None else Some (handleGetRecommendations w)
  | CuisineInput value =>
      if isLoading (st w) then None else Some (setCuisine value w)
  | Settle id o =>
      match pending w !! id with
      | Some k =>
          match resume k o with
          | Some c => Some ((settled id >> c) w)
          | None => None
          end
      | None => None
      end
  | Connectivity b => Some (setOnLine b w)
  | ProfileChange l => Some (setAllergens l w)
  end.

Fixpoint run (es : list Event) (w : World) : option World :=
  match es with
  | [] => Some w
  | e :: es' =>
      match step e w with
      | Some w' => run es' w'
      | None => None
      end
  end.

Definition initial (online : bool) (profile : list string) : World :=
  {| st := {| recommendations := None; overallReasoning := None;
              isLoading := false; cuisine := ""; error := None |};
     onLine := online; allergens := profile; toasts := []; calls := [];
     pending := ∅; nextId := 0 |}.

(** What holds of every world the page can reach: identifiers are
    fresh, and the loading flag is set exactly when a run is suspended,
    which is then the only one. *)
Record Inv (w : World) : Prop := {
  inv_fresh : forall id k, pending w !! id = Some k -> id < nextId w;
  inv_loading : forall id k, pending w !! id = Some k ->
    isLoading (st w) = true;
  inv_unique : forall id1 k1 id2 k2,
    pending w !! id1 = Some k1 -> pending w !! id2 = Some k2 -> id1 = id2;
  inv_run : isLoading (st w) = true -> exists id k, pending w !! id = Some k
}.

End RecommendationsPage.

Module RecommendationsSamples.
Import RecommendationsPage.

Definition waakye : RecommendedFood :=
  {| name := "Waakye"; description := "Rice and beans";
     reasoning := "No milk"; dataAiHint := "rice beans" |}.

Definition kelewele : RecommendedFood :=
  {| name := "Kelewele"; description := "Spiced fried plantain";
     reasoning := "No milk"; dataAiHint := "fried plantain" |}.

Definition advice : Recommendations :=
  {| recommendations_of := [waakye; kelewele];
     overallReasoning_of := "Dishes without dairy" |}.

(** The recommendations have arrived; the two images are awaited. *)
Definition awaitingImages : World :=
  default (initial false [])
          (run [CuisineInput "Ghanaian"; Click; Settle 0 (Recommended advice)]
               (initial true ["milk"])).

End RecommendationsSamples.

(** * Properties of the food scanner *)

Module FoodScannerFacts.
Import FoodScanner Samples.

(** Projections of a world built by a sequence of commands reduce by
    need; the commands are never unfolded on their own. *)
Ltac simpl_world := cbn in *.

Lemma guard_Some b c w w' : guard b c w = Some w' -> b = true /\ w' = c w.
Proof. unfold guard. destruct b; intros H; inversion H; auto. Qed.

(** ** The preconditions of a trigger *)

(** C4. A trigger that finds [navigator.onLine] false only emits the
    toast "You're Offline": the state (hence the loading flags and every
    slot) is as before, no remote call has been issued and nothing has
    been suspended, so no call can follow; the button of either tab leads
    to that handler. *)
Theorem offline_trigger_aborts (w : World) (Hoff : onLine w = false) :
  (toasts (onSubmit w) = toasts w ++ [offlineToast "analyze food."]
   /\ st (onSubmit w) = st w
   /\ calls (onSubmit w) = calls w
   /\ pending (onSubmit w) = pending w)
  /\ (toasts (handleScanLabel w) = toasts w ++ [offlineToast "scan labels."]
      /\ st (handleScanLabel w) = st w
      /\ calls (handleScanLabel w) = calls w
      /\ pending (handleScanLabel w) = pending w)
  /\ (forall what, title (offlineToast what) = "You're Offline"
                   /\ toastVariant (offlineToast what) = "destructive")
  /\ (forall w', step Submit w = Some w' -> w' = onSubmit w)
  /\ (forall w', step ScanLabel w = Some w' -> w' = handleScanLabel w).
Proof.
  unfold onSubmit, handleScanLabel. rewrite Hoff. cbn.
  repeat split; auto.
  - intros w' H. apply guard_Some in H as [_ ->].
    unfold onSubmit. now rewrite Hoff.
  - intros w' H. apply guard_Some in H as [_ ->].
    unfold handleScanLabel. now rewrite Hoff.
Qed.

Lemma offline_trigger_aborts_witness :
  onLine offlineWorld = false
  /\ st (onSubmit offlineWorld) = st offlineWorld
  /\ calls (handleScanLabel offlineWorld) = [].
Proof.
  split; [reflexivity |].
  destruct (offline_trigger_aborts offlineWorld eq_refl)
    as [(_ & Hst & _) [(_ & _ & Hcalls & _) _]].
  split; [exact Hst | rewrite Hcalls; reflexivity].
Defined.

(** The two handlers as functions of the world, whatever the world.
    Offline: the state is untouched, nothing is called or suspended.
    Online without an image, a case the buttons never deliver: the
    handler writes "Please select an image first." into the error slot of
    its own pipeline and nothing else.  Online with an image: the loading
    flag is set and the six slots are cleared, in the world [w1], before
    the first remote call is issued from [w1]. *)
Lemma trigger_preconditions (w : World) :
  if onLine w then
    if truthy (preview (st w)) then
      (let w1 := (setIsClassifyLoading true >> resetResults) w in
       onSubmit w = await (classifyFood (default "" (preview (st w))))
                          (AwaitClassify (userAllergens w)) w1
       /\ slots (st w1) = noSlots
       /\ isClassifyLoading (st w1) = true
       /\ calls w1 = calls w /\ pending w1 = pending w
       /\ st (onSubmit w) = st w1
       /\ calls (onSubmit w)
          = calls w ++ [classifyFood (default "" (preview (st w)))])
      /\ (let w1 := (setIsOcrLoading true >> resetResults) w in
          handleScanLabel w
          = await (extractTextFromImage (default "" (preview (st w))))
                  (AwaitExtract (userAllergens w)) w1
          /\ slots (st w1) = noSlots
          /\ isOcrLoading (st w1) = true
          /\ calls w1 = calls w /\ pending w1 = pending w
          /\ st (handleScanLabel w) = st w1
          /\ calls (handleScanLabel w)
             = calls w ++ [extractTextFromImage (default "" (preview (st w)))])
    else
      (onSubmit w = setClassifyError (Some pleaseSelect) w
       /\ slots (st (onSubmit w))
          = (classificationResult (st w), allergenResult (st w),
             Some pleaseSelect,
             extractedText (st w), ocrAllergenResult (st w), ocrError (st w))
       /\ isClassifyLoading (st (onSubmit w)) = isClassifyLoading (st w)
       /\ isOcrLoading (st (onSubmit w)) = isOcrLoading (st w)
       /\ calls (onSubmit w) = calls w /\ pending (onSubmit w) = pending w
       /\ toasts (onSubmit w) = toasts w)
      /\ (handleScanLabel w = setOcrError (Some pleaseSelect) w
          /\ slots (st (handleScanLabel w))
             = (classificationResult (st w), allergenResult (st w),
                classifyError (st w),
                extractedText (st w), ocrAllergenResult (st w),
                Some pleaseSelect)
          /\ isClassifyLoading (st (handleScanLabel w)) = isClassifyLoading (st w)
          /\ isOcrLoading (st (handleScanLabel w)) = isOcrLoading (st w)
          /\ calls (handleScanLabel w) = calls w
          /\ pending (handleScanLabel w) = pending w
          /\ toasts (handleScanLabel w) = toasts w)
  else
    (st (onSubmit w) = st w /\ calls (onSubmit w) = calls w
     /\ pending (onSubmit w) = pending w)
    /\ (st (handleScanLabel w) = st w /\ calls (handleScanLabel w) = calls w
        /\ pending (handleScanLabel w) = pending w).
Proof.
  unfold onSubmit, handleScanLabel.
  destruct (onLine w); cbn; [destruct (truthy (preview (st w))); cbn |];
    repeat split; reflexivity.
Qed.

(** ** Switching tabs *)

(** C8. A change of tab records the new tab and clears the six slots:
    the card and the banner of the tab that is left disappear, neither
    card nor banner of the tab that is entered shows anything afterwards;
    before the change nothing of a tab other than the active one was on
    display, so no displayed result of the entered kind is altered.  The
    preview and the form image are as before, and so is what is in
    flight. *)
Theorem tab_switch_clears_results (w : World) (value : string) :
  let w' := onValueChange value w in
  step (TabChange value) w = Some w'
  /\ activeTab (st w') = value
  /\ slots (st w') = noSlots
  /\ classificationCard (st w') = None /\ classifyErrorBanner (st w') = None
  /\ scanCard (st w') = None /\ ocrErrorBanner (st w') = None
  /\ (activeTab (st w) <> "analyze-food" ->
      classificationCard (st w) = None /\ classifyErrorBanner (st w) = None)
  /\ (activeTab (st w) <> "scan-label" ->
      scanCard (st w) = None /\ ocrErrorBanner (st w) = None)
  /\ preview (st w') = preview (st w)
  /\ formImage (st w') = formImage (st w)
  /\ isCameraOpen (st w') = isCameraOpen (st w)
  /\ pending w' = pending w /\ calls w' = calls w.
Proof.
  cbn. repeat split; try reflexivity.
  - unfold classificationCard. destruct (classificationResult (st w)); auto.
    destruct (String.eqb_spec (activeTab (st w)) "analyze-food"); congruence.
  - unfold classifyErrorBanner.
    destruct (String.eqb_spec (activeTab (st w)) "analyze-food");
      [congruence | now rewrite andb_false_r].
  - unfold scanCard. destruct (extractedText (st w)); auto.
    destruct (String.eqb_spec (activeTab (st w)) "scan-label"); congruence.
  - unfold ocrErrorBanner.
    destruct (String.eqb_spec (activeTab (st w)) "scan-label");
      [congruence | now rewrite andb_false_r].
Qed.

Lemma tab_switch_clears_results_witness :
  slots (st scanDisplayed) <> noSlots
  /\ activeTab (st scanDisplayed) = "scan-label"
  /\ classificationCard (st scanDisplayed) = None
  /\ slots (st (onValueChange "analyze-food" scanDisplayed)) = noSlots
  /\ preview (st (onValueChange "analyze-food" scanDisplayed)) = Some dishUri.
Proof.
  destruct (tab_switch_clears_results scanDisplayed "analyze-food")
    as (_ & _ & Hs & _ & _ & _ & _ & Hbefore & _ & Hp & _).
  split; [vm_compute; discriminate |].
  split; [vm_compute; reflexivity |].
  split; [apply Hbefore; vm_compute; discriminate |].
  split; [exact Hs |].
  rewrite Hp. vm_compute. reflexivity.
Defined.

(** ** Failure of stage 2 *)

(** C5. When the allergen check of a run throws, the [catch] block sets
    the error of that pipeline, emits the toast "Analysis Failed", drops
    the loading flag and ends the run; the stage-1 slots, and with them
    what the two cards show as stage-1 result, are as before. *)
Theorem stage2_failure_keeps_stage1 (w : World) (id : nat) (k : Pending)
    (Hid : pending w !! id = Some k)
    (Hk : k = AwaitDetectFood \/ k = AwaitDetectLabel) :
  exists w',
    step (Settle id Thrown) w = Some w'
    /\ classificationResult (st w') = classificationResult (st w)
    /\ extractedText (st w') = extractedText (st w)
    /\ fst <$> classificationCard (st w') = fst <$> classificationCard (st w)
    /\ fst <$> scanCard (st w') = fst <$> scanCard (st w)
    /\ pending w' = delete id (pending w)
    /\ calls w' = calls w
    /\ match k with
       | AwaitDetectFood =>
           classifyError (st w') = Some analysisError
           /\ isClassifyLoading (st w') = false
           /\ toasts w' = toasts w ++
                [{| toastVariant := "destructive"; title := "Analysis Failed";
                    description := "Could not analyze the food item." |}]
       | _ =>
           ocrError (st w') = Some labelError
           /\ isOcrLoading (st w') = false
           /\ toasts w' = toasts w ++
                [{| toastVariant := "destructive"; title := "Analysis Failed";
                    description := "Could not analyze the product label." |}]
       end.
Proof.
  cbn. rewrite Hid. destruct Hk as [-> | ->]; cbn;
    eexists; (split; [reflexivity |]); simpl_world;
    unfold classificationCard, scanCard; cbn;
    repeat split; try reflexivity.
  all: try (destruct (classificationResult (st w)); [| reflexivity]).
  all: try (destruct (extractedText (st w)); [| reflexivity]).
  all: match goal with |- context [?a =? ?b] => destruct (a =? b) end;
    reflexivity.
Qed.

Lemma stage2_failure_keeps_stage1_witness :
  pending awaitingFoodCheck !! 2 = Some AwaitDetectFood
  /\ pending awaitingLabelCheck !! 2 = Some AwaitDetectLabel
  /\ (exists w', step (Settle 2 Thrown) awaitingFoodCheck = Some w'
                 /\ classificationResult (st w') = Some milkshake
                 /\ classifyError (st w') = Some analysisError)
  /\ (exists w', step (Settle 2 Thrown) awaitingLabelCheck = Some w'
                 /\ extractedText (st w') = Some "milk, cocoa"
                 /\ ocrError (st w') = Some labelError).
Proof.
  assert (Hfood : pending awaitingFoodCheck !! 2 = Some AwaitDetectFood)
    by (vm_compute; reflexivity).
  assert (Hlabel : pending awaitingLabelCheck !! 2 = Some AwaitDetectLabel)
    by (vm_compute; reflexivity).
  split; [exact Hfood |]. split; [exact Hlabel |]. split.
  - destruct (stage2_failure_keeps_stage1 awaitingFoodCheck 2 AwaitDetectFood
                Hfood (or_introl eq_refl))
      as (w' & Hs & Hc & _ & _ & _ & _ & _ & He & _).
    exists w'. split; [exact Hs |].
    split; [rewrite Hc; vm_compute; reflexivity | exact He].
  - destruct (stage2_failure_keeps_stage1 awaitingLabelCheck 2 AwaitDetectLabel
                Hlabel (or_intror eq_refl))
      as (w' & Hs & _ & Hx & _ & _ & _ & _ & He & _).
    exists w'. split; [exact Hs |].
    split; [rewrite Hx; vm_compute; reflexivity | exact He].
Defined.

(** ** The invariant of the user interface *)

Lemma Inv_initial online profile : Inv (initial online profile).
Proof.
  constructor; cbn; intros *; rewrite lookup_empty; discriminate.
Qed.

Ltac split_hyps :=
  repeat match goal with
  | H : _ \/ _ |- _ => destruct H
  | H : _ /\ _ |- _ => destruct H
  | H : Some _ = Some _ |- _ => inversion H; clear H
  end; subst; cbn in *.

Ltac use_inv Hfood Hcl Hlab Hex :=
  try match goal with
      | H : pending _ !! _ = Some ?k, Hk : foodRun ?k = true |- _ =>
          destruct (Hfood _ _ H Hk)
      end;
  try match goal with
      | H : pending _ !! _ = Some ?k, Hk : labelRun ?k = true |- _ =>
          destruct (Hlab _ _ H Hk)
      end;
  try match goal with
      | H : pending _ !! _ = Some (AwaitClassify _) |- _ =>
          pose proof (Hcl _ _ H); destruct (Hfood _ _ H eq_refl)
      end;
  try match goal with
      | H : pending _ !! _ = Some AwaitDetectFood |- _ =>
          destruct (Hfood _ _ H eq_refl)
      end;
  try match goal with
      | H : pending _ !! _ = Some (AwaitExtract _) |- _ =>
          pose proof (Hex _ _ H); destruct (Hlab _ _ H eq_refl)
      end;
  try match goal with
      | H : pending _ !! _ = Some AwaitDetectLabel |- _ =>
          destruct (Hlab _ _ H eq_refl)
      end.

Ltac close_inv Hf Hfood Hfu Hcl Hlab Hlu Hex :=
  intros *; rewrite ?lookup_insert_Some, ?lookup_delete_Some; intros;
  split_hyps; try discriminate; try congruence; eauto;
  try (match goal with
       | H : pending _ !! _ = Some _ |- _ < _ => apply Hf in H; lia
       end);
  try (exfalso;
       match goal with
       | Hne : ?a <> ?b, H1 : pending _ !! ?a = Some _,
         H2 : pending _ !! ?b = Some _ |- _ =>
           apply Hne;
           first [ eapply (Hfu _ _ _ _ H1 H2); (reflexivity || assumption)
                 | eapply (Hlu _ _ _ _ H1 H2); (reflexivity || assumption) ]
       end);
  try (use_inv Hfood Hcl Hlab Hex; repeat split; congruence).

Ltac inv_cmd HI :=
  destruct HI as [Hf Hfood Hfu Hcl Hlab Hlu Hex];
  constructor; simpl_world;
  close_inv Hf Hfood Hfu Hcl Hlab Hlu Hex.

Lemma Inv_step e w w' : Inv w -> step e w = Some w' -> Inv w'.
Proof.
  intros HI Hstep. destruct e; cbn in Hstep.
  - apply guard_Some in Hstep as [Hg ->]. destruct file; inv_cmd HI.
  - apply guard_Some in Hstep as [Hg ->]. inv_cmd HI.
  - apply guard_Some in Hstep as [Hg ->]. inv_cmd HI.
  - apply guard_Some in Hstep as [Hg ->]. inv_cmd HI.
  - apply guard_Some in Hstep as [Hg ->]. inv_cmd HI.
  - inversion Hstep; subst. inv_cmd HI.
  - (* Submit: the button is disabled while a food run is loading *)
    apply guard_Some in Hstep as [Hg ->].
    unfold submitEnabled in Hg.
    destruct (isClassifyLoading (st w)) eqn:Hload;
      [ rewrite andb_false_r in Hg; discriminate |].
    unfold onSubmit.
    destruct (onLine w); cbn; [ destruct (truthy (preview (st w))); cbn |].
    all: inv_cmd HI.
  - (* ScanLabel: likewise *)
    apply guard_Some in Hstep as [Hg ->].
    unfold scanEnabled in Hg.
    destruct (isOcrLoading (st w)) eqn:Hload;
      [ rewrite andb_false_r in Hg; discriminate |].
    unfold handleScanLabel.
    destruct (onLine w); cbn; [ destruct (truthy (preview (st w))); cbn |].
    all: inv_cmd HI.
  - (* Settle: by the continuation that is resumed *)
    destruct (pending w !! id) as [k|] eqn:Hid; [| discriminate].
    destruct (resume k o) as [c|] eqn:Hres; [| discriminate].
    inversion Hstep; subst; clear Hstep.
    destruct k, o; cbn in Hres; inversion Hres; subst; clear Hres.
    all: try (unfold onSubmit_classified;
              destruct (isFood cfOutput), (foodDetails cfOutput)).
    all: try (unfold handleScanLabel_extracted; destruct (nonempty text)).
    all: inv_cmd HI.
  - inversion Hstep; subst. inv_cmd HI.
  - inversion Hstep; subst. inv_cmd HI.
Qed.

Lemma Inv_run es : forall w w', Inv w -> run es w = Some w' -> Inv w'.
Proof.
  induction es as [| e es IH]; cbn; intros w w' HI Hrun.
  - inversion Hrun; subst. exact HI.
  - destruct (step e w) as [w1|] eqn:Hstep; [| discriminate].
    eapply IH; [| exact Hrun]. eapply Inv_step; eauto.
Qed.

Lemma Inv_reachable es online profile w :
  run es (initial online profile) = Some w -> Inv w.
Proof. apply Inv_run, Inv_initial. Qed.

Lemma nonempty_spec (s : string) : nonempty s = true <-> s <> "".
Proof.
  unfold nonempty. destruct (String.eqb_spec s ""); cbn; split; congruence.
Qed.

(** ** Stage 2 after stage 1 *)

(** C2, amended. In a world the interface can reach, let a food run await its
    classification, with the profile [al] captured by the trigger, and
    let the classification [cf] arrive.  It is recorded.  When [isFood]
    is true and [foodDetails] present, the allergen check is called with
    the ingredients joined by [", "] and with [al], and the run awaits
    it.  In every other case nothing is called, no food run is left in
    flight, the loading flag is dropped, no allergen result is there, the
    derived risk is UNKNOWN and the header of the card holds no allergen
    badge: it holds the plain UNKNOWN outline when the details are
    absent and nothing otherwise. *)
Theorem food_stage2_iff_food_with_details
    (es : list Event) (online : bool) (profile : list string)
    (w : World) (id : nat) (al : list string) (cf : ClassifyFoodOutput)
    (Hrun : run es (initial online profile) = Some w)
    (Hid : pending w !! id = Some (AwaitClassify al)) :
  let w' := (settled id >> onSubmit_classified al cf) w in
  step (Settle id (Classified cf)) w = Some w'
  /\ classificationResult (st w') = Some cf
  /\ match isFood cf, foodDetails cf with
     | true, Some details =>
         calls w' = calls w ++
           [detectAllergensAndGenerateAlert (join ", " (ingredients details)) al]
         /\ pending w' !! nextId w = Some AwaitDetectFood
         /\ isClassifyLoading (st w') = true
     | _, _ =>
         calls w' = calls w
         /\ (forall id' k, pending w' !! id' = Some k -> foodRun k = false)
         /\ isClassifyLoading (st w') = false
         /\ allergenResult (st w') = None
         /\ children (classifyBadgeProps (st w')) = "UNKNOWN"
         /\ classifyHeader (st w') cf
            = (if isSome (foodDetails cf) then Nothing else UnknownOutline)
     end
  /\ (forall w0, onLine w0 = true -> truthy (preview (st w0)) = true ->
        pending (onSubmit w0) !! nextId w0
        = Some (AwaitClassify (userAllergens w0))).
Proof.
  pose proof (Inv_reachable _ _ _ _ Hrun) as HI.
  destruct (inv_food w HI id _ Hid eq_refl) as [Hload Hnone].
  assert (Hrest : forall id' k, delete id (pending w) !! id' = Some k ->
                                foodRun k = false).
  { intros id' k Hk. apply lookup_delete_Some in Hk as [Hne Hk].
    destruct (foodRun k) eqn:Hfk; [| reflexivity].
    exfalso. apply Hne.
    exact (inv_food_unique w HI id _ id' k Hid Hk eq_refl Hfk). }
  cbn. rewrite Hid. cbn. split; [reflexivity |].
  split; [unfold onSubmit_classified;
          destruct (isFood cf), (foodDetails cf); reflexivity |].
  split.
  - unfold onSubmit_classified, classifyHeader, classifyBadgeProps.
    destruct (isFood cf), (foodDetails cf); simpl_world;
      rewrite ?Hnone, ?Hload; cbn;
      repeat split; try reflexivity; try exact Hrest.
    apply lookup_insert_eq.
  - intros w0 Hon Hprev. unfold onSubmit. rewrite Hon, Hprev. cbn.
    simpl_world. apply lookup_insert_eq.
Qed.

Lemma food_stage2_iff_food_with_details_witness :
  run (stage ++ [Submit]) (initial true ["milk"]) = Some awaitingClassification
  /\ pending awaitingClassification !! 1 = Some (AwaitClassify ["milk"])
  /\ (exists w',
        step (Settle 1 (Classified milkshake)) awaitingClassification = Some w'
        /\ calls w' = [classifyFood dishUri;
                       detectAllergensAndGenerateAlert "milk, sugar" ["milk"]])
  /\ (exists w',
        step (Settle 1 (Classified bicycle)) awaitingClassification = Some w'
        /\ calls w' = [classifyFood dishUri]
        /\ pending w' = ∅
        /\ classifyHeader (st w') bicycle = UnknownOutline).
Proof.
  assert (Hrun : run (stage ++ [Submit]) (initial true ["milk"])
                 = Some awaitingClassification) by (vm_compute; reflexivity).
  assert (Hid : pending awaitingClassification !! 1
                = Some (AwaitClassify ["milk"])) by (vm_compute; reflexivity).
  split; [exact Hrun |]. split; [exact Hid |]. split.
  - destruct (food_stage2_iff_food_with_details
                (stage ++ [Submit]) true ["milk"] awaitingClassification
                1 ["milk"] milkshake Hrun Hid) as (Hs & _).
    eexists. split; [exact Hs |]. vm_compute. reflexivity.
  - destruct (food_stage2_iff_food_with_details
                (stage ++ [Submit]) true ["milk"] awaitingClassification
                1 ["milk"] bicycle Hrun Hid) as (Hs & _).
    eexists. split; [exact Hs |]. vm_compute. repeat split; reflexivity.
Defined.

(** C3. In a world the interface can reach, let a label run await the
    extracted text, with the profile [al] captured by the trigger, and
    let [text] arrive.  It is recorded, and the scan card of the
    scan-label tab shows it, the empty string included.  When [text] is
    not empty the allergen check is called with [text] and [al] and the
    run awaits it; when it is empty nothing is called, no label run is
    left in flight and the loading flag is dropped. *)
Theorem label_stage2_iff_text_nonempty
    (es : list Event) (online : bool) (profile : list string)
    (w : World) (id : nat) (al : list string) (text : string)
    (Hrun : run es (initial online profile) = Some w)
    (Hid : pending w !! id = Some (AwaitExtract al)) :
  let w' := (settled id >> handleScanLabel_extracted al text) w in
  step (Settle id (Extracted text)) w = Some w'
  /\ extractedText (st w') = Some text
  /\ scanCard (st w')
     = (if activeTab (st w) =? "scan-label"
        then Some (text, scanHeader (st w')) else None)
  /\ (if nonempty text then
        calls w' = calls w ++ [detectAllergensAndGenerateAlert text al]
        /\ pending w' !! nextId w = Some AwaitDetectLabel
        /\ isOcrLoading (st w') = true
        /\ scanHeader (st w') = Spinner
      else
        calls w' = calls w
        /\ (forall id' k, pending w' !! id' = Some k -> labelRun k = false)
        /\ isOcrLoading (st w') = false
        /\ ocrAllergenResult (st w') = None
        /\ scanHeader (st w') = Nothing)
  /\ (nonempty text = true <-> text <> "")
  /\ (forall w0, onLine w0 = true -> truthy (preview (st w0)) = true ->
        pending (handleScanLabel w0) !! nextId w0
        = Some (AwaitExtract (userAllergens w0))).
Proof.
  pose proof (Inv_reachable _ _ _ _ Hrun) as HI.
  destruct (inv_label w HI id _ Hid eq_refl) as [Hload Hnone].
  assert (Hrest : forall id' k, delete id (pending w) !! id' = Some k ->
                                labelRun k = false).
  { intros id' k Hk. apply lookup_delete_Some in Hk as [Hne Hk].
    destruct (labelRun k) eqn:Hfk; [| reflexivity].
    exfalso. apply Hne.
    exact (inv_label_unique w HI id _ id' k Hid Hk eq_refl Hfk). }
  cbn. rewrite Hid. cbn. split; [reflexivity |].
  split; [unfold handleScanLabel_extracted;
          destruct (nonempty text); reflexivity |].
  split; [unfold handleScanLabel_extracted, scanCard;
          destruct (nonempty text); reflexivity |].
  split; [| split; [apply nonempty_spec |]].
  - unfold handleScanLabel_extracted, scanHeader.
    destruct (nonempty text); simpl_world;
      rewrite ?Hnone, ?Hload; cbn;
      repeat split; try reflexivity; try exact Hrest.
    apply lookup_insert_eq.
  - intros w0 Hon Hprev. unfold handleScanLabel. rewrite Hon, Hprev. cbn.
    simpl_world. apply lookup_insert_eq.
Qed.

Lemma label_stage2_iff_text_nonempty_witness :
  run (stage ++ [TabChange "scan-label"; ScanLabel]) (initial true ["milk"])
  = Some awaitingText
  /\ pending awaitingText !! 1 = Some (AwaitExtract ["milk"])
  /\ (exists w',
        step (Settle 1 (Extracted "")) awaitingText = Some w'
        /\ scanCard (st w') = Some ("", Nothing)
        /\ calls w' = [extractTextFromImage dishUri]
        /\ pending w' = ∅)
  /\ (exists w',
        step (Settle 1 (Extracted "milk, cocoa")) awaitingText = Some w'
        /\ scanCard (st w') = Some ("milk, cocoa", Spinner)
        /\ calls w' = [extractTextFromImage dishUri;
                       detectAllergensAndGenerateAlert "milk, cocoa" ["milk"]]).
Proof.
  assert (Hrun : run (stage ++ [TabChange "scan-label"; ScanLabel])
                     (initial true ["milk"])
                 = Some awaitingText) by (vm_compute; reflexivity).
  assert (Hid : pending awaitingText !! 1 = Some (AwaitExtract ["milk"]))
    by (vm_compute; reflexivity).
  split; [exact Hrun |]. split; [exact Hid |]. split.
  - destruct (label_stage2_iff_text_nonempty
                (stage ++ [TabChange "scan-label"; ScanLabel]) true ["milk"]
                awaitingText 1 ["milk"] "" Hrun Hid) as (Hs & _).
    eexists. split; [exact Hs |]. vm_compute. repeat split; reflexivity.
  - destruct (label_stage2_iff_text_nonempty
                (stage ++ [TabChange "scan-label"; ScanLabel]) true ["milk"]
                awaitingText 1 ["milk"] "milk, cocoa" Hrun Hid)
      as (Hs & _).
    eexists. split; [exact Hs |]. vm_compute. repeat split; reflexivity.
Defined.

(** The first three scenarios of the specification. *)
Example scenario1_high_risk :
  match run scenario1 (initial true ["milk"]) with
  | Some w =>
      classificationCard (st w)
      = Some (milkshake, AllergenBadge (getAlertBadgeProps (Some HIGH)))
      /\ children (classifyBadgeProps (st w)) = "HIGH RISK"
      /\ calls w = [classifyFood dishUri;
                    detectAllergensAndGenerateAlert "milk, sugar" ["milk"]]
      /\ loading (st w) = false /\ pending w = ∅
  | None => False
  end.
Proof. vm_compute. repeat split; reflexivity. Qed.

Example scenario2_not_food :
  match run scenario2 (initial true ["milk"]) with
  | Some w =>
      classificationCard (st w) = Some (bicycle, UnknownOutline)
      /\ children (classifyBadgeProps (st w)) = "UNKNOWN"
      /\ calls w = [classifyFood dishUri]
      /\ loading (st w) = false /\ pending w = ∅
  | None => False
  end.
Proof. vm_compute. repeat split; reflexivity. Qed.

Example scenario3_empty_text :
  match run scenario3 (initial true ["milk"]) with
  | Some w =>
      scanCard (st w) = Some ("", Nothing)
      /\ calls w = [extractTextFromImage dishUri]
      /\ loading (st w) = false /\ pending w = ∅
  | None => False
  end.
Proof. vm_compute. repeat split; reflexivity. Qed.

(** ** Late responses *)

(** C1, as stated, fails.  With run B of the other kind on display, the
    late classification of the superseded run A is not discarded: it is
    written into the state and A's allergen check is called.  And when A
    has been superseded by switching tabs back and forth, its late
    classification appears on the card. *)
Lemma late_response_not_discarded :
  match run supersededByScan (initial true ["milk"]) with
  | Some w =>
      scanCard (st w)
      = Some ("milk, cocoa", AllergenBadge (getAlertBadgeProps (Some HIGH)))
      /\ pending w !! 1 = Some (AwaitClassify ["milk"])
      /\ classificationResult (st w) = None
      /\ match step (Settle 1 (Classified milkshake)) w with
         | Some w' =>
             classificationResult (st w') = Some milkshake
             /\ st w' <> st w
             /\ calls w' = calls w ++
                  [detectAllergensAndGenerateAlert "milk, sugar" ["milk"]]
         | None => False
         end
  | None => False
  end
  /\ match run supersededByTabs (initial true ["milk"]) with
     | Some w =>
         classificationCard (st w) = None
         /\ match step (Settle 1 (Classified milkshake)) w with
            | Some w' => classificationCard (st w') = Some (milkshake, Spinner)
            | None => False
            end
     | None => False
     end.
Proof.
  vm_compute. repeat split; try reflexivity. discriminate.
Qed.

(** C1, amended.  Nothing compares a run identifier: whenever the
    response of a run arrives, it is written into the slots of the run's
    own pipeline.  It leaves the slots of the other pipeline, the preview
    and the active tab as they are, so the card and the banner of the
    other kind do not change; and as long as the run is in flight the
    trigger of its own kind is disabled, so that a newer run in flight is
    of the other kind. *)
Theorem late_response_touches_own_kind_only
    (es : list Event) (online : bool) (profile : list string)
    (w w' : World) (id : nat) (k : Pending) (o : Outcome)
    (Hrun : run es (initial online profile) = Some w)
    (Hid : pending w !! id = Some k)
    (Hstep : step (Settle id o) w = Some w') :
  (foodRun k = true ->
     submitEnabled (st w) = false
     /\ extractedText (st w') = extractedText (st w)
     /\ ocrAllergenResult (st w') = ocrAllergenResult (st w)
     /\ ocrError (st w') = ocrError (st w)
     /\ scanCard (st w') = scanCard (st w)
     /\ ocrErrorBanner (st w') = ocrErrorBanner (st w)
     /\ preview (st w') = preview (st w)
     /\ activeTab (st w') = activeTab (st w))
  /\ (labelRun k = true ->
        scanEnabled (st w) = false
        /\ classificationResult (st w') = classificationResult (st w)
        /\ allergenResult (st w') = allergenResult (st w)
        /\ classifyError (st w') = classifyError (st w)
        /\ classificationCard (st w') = classificationCard (st w)
        /\ classifyErrorBanner (st w') = classifyErrorBanner (st w)
        /\ preview (st w') = preview (st w)
        /\ activeTab (st w') = activeTab (st w))
  /\ match k, o with
     | AwaitClassify _, Classified cf =>
         classificationResult (st w') = Some cf
     | AwaitDetectFood, Detected da => allergenResult (st w') = Some da
     | AwaitExtract _, Extracted text => extractedText (st w') = Some text
     | AwaitDetectLabel, Detected da => ocrAllergenResult (st w') = Some da
     | AwaitClassify _, Thrown | AwaitDetectFood, Thrown =>
         classifyError (st w') = Some analysisError
     | AwaitExtract _, Thrown | AwaitDetectLabel, Thrown =>
         ocrError (st w') = Some labelError
     | _, _ => True
     end.
Proof.
  pose proof (Inv_reachable _ _ _ _ Hrun) as HI.
  cbn in Hstep. rewrite Hid in Hstep.
  destruct (resume k o) as [c|] eqn:Hres; [| discriminate].
  inversion Hstep; subst w'; clear Hstep.
  split; [| split].
  - intros Hk. destruct (inv_food w HI id k Hid Hk) as [Hload _].
    split; [unfold submitEnabled; rewrite Hload; apply andb_false_r |].
    destruct k, o; try discriminate; cbn in Hres; inversion Hres; subst c;
      try (unfold onSubmit_classified;
           destruct (isFood cfOutput), (foodDetails cfOutput));
      repeat split; reflexivity.
  - intros Hk. destruct (inv_label w HI id k Hid Hk) as [Hload _].
    split; [unfold scanEnabled; rewrite Hload; apply andb_false_r |].
    destruct k, o; try discriminate; cbn in Hres; inversion Hres; subst c;
      try (unfold handleScanLabel_extracted; destruct (nonempty text));
      repeat split; reflexivity.
  - destruct k, o; try exact I; cbn in Hres; inversion Hres; subst c;
      try (unfold onSubmit_classified;
           destruct (isFood cfOutput), (foodDetails cfOutput));
      try (unfold handleScanLabel_extracted; destruct (nonempty text));
      reflexivity.
Qed.

Lemma late_response_touches_own_kind_only_witness :
  run supersededByScan (initial true ["milk"]) = Some scanDisplayed
  /\ pending scanDisplayed !! 1 = Some (AwaitClassify ["milk"])
  /\ exists w',
       step (Settle 1 (Classified milkshake)) scanDisplayed = Some w'
       /\ scanCard (st w') = scanCard (st scanDisplayed)
       /\ classificationResult (st w') = Some milkshake.
Proof.
  assert (Hrun : run supersededByScan (initial true ["milk"])
                 = Some scanDisplayed) by (vm_compute; reflexivity).
  assert (Hid : pending scanDisplayed !! 1 = Some (AwaitClassify ["milk"]))
    by (vm_compute; reflexivity).
  assert (Hstep : step (Settle 1 (Classified milkshake)) scanDisplayed
                  = Some ((settled 1 >> onSubmit_classified ["milk"] milkshake)
                            scanDisplayed))
    by (vm_compute; reflexivity).
  split; [exact Hrun |]. split; [exact Hid |].
  eexists. split; [exact Hstep |].
  destruct (late_response_touches_own_kind_only
              supersededByScan true ["milk"] scanDisplayed _ 1
              (AwaitClassify ["milk"]) (Classified milkshake)
              Hrun Hid Hstep) as (Hfood & _ & Happlied).
  destruct (Hfood eq_refl) as (_ & _ & _ & _ & Hcard & _).
  split; [exact Hcard | exact Happlied].
Defined.

(** ** Staging an image *)

(** C9, as stated, fails.  The run started on the image [dishUri] is not
    invalidated when the image [labelUri] is staged: its classification
    arrives afterwards and is displayed, with its ingredients sent on to
    the allergen check, while the staged image is another one. *)
Lemma stale_result_after_restaging :
  match run restaged (initial true ["milk"]) with
  | Some w =>
      preview (st w) = Some labelUri
      /\ formImage (st w) = Some label
      /\ classificationCard (st w) = Some (milkshake, Spinner)
      /\ calls w = [classifyFood dishUri;
                    detectAllergensAndGenerateAlert "milk, sugar" ["milk"]]
      /\ labelUri <> dishUri
  | None => False
  end.
Proof.
  vm_compute. repeat split; try reflexivity. discriminate.
Qed.

(** C9, amended.  The callback of an upload, [reader.onloadend],
    replaces the preview and the form image and clears the six slots in
    one step.  A capture replaces the preview and closes the camera at
    once and leaves the six slots and the form image for the callback of
    its blob, which sets the form image and clears the six slots.  None
    of them cancels what is in flight: the suspended runs stay, and their
    responses are applied when they arrive.  In a world the interface can
    reach, the upload box and its camera button are enabled only when no
    run is in flight. *)
Theorem staging_replaces_image_and_clears_slots (w : World) :
  (forall file result,
      let w' := onloadend file result w in
      preview (st w') = result /\ formImage (st w') = Some file
      /\ slots (st w') = noSlots
      /\ pending w' = pending w /\ calls w' = calls w)
  /\ (forall dataUri,
        let w' := handleCapture dataUri w in
        preview (st w') = Some dataUri /\ isCameraOpen (st w') = false
        /\ slots (st w') = slots (st w)
        /\ formImage (st w') = formImage (st w)
        /\ pending w' = <[nextId w := BlobFetching]> (pending w)
        /\ calls w' = calls w)
  /\ (forall size,
        let w' := onblob size w in
        formImage (st w')
        = Some {| fileName := "capture.jpg"; fileType := "image/jpeg";
                  fileSize := size |}
        /\ slots (st w') = noSlots
        /\ preview (st w') = preview (st w)
        /\ pending w' = pending w /\ calls w' = calls w)
  /\ (forall id file result,
        pending w !! id = Some (ReaderLoading file) ->
        step (Settle id (LoadEnd result)) w
        = Some ((settled id >> onloadend file result) w))
  /\ (forall id size,
        pending w !! id = Some BlobFetching ->
        step (Settle id (Blob size)) w = Some ((settled id >> onblob size) w))
  /\ (forall dataUri w',
        step (Capture dataUri) w = Some w' -> w' = handleCapture dataUri w)
  /\ (forall es online profile,
        run es (initial online profile) = Some w ->
        uploadBoxEnabled (st w) = true ->
        forall id k, pending w !! id = Some k ->
                     foodRun k = false /\ labelRun k = false).
Proof.
  split; [intros file result; repeat split; reflexivity |].
  split; [intros dataUri; repeat split; reflexivity |].
  split; [intros size; repeat split; reflexivity |].
  split; [intros id file result Hid; cbn; now rewrite Hid |].
  split; [intros id size Hid; cbn; now rewrite Hid |].
  split; [intros dataUri w' H; now apply guard_Some in H as [_ ->] |].
  intros es online profile Hrun Hbox id k Hid.
  pose proof (Inv_reachable _ _ _ _ Hrun) as HI.
  unfold uploadBoxEnabled, loading in Hbox.
  split.
  - destruct (foodRun k) eqn:Hk; [| reflexivity].
    destruct (inv_food w HI id k Hid Hk) as [Hload _].
    rewrite Hload in Hbox. cbn in Hbox.
    rewrite andb_false_r in Hbox. discriminate.
  - destruct (labelRun k) eqn:Hk; [| reflexivity].
    destruct (inv_label w HI id k Hid Hk) as [Hload _].
    rewrite Hload, orb_true_r in Hbox. cbn in Hbox.
    rewrite andb_false_r in Hbox. discriminate.
Qed.

Lemma staging_replaces_image_and_clears_slots_witness :
  pending scanDisplayed !! 1 = Some (AwaitClassify ["milk"])
  /\ slots (st scanDisplayed) <> noSlots
  /\ slots (st (onloadend label (Some labelUri) scanDisplayed)) = noSlots
  /\ preview (st (onloadend label (Some labelUri) scanDisplayed))
     = Some labelUri
  /\ pending (onloadend label (Some labelUri) scanDisplayed) !! 1
     = Some (AwaitClassify ["milk"]).
Proof.
  assert (Hid : pending scanDisplayed !! 1 = Some (AwaitClassify ["milk"]))
    by (vm_compute; reflexivity).
  destruct (staging_replaces_image_and_clears_slots scanDisplayed)
    as (Hload & _).
  destruct (Hload label (Some labelUri)) as (Hp & _ & Hs & Hpend & _).
  split; [exact Hid |]. split; [vm_compute; discriminate |].
  split; [exact Hs |]. split; [exact Hp |].
  rewrite Hpend. exact Hid.
Defined.

End FoodScannerFacts.

(** * Properties of the camera view *)

Module CameraViewFacts.
Import CameraView CameraSamples.

(** [stopCamera] stops the stream of the instance and forgets it; a
    second call changes nothing. *)
Lemma stopCamera_releases (i : nat) (w : World) (c : Instance) (s : nat) :
  instances w !! i = Some c -> streamRef c = Some s ->
  (s ∉ live (stopCamera i w))
  /\ streamRef <$> (instances (stopCamera i w) !! i) = Some None
  /\ stopCamera i (stopCamera i w) = stopCamera i w.
Proof.
  intros Hi Hs.
  assert (Hw : stopCamera i w
               = (setLive (live w ∖ {[s]}) >> setStreamRef i None) w).
  { unfold stopCamera. now rewrite Hi, Hs. }
  assert (Hl : instances (stopCamera i w) !! i
               = Some {| streamRef := None; hasPermission := hasPermission c;
                         srcObject := srcObject c; mounted := mounted c |}).
  { rewrite Hw. cbn. rewrite lookup_alter_eq, Hi. reflexivity. }
  split.
  { rewrite Hw. cbn. intros Hin. apply elem_of_difference in Hin as [_ Hn].
    apply Hn, elem_of_singleton. reflexivity. }
  split; [rewrite Hl; reflexivity |].
  unfold stopCamera at 1. rewrite Hl. reflexivity.
Qed.

(** ** Exclusivity when every exit is orderly *)

Lemma Exclusive_initial api : Exclusive (initial api).
Proof.
  constructor; cbn.
  - intros s Hs. apply not_elem_of_empty in Hs. destruct Hs.
  - intros rq i H. rewrite lookup_empty in H. discriminate.
  - discriminate.
Qed.

Lemma no_current_nothing_live w :
  Exclusive w -> current w = None -> live w = ∅ /\ requests w = ∅.
Proof.
  intros [Hl Hr _] Hc. split.
  - apply set_eq. intros s. split.
    + intros Hs. destruct (Hl s Hs) as (i & c & Hi & _). congruence.
    + intros Hs. apply not_elem_of_empty in Hs. destruct Hs.
  - apply map_eq. intros rq. rewrite lookup_empty.
    destruct (requests w !! rq) as [i|] eqn:H; [| reflexivity].
    destruct (Hr rq i H) as (Hi & _). congruence.
Qed.

(** After [stopCamera] of the instance on screen nothing is live. *)
Lemma stopCamera_current w i :
  Exclusive w -> current w = Some i ->
  live (stopCamera i w) = ∅
  /\ requests (stopCamera i w) = requests w
  /\ current (stopCamera i w) = current w
  /\ (forall j, is_Some (instances (stopCamera i w) !! j) <-> is_Some (instances w !! j)).
Proof.
  intros [Hl Hq Hcur] Hc. destruct (Hcur i Hc) as [c Hi].
  unfold stopCamera. rewrite Hi. destruct (streamRef c) as [s|] eqn:Hs; cbn.
  - repeat split; try reflexivity.
    + apply set_eq. intros s'. split.
      * intros Hs'. apply elem_of_difference in Hs' as [Hin Hne].
        destruct (Hl s' Hin) as (i' & c' & Hi' & Hc' & Hs'').
        exfalso. apply Hne, elem_of_singleton. congruence.
      * intros Hs'. apply not_elem_of_empty in Hs'. destruct Hs'.
    + intros [x Hx]. apply lookup_alter_Some in Hx.
      destruct Hx as [(_ & y & Hy & _) | (_ & Hy)]; eauto.
    + intros [x Hx]. destruct (decide (i = j)) as [<- | Hne].
      * rewrite lookup_alter_eq, Hx. eauto.
      * rewrite lookup_alter_ne by exact Hne. eauto.
  - repeat split; try reflexivity; auto.
    apply set_eq. intros s'. split.
    + intros Hin. destruct (Hl s' Hin) as (i' & c' & Hi' & Hc' & Hs'').
      congruence.
    + intros Hs'. apply not_elem_of_empty in Hs'. destruct Hs'.
Qed.

Lemma Exclusive_ext w w' :
  instances w' = instances w -> current w' = current w ->
  live w' = live w -> requests w' = requests w ->
  Exclusive w -> Exclusive w'.
Proof.
  intros Hi Hc Hl Hr [H1 H2 H3].
  constructor; rewrite ?Hi, ?Hc, ?Hl, ?Hr; assumption.
Qed.

Lemma Exclusive_unmount w i :
  Exclusive w -> current w = Some i -> requests w = ∅ ->
  Exclusive (unmount i w).
Proof.
  intros HE Hc Hr.
  destruct (stopCamera_current w i HE Hc) as (Hl & Hq & _ & _).
  constructor; cbn.
  - rewrite Hl. intros s Hs. apply not_elem_of_empty in Hs. destruct Hs.
  - rewrite Hq, Hr. intros rq j H. rewrite lookup_empty in H. discriminate.
  - discriminate.
Qed.

Lemma Exclusive_mount w :
  Exclusive w -> current w = None -> Exclusive (mount w).
Proof.
  intros HE Hc. destruct (no_current_nothing_live w HE Hc) as [Hl Hr].
  unfold mount, startCamera, seq, stopCamera. cbn.
  rewrite lookup_insert_eq. cbn.
  destruct (apiPresent w); cbn; constructor; cbn.
  all: rewrite ?Hl, ?Hr.
  all: try (intros s Hs; apply not_elem_of_empty in Hs; destruct Hs).
  - intros rq i H. apply lookup_insert_Some in H.
    destruct H as [[<- <-] | [_ H]];
      [| rewrite lookup_empty in H; discriminate].
    repeat split; reflexivity.
  - intros i H. inversion H; subst. rewrite lookup_insert_eq. eauto.
  - intros rq i H. rewrite lookup_empty in H. discriminate.
  - intros i H. inversion H; subst.
    rewrite lookup_alter_eq, lookup_insert_eq. cbn. eauto.
Qed.

Lemma Exclusive_granted w rq i :
  Exclusive w -> requests w !! rq = Some i ->
  Exclusive ((openStream rq >> startCamera_granted i (nextStream w)) w).
Proof.
  intros HE Hrq. pose proof HE as [Hl Hq Hcur].
  destruct (Hq rq i Hrq) as (Hc & Hlive & Hreq).
  destruct (Hcur i Hc) as [c Hi].
  constructor; cbn.
  - rewrite Hlive. intros s Hs.
    apply elem_of_union in Hs as [Hs | Hs];
      [apply not_elem_of_empty in Hs; destruct Hs |].
    apply elem_of_singleton in Hs. subst s.
    exists i. eexists. split; [exact Hc |].
    rewrite !lookup_alter_eq, Hi. cbn. split; reflexivity.
  - rewrite Hreq, delete_singleton_eq. intros rq' j H.
    rewrite lookup_empty in H. discriminate.
  - intros j Hj. rewrite Hc in Hj. inversion Hj; subst.
    rewrite !lookup_alter_eq, Hi. cbn. eauto.
Qed.

Lemma Exclusive_rejected w rq i name :
  Exclusive w -> requests w !! rq = Some i ->
  Exclusive ((rejectRequest rq >> startCamera_catch i name) w).
Proof.
  intros HE Hrq. pose proof HE as [Hl Hq Hcur].
  destruct (Hq rq i Hrq) as (Hc & Hlive & Hreq).
  destruct (Hcur i Hc) as [c Hi].
  constructor; cbn.
  - rewrite Hlive. intros s Hs. apply not_elem_of_empty in Hs. destruct Hs.
  - rewrite Hreq, delete_singleton_eq. intros rq' j H.
    rewrite lookup_empty in H. discriminate.
  - intros j Hj. rewrite Hc in Hj. inversion Hj; subst.
    rewrite lookup_alter_eq, Hi. cbn. eauto.
Qed.

Lemma Exclusive_step e w w' :
  Exclusive w -> orderly e w = true -> step e w = Some w' -> Exclusive w'.
Proof.
  intros HE Ho Hstep. destruct e; cbn in Ho; unfold step in Hstep.
  - destruct (current w) eqn:Hc; [discriminate |].
    inversion Hstep; subst. now apply Exclusive_mount.
  - destruct (current w) as [i|] eqn:Hc; [| discriminate].
    inversion Hstep; subst. apply bool_decide_eq_true in Ho.
    now apply Exclusive_unmount.
  - destruct (current w) as [i|] eqn:Hc; [| discriminate].
    destruct (instances w !! i) as [c|]; [| discriminate].
    destruct (hasPermission c) as [[|]|]; try discriminate.
    inversion Hstep; subst. apply bool_decide_eq_true in Ho.
    unfold seq. apply Exclusive_unmount; [| exact Hc | exact Ho].
    now apply (Exclusive_ext w).
  - destruct (current w) as [i|] eqn:Hc; [| discriminate].
    inversion Hstep; subst. apply bool_decide_eq_true in Ho.
    unfold seq. apply Exclusive_unmount; [| exact Hc | exact Ho].
    now apply (Exclusive_ext w).
  - destruct (requests w !! rq) as [i|] eqn:Hrq; [| discriminate].
    inversion Hstep; subst. now apply Exclusive_granted.
  - destruct (requests w !! rq) as [i|] eqn:Hrq; [| discriminate].
    inversion Hstep; subst. now apply Exclusive_rejected.
  - inversion Hstep; subst. now apply (Exclusive_ext w).
Qed.

Lemma Exclusive_run es : forall w w',
  Exclusive w -> run_orderly es w = Some w' -> Exclusive w'.
Proof.
  induction es as [| e es IH]; cbn; intros w w' HE Hrun.
  - inversion Hrun; subst. exact HE.
  - destruct (orderly e w) eqn:Ho; [| discriminate].
    destruct (step e w) as [w1|] eqn:Hstep; [| discriminate].
    eapply IH; [| exact Hrun]. eapply Exclusive_step; eauto.
Qed.

(** With orderly exits at most one stream is ever live. *)
Lemma orderly_exits_one_stream es api w :
  run_orderly es (initial api) = Some w -> size (live w) <= 1.
Proof.
  intros Hrun.
  pose proof (Exclusive_run es _ _ (Exclusive_initial api) Hrun) as HE.
  destruct (current w) as [i|] eqn:Hc.
  - pose proof HE as [Hl _ Hcur]. destruct (Hcur i Hc) as [c Hi].
    destruct (streamRef c) as [s|] eqn:Hs.
    + assert (Hsub : live w ⊆ {[s]}).
      { intros s' Hs'. destruct (Hl s' Hs') as (i' & c' & Hi' & Hc' & Hs'').
        apply elem_of_singleton. congruence. }
      apply subseteq_size in Hsub. rewrite size_singleton in Hsub. exact Hsub.
    + assert (Hempty : live w = ∅).
      { apply set_eq. intros s'. split.
        - intros Hs'. destruct (Hl s' Hs') as (i' & c' & Hi' & Hc' & Hs'').
          congruence.
        - intros Hs'. apply not_elem_of_empty in Hs'. destruct Hs'. }
      rewrite Hempty, size_empty. lia.
  - destruct (no_current_nothing_live w HE Hc) as [Hl _].
    rewrite Hl, size_empty. lia.
Qed.

(** An ordinary session: after the photo is taken no stream is live. *)
Example photo_session_releases :
  match run photoTaken (initial true) with
  | Some w => live w = ∅ /\ current w = None
              /\ captured w = ["data:image/jpeg;base64,cGhvdG8="]
  | None => False
  end.
Proof. vm_compute. repeat split; reflexivity. Qed.

(** The scenario below is no orderly run: the view is left while the
    request is pending. *)
Example reopened_not_orderly : run_orderly reopened (initial true) = None.
Proof. vm_compute. reflexivity. Qed.

(** C6 fails on the code.  When the view is left while [getUserMedia] is
    still pending, the cleanup finds no stream to stop; the stream that
    is granted afterwards is stored in the ref of the instance that is
    gone and is never stopped.  Opening the camera again obtains a second
    stream: two streams are live. *)
Theorem two_streams_live_after_early_cancel :
  match run cancelledEarly (initial true) with
  | Some w =>
      current w = None /\ live w = {[0]} /\ requests w = ∅
      /\ mounted <$> (instances w !! 0) = Some false
      /\ streamRef <$> (instances w !! 0) = Some (Some 0)
  | None => False
  end
  /\ match run reopened (initial true) with
     | Some w =>
         current w = Some 1
         /\ streamRef <$> (instances w !! 1) = Some (Some 1)
         /\ live w = {[0; 1]}
         /\ size (live w) = 2
     | None => False
     end.
Proof. vm_compute. repeat split; reflexivity. Qed.

(** ** Failures of [startCamera] *)

(** C7, as stated, fails.  An absent capture API has no outcome of its
    own: the user sees exactly what is seen when [getUserMedia] rejects
    for a reason that is neither a denial nor a missing device, here a
    [NotReadableError]; the text "Camera not supported on this browser."
    of the thrown error is not part of it. *)
Lemma unsupported_not_discriminated :
  spec_cameraError ApiAbsent = Unsupported
  /\ spec_cameraError (MediaError "NotReadableError") = Other
  /\ surfaced ApiAbsent = surfaced (MediaError "NotReadableError")
  /\ surfaced ApiAbsent
     = Some ([{| toastVariant := "destructive"; title := "Camera Error";
                 description := "Could not access the camera. Please try again." |}],
             Some false).
Proof. vm_compute. repeat split; reflexivity. Qed.

(** C7, amended.  Every failure of [startCamera] sets the permission
    state to false and shows one toast, chosen by the name of the error.
    A permission denial and a missing device each have a toast of their
    own, distinct from that of every failure of another kind.  All other
    failures, an absent capture API among them, share the toast "Camera
    Error". *)
Theorem camera_failures_surfaced (f : Failure) :
  surfaced f = Some ([cameraErrorToast (errName f)], Some false)
  /\ title (cameraErrorToast (errName f))
     = match spec_cameraError f with
       | NotAllowed => "Camera Access Denied"
       | NotFound => "No Camera Found"
       | Unsupported | Other => "Camera Error"
       end
  /\ (forall f',
        spec_cameraError f = NotAllowed \/ spec_cameraError f = NotFound ->
        spec_cameraError f' <> spec_cameraError f ->
        surfaced f' <> surfaced f)
  /\ (forall f',
        spec_cameraError f = Unsupported \/ spec_cameraError f = Other ->
        spec_cameraError f' = Unsupported \/ spec_cameraError f' = Other ->
        surfaced f' = surfaced f).
Proof.
  assert (Hsurf : forall g,
             surfaced g = Some ([cameraErrorToast (errName g)], Some false)).
  { intros [| name]; vm_compute; reflexivity. }
  assert (Htitle : forall g,
             title (cameraErrorToast (errName g))
             = match spec_cameraError g with
               | NotAllowed => "Camera Access Denied"
               | NotFound => "No Camera Found"
               | Unsupported | Other => "Camera Error"
               end).
  { intros [| name]; [reflexivity |]. unfold cameraErrorToast. cbn.
    destruct (name =? "NotAllowedError"); [reflexivity |].
    destruct (name =? "NotFoundError"); reflexivity. }
  split; [apply Hsurf |]. split; [apply Htitle |]. split.
  - intros f' Hf Hne Heq. rewrite !Hsurf in Heq.
    assert (Ht : title (cameraErrorToast (errName f'))
                 = title (cameraErrorToast (errName f))) by congruence.
    rewrite !Htitle in Ht.
    destruct Hf as [Hf | Hf]; rewrite Hf in *;
      destruct (spec_cameraError f'); congruence.
  - intros f' Hf Hf'. rewrite !Hsurf.
    assert (Hgen : forall g,
               spec_cameraError g = Unsupported \/ spec_cameraError g = Other ->
               cameraErrorToast (errName g) = cameraErrorToast "Error").
    { intros [| name] Hg; [reflexivity |].
      unfold spec_cameraError in Hg. unfold cameraErrorToast. cbn.
      destruct (name =? "NotAllowedError");
        [destruct Hg; discriminate |].
      destruct (name =? "NotFoundError");
        [destruct Hg; discriminate | reflexivity]. }
    now rewrite (Hgen f Hf), (Hgen f' Hf').
Qed.

Lemma camera_failures_surfaced_witness :
  spec_cameraError (MediaError "NotAllowedError") = NotAllowed
  /\ spec_cameraError (MediaError "NotFoundError") = NotFound
  /\ surfaced (MediaError "NotFoundError")
     <> surfaced (MediaError "NotAllowedError")
  /\ surfaced ApiAbsent <> surfaced (MediaError "NotAllowedError")
  /\ surfaced (MediaError "NotAllowedError")
     = Some ([{| toastVariant := "destructive";
                 title := "Camera Access Denied";
                 description := "Please enable camera permissions in your browser settings to use this feature." |}],
             Some false).
Proof.
  destruct (camera_failures_surfaced (MediaError "NotAllowedError"))
    as (Hs & _ & Hown & _).
  split; [reflexivity |]. split; [reflexivity |].
  split; [apply Hown; [left; reflexivity | discriminate] |].
  split; [apply Hown; [left; reflexivity | discriminate] |].
  exact Hs.
Defined.

End CameraViewFacts.

(** * Further properties of the food scanner *)

Module FoodScannerMore.
Import FoodScanner Samples FoodScannerFacts FoodScannerRuns.

Lemma Tracked_initial online profile : Tracked (initial online profile).
Proof. split; cbn; discriminate. Qed.

(** A witness of a run survives the insertion of a fresh continuation
    and the deletion of another one. *)
Lemma witness_insert (m : gmap nat Pending) (n id : nat) (k k' : Pending) :
  m !! id = Some k -> id <> n -> <[n := k']> m !! id = Some k.
Proof. intros H Hne. rewrite lookup_insert_ne; auto. Qed.

Lemma witness_delete (m : gmap nat Pending) (id id' : nat) (k : Pending) :
  m !! id = Some k -> id <> id' -> delete id' m !! id = Some k.
Proof. intros H Hne. rewrite lookup_delete_ne; auto. Qed.

Lemma Tracked_step e w w' :
  Inv w -> Tracked w -> step e w = Some w' -> Tracked w'.
Proof.
  intros HI [Hfood Hlabel] Hstep. pose proof (inv_fresh w HI) as Hf.
  destruct e; cbn in Hstep.
  - apply guard_Some in Hstep as [Hg ->]. destruct file; split; cbn; intros Hl.
    all: try (destruct (Hfood Hl) as (a & k & Ha & Hk)).
    all: try (destruct (Hlabel Hl) as (a & k & Ha & Hk)).
    all: exists a, k; split; auto.
    all: apply witness_insert; auto; intros ->; apply Hf in Ha; lia.
  - apply guard_Some in Hstep as [Hg ->]. split; cbn; intros Hl.
    all: try (destruct (Hfood Hl) as (a & k & Ha & Hk)).
    all: try (destruct (Hlabel Hl) as (a & k & Ha & Hk)).
    all: exists a, k; split; auto.
    all: apply witness_insert; auto; intros ->; apply Hf in Ha; lia.
  - apply guard_Some in Hstep as [Hg ->]. split; cbn; auto.
  - apply guard_Some in Hstep as [Hg ->]. split; cbn; auto.
  - apply guard_Some in Hstep as [Hg ->]. split; cbn; auto.
  - inversion Hstep; subst. split; cbn; auto.
  - apply guard_Some in Hstep as [Hg ->]. unfold onSubmit.
    destruct (onLine w); cbn; [destruct (truthy (preview (st w))); cbn |];
      split; cbn; auto.
    + intros _. exists (nextId w). eexists. split;
        [apply lookup_insert_eq | reflexivity].
    + intros Hl. destruct (Hlabel Hl) as (a & k & Ha & Hk).
      exists a, k; split; auto.
      apply witness_insert; auto; intros ->; apply Hf in Ha; lia.
  - apply guard_Some in Hstep as [Hg ->]. unfold handleScanLabel.
    destruct (onLine w); cbn; [destruct (truthy (preview (st w))); cbn |];
      split; cbn; auto.
    + intros Hl. destruct (Hfood Hl) as (a & k & Ha & Hk).
      exists a, k; split; auto.
      apply witness_insert; auto; intros ->; apply Hf in Ha; lia.
    + intros _. exists (nextId w). eexists. split;
        [apply lookup_insert_eq | reflexivity].
  - destruct (pending w !! id) as [k0|] eqn:Hid; [| discriminate].
    destruct (resume k0 o) as [c|] eqn:Hres; [| discriminate].
    inversion Hstep; subst; clear Hstep.
    destruct k0, o; cbn in Hres; inversion Hres; subst; clear Hres.
    all: try (unfold onSubmit_classified;
              destruct (isFood cfOutput), (foodDetails cfOutput)).
    all: try (unfold handleScanLabel_extracted; destruct (nonempty text)).
    all: split; cbn; try discriminate; intros Hl.
    all: try (exists (nextId w); eexists; split;
              [apply lookup_insert_eq | reflexivity]).
    all: try (destruct (Hfood Hl) as (a & k & Ha & Hk)).
    all: try (destruct (Hlabel Hl) as (a & k & Ha & Hk)).
    all: exists a, k; split; auto.
    all: repeat (apply witness_insert;
                 [| intros ->; apply Hf in Ha; lia]).
    all: apply witness_delete; auto.
    all: intros ->; rewrite Hid in Ha; inversion Ha; subst; discriminate.
  - inversion Hstep; subst. split; cbn; auto.
  - inversion Hstep; subst. split; cbn; auto.
Qed.


Lemma Tracked_run es : forall w w',
  Inv w -> Tracked w -> run es w = Some w' -> Tracked w'.
Proof.
  induction es as [| e es IH]; cbn; intros w w' HI HT Hrun.
  - inversion Hrun; subst. exact HT.
  - destruct (step e w) as [w1|] eqn:Hstep; [| discriminate].
    eapply IH; [| | exact Hrun].
    + eapply Inv_step; eauto.
    + eapply Tracked_step; eauto.
Qed.

(** X1. In every world the interface can reach, the loading flag of a
    pipeline is set exactly when a run of that pipeline is in flight, and
    at most one run of each pipeline is in flight. *)
Theorem loading_flags_track_runs
    (es : list Event) (online : bool) (profile : list string) (w : World)
    (Hrun : run es (initial online profile) = Some w) :
  (isClassifyLoading (st w) = true <->
   exists id k, pending w !! id = Some k /\ foodRun k = true)
  /\ (isOcrLoading (st w) = true <->
      exists id k, pending w !! id = Some k /\ labelRun k = true)
  /\ (forall id1 k1 id2 k2,
        pending w !! id1 = Some k1 -> pending w !! id2 = Some k2 ->
        (foodRun k1 = true /\ foodRun k2 = true)
        \/ (labelRun k1 = true /\ labelRun k2 = true) ->
        id1 = id2).
Proof.
  pose proof (Inv_reachable _ _ _ _ Hrun) as HI.
  pose proof (Tracked_run es _ _ (Inv_initial online profile)
                (Tracked_initial online profile) Hrun) as [Hfood Hlabel].
  split; [| split].
  - split; [exact Hfood |].
    intros (id & k & Hid & Hk). exact (proj1 (inv_food w HI id k Hid Hk)).
  - split; [exact Hlabel |].
    intros (id & k & Hid & Hk). exact (proj1 (inv_label w HI id k Hid Hk)).
  - intros id1 k1 id2 k2 H1 H2 [[Ha Hb] | [Ha Hb]].
    + exact (inv_food_unique w HI id1 k1 id2 k2 H1 H2 Ha Hb).
    + exact (inv_label_unique w HI id1 k1 id2 k2 H1 H2 Ha Hb).
Qed.

Lemma loading_flags_track_runs_witness :
  run supersededByScan (initial true ["milk"]) = Some scanDisplayed
  /\ isClassifyLoading (st scanDisplayed) = true
  /\ isOcrLoading (st scanDisplayed) = false
  /\ (exists id k, pending scanDisplayed !! id = Some k /\ foodRun k = true)
  /\ ~ (exists id k, pending scanDisplayed !! id = Some k /\ labelRun k = true).
Proof.
  assert (Hrun : run supersededByScan (initial true ["milk"])
                 = Some scanDisplayed) by (vm_compute; reflexivity).
  destruct (loading_flags_track_runs _ _ _ _ Hrun) as (Hfood & Hlabel & _).
  split; [exact Hrun |].
  split; [vm_compute; reflexivity |].
  split; [vm_compute; reflexivity |].
  split.
  - apply Hfood. vm_compute. reflexivity.
  - intros H. apply Hlabel in H. vm_compute in H. discriminate.
Defined.

Lemma truthy_Some (v : option string) :
  truthy v = true -> exists p, v = Some p /\ p <> "".
Proof.
  destruct v as [p|]; cbn; [| discriminate]. intros H. exists p. split; auto.
  intros ->. discriminate.
Qed.

(** X2. A step issues at most one remote call, and only in four
    situations: the two triggers, online and with the staged preview as
    argument, and the resumption of a stage 1 that has succeeded with
    something to check, with the profile captured by its trigger. *)
Theorem remote_calls_by_step (e : Event) (w w' : World)
    (Hstep : step e w = Some w') :
  calls w' = calls w
  \/ (e = Submit /\ onLine w = true
      /\ exists p, preview (st w) = Some p /\ p <> ""
                   /\ calls w' = calls w ++ [classifyFood p])
  \/ (e = ScanLabel /\ onLine w = true
      /\ exists p, preview (st w) = Some p /\ p <> ""
                   /\ calls w' = calls w ++ [extractTextFromImage p])
  \/ (exists id al cf details,
        e = Settle id (Classified cf)
        /\ pending w !! id = Some (AwaitClassify al)
        /\ isFood cf = true /\ foodDetails cf = Some details
        /\ calls w' = calls w ++
             [detectAllergensAndGenerateAlert
                (join ", " (ingredients details)) al])
  \/ (exists id al text,
        e = Settle id (Extracted text)
        /\ pending w !! id = Some (AwaitExtract al)
        /\ text <> ""
        /\ calls w' = calls w ++ [detectAllergensAndGenerateAlert text al]).
Proof.
  destruct e; cbn in Hstep.
  - apply guard_Some in Hstep as [_ ->]. left. now destruct file.
  - apply guard_Some in Hstep as [_ ->]. now left.
  - apply guard_Some in Hstep as [_ ->]. now left.
  - apply guard_Some in Hstep as [_ ->]. now left.
  - apply guard_Some in Hstep as [_ ->]. now left.
  - inversion Hstep; subst. now left.
  - apply guard_Some in Hstep as [_ ->]. unfold onSubmit.
    destruct (onLine w) eqn:Hon; cbn; [| now left].
    destruct (truthy (preview (st w))) eqn:Hp; cbn; [| now left].
    right. left. split; [reflexivity |]. split; [reflexivity |].
    destruct (truthy_Some _ Hp) as (p & Hprev & Hne).
    exists p. rewrite Hprev. auto.
  - apply guard_Some in Hstep as [_ ->]. unfold handleScanLabel.
    destruct (onLine w) eqn:Hon; cbn; [| now left].
    destruct (truthy (preview (st w))) eqn:Hp; cbn; [| now left].
    right. right. left. split; [reflexivity |]. split; [reflexivity |].
    destruct (truthy_Some _ Hp) as (p & Hprev & Hne).
    exists p. rewrite Hprev. auto.
  - destruct (pending w !! id) as [k|] eqn:Hid; [| discriminate].
    destruct (resume k o) as [c|] eqn:Hres; [| discriminate].
    inversion Hstep; subst; clear Hstep.
    destruct k, o; cbn in Hres; inversion Hres; subst; clear Hres;
      try (left; reflexivity).
    + unfold onSubmit_classified.
      destruct (isFood cfOutput) eqn:Hf, (foodDetails cfOutput) eqn:Hd;
        try (left; reflexivity).
      right. right. right. left.
      exists id, allergens, cfOutput, f. repeat split; auto.
    + unfold handleScanLabel_extracted.
      destruct (nonempty text) eqn:Hn; [| left; reflexivity].
      right. right. right. right.
      exists id, allergens, text. repeat split; auto.
      now apply nonempty_spec.
  - inversion Hstep; subst. now left.
  - inversion Hstep; subst. now left.
Qed.


Lemma remote_calls_by_step_witness :
  step (Settle 1 (Classified milkshake)) awaitingClassification
  = Some ((settled 1 >> onSubmit_classified ["milk"] milkshake)
            awaitingClassification)
  /\ calls ((settled 1 >> onSubmit_classified ["milk"] milkshake)
              awaitingClassification)
     <> calls awaitingClassification
  /\ exists id al cf details,
       Settle 1 (Classified milkshake) = Settle id (Classified cf)
       /\ pending awaitingClassification !! id = Some (AwaitClassify al)
       /\ isFood cf = true /\ foodDetails cf = Some details.
Proof.
  assert (Hstep : step (Settle 1 (Classified milkshake)) awaitingClassification
                  = Some ((settled 1 >> onSubmit_classified ["milk"] milkshake)
                            awaitingClassification))
    by (vm_compute; reflexivity).
  assert (Hne : calls ((settled 1 >> onSubmit_classified ["milk"] milkshake)
                         awaitingClassification)
                <> calls awaitingClassification)
    by (vm_compute; discriminate).
  split; [exact Hstep |]. split; [exact Hne |].
  destruct (remote_calls_by_step _ _ _ Hstep)
    as [H | [(H & _) | [(H & _) | [H | H]]]].
  - contradiction.
  - discriminate.
  - discriminate.
  - destruct H as (id & al & cf & d & He & Hid & Hf & Hd & _).
    exists id, al, cf, d. auto.
  - destruct H as (id & al & text & He & _). discriminate.
Defined.

Lemma run_cons (e : Event) (es : list Event) (w : World) :
  run (e :: es) w
  = match step e w with Some w' => run es w' | None => None end.
Proof. reflexivity. Qed.

Lemma step_Submit (w : World) :
  submitEnabled (st w) && formValid (st w) = true ->
  step Submit w = Some (onSubmit w).
Proof. intros H. unfold step, guard. now rewrite H. Qed.

Lemma step_ScanLabel (w : World) :
  scanEnabled (st w) = true -> step ScanLabel w = Some (handleScanLabel w).
Proof. intros H. unfold step, guard. now rewrite H. Qed.

Lemma step_Settle (w : World) (id : nat) (k : Pending) (o : Outcome) (c : Cmd) :
  pending w !! id = Some k -> resume k o = Some c ->
  step (Settle id o) w = Some ((settled id >> c) w).
Proof. intros Hid Hres. unfold step. now rewrite Hid, Hres. Qed.

Lemma submitEnabled_tab (s : State) :
  submitEnabled s = true ->
  activeTab s = "analyze-food" /\ truthy (preview s) = true
  /\ isClassifyLoading s = false.
Proof.
  unfold submitEnabled. intros H. apply andb_true_iff in H as [Ht Hn].
  apply String.eqb_eq in Ht. apply negb_true_iff in Hn.
  apply orb_false_iff in Hn as [Hl Hp]. apply negb_false_iff in Hp. auto.
Qed.

Lemma scanEnabled_tab (s : State) :
  scanEnabled s = true ->
  activeTab s <> "analyze-food" /\ truthy (preview s) = true
  /\ isOcrLoading s = false.
Proof.
  unfold scanEnabled. intros H. apply andb_true_iff in H as [Ht Hn].
  apply negb_true_iff in Ht. apply String.eqb_neq in Ht.
  apply negb_true_iff in Hn.
  apply orb_false_iff in Hn as [Hl Hp]. apply negb_false_iff in Hp. auto.
Qed.

(** X3. An uninterrupted food run on a dish with details: from a world
    where Analyze Food is enabled and the connection is up, the trigger,
    the classification and the allergen check leave the classification
    and the check recorded, no error, the loading flag dropped, the card
    on display with the badge of the alert level returned, exactly the
    two remote calls issued, and no toast. *)
Theorem food_run_completes (w : World) (cf : ClassifyFoodOutput)
    (details : FoodDetails) (da : DetectAllergensOutput)
    (Hon : onLine w = true)
    (Hen : submitEnabled (st w) && formValid (st w) = true)
    (Hfood : isFood cf = true) (Hdetails : foodDetails cf = Some details) :
  exists w3 p,
    run [Submit; Settle (nextId w) (Classified cf);
         Settle (S (nextId w)) (Detected da)] w = Some w3
    /\ preview (st w) = Some p
    /\ classificationResult (st w3) = Some cf
    /\ allergenResult (st w3) = Some da
    /\ classifyError (st w3) = None
    /\ isClassifyLoading (st w3) = false
    /\ classificationCard (st w3)
       = Some (cf, AllergenBadge (getAlertBadgeProps (alert da)))
    /\ calls w3 = calls w ++
         [classifyFood p;
          detectAllergensAndGenerateAlert (join ", " (ingredients details))
                                          (userAllergens w)]
    /\ toasts w3 = toasts w
    /\ preview (st w3) = preview (st w).
Proof.
  apply andb_true_iff in Hen as [Hsub Hvalid].
  destruct (submitEnabled_tab _ Hsub) as (Htab & Hprev & _).
  destruct (truthy_Some _ Hprev) as (p & Hp & _).
  set (w1 := onSubmit w).
  assert (H1 : pending w1 !! nextId w = Some (AwaitClassify (userAllergens w))).
  { unfold w1, onSubmit. rewrite Hon, Hprev. cbn. apply lookup_insert_eq. }
  assert (Hn1 : nextId w1 = S (nextId w)).
  { unfold w1, onSubmit. rewrite Hon, Hprev. reflexivity. }
  set (w2 := (settled (nextId w)
              >> onSubmit_classified (userAllergens w) cf) w1).
  assert (H2 : pending w2 !! S (nextId w) = Some AwaitDetectFood).
  { unfold w2, onSubmit_classified. rewrite Hfood, Hdetails. cbn.
    rewrite Hn1. apply lookup_insert_eq. }
  set (w3 := (settled (S (nextId w)) >> onSubmit_detected da) w2).
  exists w3, p.
  split.
  { rewrite run_cons, step_Submit by (rewrite Hsub, Hvalid; reflexivity).
    fold w1.
    rewrite run_cons, (step_Settle w1 _ _ (Classified cf) _ H1 eq_refl).
    fold w2.
    rewrite run_cons, (step_Settle w2 _ _ (Detected da) _ H2 eq_refl).
    reflexivity. }
  split; [exact Hp |].
  unfold w3, w2, w1, onSubmit, onSubmit_classified, classificationCard,
    classifyHeader, classifyBadgeProps.
  rewrite Hon, Hprev, Hfood, Hdetails. cbn. rewrite Htab, Hp. cbn.
  rewrite <- app_assoc. repeat split; reflexivity.
Qed.


Lemma food_run_completes_witness :
  onLine staged = true
  /\ submitEnabled (st staged) && formValid (st staged) = true
  /\ exists w3,
       run [Submit; Settle 1 (Classified milkshake);
            Settle 2 (Detected milkAlert)] staged = Some w3
       /\ classificationCard (st w3)
          = Some (milkshake, AllergenBadge (getAlertBadgeProps (Some HIGH)))
       /\ calls w3 = [classifyFood dishUri;
                      detectAllergensAndGenerateAlert "milk, sugar" ["milk"]].
Proof.
  assert (Hon : onLine staged = true) by (vm_compute; reflexivity).
  assert (Hen : submitEnabled (st staged) && formValid (st staged) = true)
    by (vm_compute; reflexivity).
  split; [exact Hon |]. split; [exact Hen |].
  destruct (food_run_completes staged milkshake _ milkAlert Hon Hen
              eq_refl eq_refl)
    as (w3 & p & Hrun & Hp & _ & _ & _ & _ & Hcard & Hcalls & _).
  exists w3. split; [exact Hrun |]. split; [exact Hcard |].
  rewrite Hcalls. assert (p = dishUri) as ->.
  { assert (Hd : preview (st staged) = Some dishUri)
      by (vm_compute; reflexivity).
    congruence. }
  vm_compute. reflexivity.
Defined.

(** X4. An uninterrupted label run on a label with text: from a world
    where Scan Product Label is enabled on the scan-label tab and the
    connection is up, the trigger, the text and the allergen check leave
    the text and the check recorded, no error, the loading flag dropped,
    the scan card on display with the badge of the alert level returned,
    and exactly the two remote calls issued. *)
Theorem label_run_completes (w : World) (text : string)
    (da : DetectAllergensOutput)
    (Hon : onLine w = true)
    (Htab : activeTab (st w) = "scan-label")
    (Hen : scanEnabled (st w) = true)
    (Htext : text <> "") :
  exists w3 p,
    run [ScanLabel; Settle (nextId w) (Extracted text);
         Settle (S (nextId w)) (Detected da)] w = Some w3
    /\ preview (st w) = Some p
    /\ extractedText (st w3) = Some text
    /\ ocrAllergenResult (st w3) = Some da
    /\ ocrError (st w3) = None
    /\ isOcrLoading (st w3) = false
    /\ scanCard (st w3)
       = Some (text, AllergenBadge (getAlertBadgeProps (alert da)))
    /\ calls w3 = calls w ++
         [extractTextFromImage p;
          detectAllergensAndGenerateAlert text (userAllergens w)]
    /\ toasts w3 = toasts w
    /\ preview (st w3) = preview (st w).
Proof.
  destruct (scanEnabled_tab _ Hen) as (_ & Hprev & _).
  destruct (truthy_Some _ Hprev) as (p & Hp & _).
  apply nonempty_spec in Htext.
  set (w1 := handleScanLabel w).
  assert (H1 : pending w1 !! nextId w = Some (AwaitExtract (userAllergens w))).
  { unfold w1, handleScanLabel. rewrite Hon, Hprev. cbn.
    apply lookup_insert_eq. }
  assert (Hn1 : nextId w1 = S (nextId w)).
  { unfold w1, handleScanLabel. rewrite Hon, Hprev. reflexivity. }
  set (w2 := (settled (nextId w)
              >> handleScanLabel_extracted (userAllergens w) text) w1).
  assert (H2 : pending w2 !! S (nextId w) = Some AwaitDetectLabel).
  { unfold w2, handleScanLabel_extracted. rewrite Htext. cbn.
    rewrite Hn1. apply lookup_insert_eq. }
  set (w3 := (settled (S (nextId w)) >> handleScanLabel_detected da) w2).
  exists w3, p.
  split.
  { rewrite run_cons, step_ScanLabel by exact Hen. fold w1.
    rewrite run_cons, (step_Settle w1 _ _ (Extracted text) _ H1 eq_refl).
    fold w2.
    rewrite run_cons, (step_Settle w2 _ _ (Detected da) _ H2 eq_refl).
    reflexivity. }
  split; [exact Hp |].
  unfold w3, w2, w1, handleScanLabel, handleScanLabel_extracted, scanCard,
    scanHeader, ocrBadgeProps.
  rewrite Hon, Hprev, Htext. cbn. rewrite Htab, Hp. cbn.
  rewrite <- app_assoc. repeat split; reflexivity.
Qed.

Lemma label_run_completes_witness :
  onLine stagedForScan = true
  /\ activeTab (st stagedForScan) = "scan-label"
  /\ scanEnabled (st stagedForScan) = true
  /\ exists w3,
       run [ScanLabel; Settle 1 (Extracted "milk, cocoa");
            Settle 2 (Detected milkAlert)] stagedForScan = Some w3
       /\ scanCard (st w3)
          = Some ("milk, cocoa",
                  AllergenBadge (getAlertBadgeProps (Some HIGH))).
Proof.
  assert (Hon : onLine stagedForScan = true) by (vm_compute; reflexivity).
  assert (Htab : activeTab (st stagedForScan) = "scan-label")
    by (vm_compute; reflexivity).
  assert (Hen : scanEnabled (st stagedForScan) = true)
    by (vm_compute; reflexivity).
  split; [exact Hon |]. split; [exact Htab |]. split; [exact Hen |].
  assert (Htext : "milk, cocoa" <> "") by discriminate.
  destruct (label_run_completes stagedForScan "milk, cocoa" milkAlert
              Hon Htab Hen Htext)
    as (w3 & p & Hrun & _ & _ & _ & _ & _ & Hcard & _).
  exists w3. split; [exact Hrun | exact Hcard].
Defined.

(** X5. A run whose stage 1 throws: the trigger followed by the
    rejection of its first call leaves the error of the pipeline set and
    its banner on display, no card, the loading flag dropped, one toast
    "Analysis Failed", and the single remote call of stage 1; stage 2 is
    not called. *)
Theorem stage1_failure_ends_run (w : World) (Hon : onLine w = true) :
  (submitEnabled (st w) && formValid (st w) = true ->
   exists w2 p,
     run [Submit; Settle (nextId w) Thrown] w = Some w2
     /\ preview (st w) = Some p
     /\ slots (st w2) = (None, None, Some analysisError, None, None, None)
     /\ classifyErrorBanner (st w2) = Some analysisError
     /\ classificationCard (st w2) = None
     /\ isClassifyLoading (st w2) = false
     /\ calls w2 = calls w ++ [classifyFood p]
     /\ toasts w2 = toasts w ++
          [{| toastVariant := "destructive"; title := "Analysis Failed";
              description := "Could not analyze the food item." |}])
  /\ (activeTab (st w) = "scan-label" -> scanEnabled (st w) = true ->
      exists w2 p,
        run [ScanLabel; Settle (nextId w) Thrown] w = Some w2
        /\ preview (st w) = Some p
        /\ slots (st w2) = (None, None, None, None, None, Some labelError)
        /\ ocrErrorBanner (st w2) = Some labelError
        /\ scanCard (st w2) = None
        /\ isOcrLoading (st w2) = false
        /\ calls w2 = calls w ++ [extractTextFromImage p]
        /\ toasts w2 = toasts w ++
             [{| toastVariant := "destructive"; title := "Analysis Failed";
                 description := "Could not analyze the product label." |}]).
Proof.
  split.
  - intros Hen. pose proof Hen as Hen'.
    apply andb_true_iff in Hen' as [Hsub _].
    destruct (submitEnabled_tab _ Hsub) as (Htab & Hprev & _).
    destruct (truthy_Some _ Hprev) as (p & Hp & _).
    set (w1 := onSubmit w).
    assert (H1 : pending w1 !! nextId w
                 = Some (AwaitClassify (userAllergens w))).
    { unfold w1, onSubmit. rewrite Hon, Hprev. cbn. apply lookup_insert_eq. }
    exists ((settled (nextId w) >> onSubmit_catch) w1), p.
    split.
    { rewrite run_cons, step_Submit by exact Hen. fold w1.
      rewrite run_cons, (step_Settle w1 _ _ Thrown _ H1 eq_refl).
      reflexivity. }
    split; [exact Hp |].
    unfold w1, onSubmit, classifyErrorBanner, classificationCard.
    rewrite Hon, Hprev. cbn. rewrite Htab, Hp. cbn.
    repeat split; reflexivity.
  - intros Htab Hen.
    destruct (scanEnabled_tab _ Hen) as (_ & Hprev & _).
    destruct (truthy_Some _ Hprev) as (p & Hp & _).
    set (w1 := handleScanLabel w).
    assert (H1 : pending w1 !! nextId w
                 = Some (AwaitExtract (userAllergens w))).
    { unfold w1, handleScanLabel. rewrite Hon, Hprev. cbn.
      apply lookup_insert_eq. }
    exists ((settled (nextId w) >> handleScanLabel_catch) w1), p.
    split.
    { rewrite run_cons, step_ScanLabel by exact Hen. fold w1.
      rewrite run_cons, (step_Settle w1 _ _ Thrown _ H1 eq_refl).
      reflexivity. }
    split; [exact Hp |].
    unfold w1, handleScanLabel, ocrErrorBanner, scanCard.
    rewrite Hon, Hprev. cbn. rewrite Htab, Hp. cbn.
    repeat split; reflexivity.
Qed.

Lemma stage1_failure_ends_run_witness :
  onLine staged = true
  /\ submitEnabled (st staged) && formValid (st staged) = true
  /\ exists w2,
       run [Submit; Settle 1 Thrown] staged = Some w2
       /\ classifyErrorBanner (st w2) = Some analysisError
       /\ classificationCard (st w2) = None.
Proof.
  assert (Hon : onLine staged = true) by (vm_compute; reflexivity).
  assert (Hen : submitEnabled (st staged) && formValid (st staged) = true)
    by (vm_compute; reflexivity).
  split; [exact Hon |]. split; [exact Hen |].
  destruct (stage1_failure_ends_run staged Hon) as (Hfood & _).
  destruct (Hfood Hen) as (w2 & p & Hrun & _ & _ & Hb & Hc & _).
  exists w2. split; [exact Hrun |]. split; [exact Hb | exact Hc].
Defined.

(** X6. The profile of a run is the one read by its trigger: when the
    profile changes while stage 1 is awaited, the allergen check is still
    called with the profile of the time of the trigger. *)
Theorem profile_captured_at_trigger (w : World) (changed : list string)
    (cf : ClassifyFoodOutput) (details : FoodDetails) (text : string)
    (Hon : onLine w = true) :
  (submitEnabled (st w) && formValid (st w) = true ->
   isFood cf = true -> foodDetails cf = Some details ->
   exists w3 p,
     run [Submit; ProfileChange changed;
          Settle (nextId w) (Classified cf)] w = Some w3
     /\ preview (st w) = Some p
     /\ userAllergens w3 = changed
     /\ calls w3 = calls w ++
          [classifyFood p;
           detectAllergensAndGenerateAlert (join ", " (ingredients details))
                                           (userAllergens w)])
  /\ (scanEnabled (st w) = true -> text <> "" ->
      exists w3 p,
        run [ScanLabel; ProfileChange changed;
             Settle (nextId w) (Extracted text)] w = Some w3
        /\ preview (st w) = Some p
        /\ userAllergens w3 = changed
        /\ calls w3 = calls w ++
             [extractTextFromImage p;
              detectAllergensAndGenerateAlert text (userAllergens w)]).
Proof.
  split.
  - intros Hen Hfood Hdetails. pose proof Hen as Hen'.
    apply andb_true_iff in Hen' as [Hsub _].
    destruct (submitEnabled_tab _ Hsub) as (_ & Hprev & _).
    destruct (truthy_Some _ Hprev) as (p & Hp & _).
    set (w1 := onSubmit w).
    set (w2 := setUserAllergens changed w1).
    assert (H2 : pending w2 !! nextId w
                 = Some (AwaitClassify (userAllergens w))).
    { unfold w2, w1, onSubmit. rewrite Hon, Hprev. cbn.
      apply lookup_insert_eq. }
    eexists. exists p. split.
    { rewrite run_cons, step_Submit by exact Hen. fold w1.
      rewrite run_cons. change (step (ProfileChange changed) w1) with (Some w2).
      cbv beta iota.
      rewrite run_cons, (step_Settle w2 _ _ (Classified cf) _ H2 eq_refl).
      reflexivity. }
    unfold w2, w1, onSubmit, onSubmit_classified.
    rewrite Hon, Hprev, Hfood, Hdetails. cbn. rewrite Hp.
    split; [reflexivity |]. split; [reflexivity |]. now rewrite <- app_assoc.
  - intros Hen Htext. apply nonempty_spec in Htext.
    destruct (scanEnabled_tab _ Hen) as (_ & Hprev & _).
    destruct (truthy_Some _ Hprev) as (p & Hp & _).
    set (w1 := handleScanLabel w).
    set (w2 := setUserAllergens changed w1).
    assert (H2 : pending w2 !! nextId w
                 = Some (AwaitExtract (userAllergens w))).
    { unfold w2, w1, handleScanLabel. rewrite Hon, Hprev. cbn.
      apply lookup_insert_eq. }
    eexists. exists p. split.
    { rewrite run_cons, step_ScanLabel by exact Hen. fold w1.
      rewrite run_cons. change (step (ProfileChange changed) w1) with (Some w2).
      cbv beta iota.
      rewrite run_cons, (step_Settle w2 _ _ (Extracted text) _ H2 eq_refl).
      reflexivity. }
    unfold w2, w1, handleScanLabel, handleScanLabel_extracted.
    rewrite Hon, Hprev, Htext. cbn. rewrite Hp.
    split; [reflexivity |]. split; [reflexivity |]. now rewrite <- app_assoc.
Qed.


Lemma profile_captured_at_trigger_witness :
  onLine staged = true
  /\ submitEnabled (st staged) && formValid (st staged) = true
  /\ exists w3,
       run [Submit; ProfileChange ["peanut"];
            Settle 1 (Classified milkshake)] staged = Some w3
       /\ userAllergens w3 = ["peanut"]
       /\ calls w3 = [classifyFood dishUri;
                      detectAllergensAndGenerateAlert "milk, sugar" ["milk"]].
Proof.
  assert (Hon : onLine staged = true) by (vm_compute; reflexivity).
  assert (Hen : submitEnabled (st staged) && formValid (st staged) = true)
    by (vm_compute; reflexivity).
  split; [exact Hon |]. split; [exact Hen |].
  destruct (profile_captured_at_trigger staged ["peanut"] milkshake
              {| ingredients := ["milk"; "sugar"];
                 nutritionalData := "320 kcal";
                 region := "United States";
                 history := "Soda fountains" |} "" Hon) as (Hfood & _).
  destruct (Hfood Hen eq_refl eq_refl) as (w3 & p & Hrun & Hp & Hu & Hcalls).
  exists w3. split; [exact Hrun |]. split; [exact Hu |].
  rewrite Hcalls. assert (p = dishUri) as ->.
  { assert (Hd : preview (st staged) = Some dishUri)
      by (vm_compute; reflexivity).
    congruence. }
  vm_compute. reflexivity.
Defined.

(** X7. Clearing the image, in a world the interface can reach, puts
    every hook back to its initial value, the active tab apart; no run is
    in flight then, the upload box is enabled and neither pipeline can be
    triggered; nothing is called and no toast is shown. *)
Theorem clear_returns_to_idle
    (es : list Event) (online : bool) (profile : list string) (w w' : World)
    (Hrun : run es (initial online profile) = Some w)
    (Hstep : step ClearImage w = Some w') :
  st w' = {| preview := None; activeTab := activeTab (st w);
             classificationResult := None; allergenResult := None;
             isClassifyLoading := false; classifyError := None;
             isOcrLoading := false; extractedText := None;
             ocrAllergenResult := None; ocrError := None;
             isCameraOpen := false; formImage := None |}
  /\ (forall id k, pending w' !! id = Some k ->
                   foodRun k = false /\ labelRun k = false)
  /\ uploadBoxEnabled (st w') = true
  /\ step Submit w' = None /\ step ScanLabel w' = None
  /\ calls w' = calls w /\ toasts w' = toasts w.
Proof.
  pose proof (Inv_reachable _ _ _ _ Hrun) as HI.
  cbn in Hstep. apply guard_Some in Hstep as [Hg ->].
  unfold clearEnabled, loading in Hg.
  apply andb_true_iff in Hg as [_ Hl]. apply negb_true_iff in Hl.
  apply orb_false_iff in Hl as [Hc Ho].
  split; [cbn; rewrite Hc, Ho; reflexivity |].
  split.
  { intros id k Hid. cbn in Hid. split.
    - destruct (foodRun k) eqn:Hk; [| reflexivity].
      destruct (inv_food w HI id k Hid Hk). congruence.
    - destruct (labelRun k) eqn:Hk; [| reflexivity].
      destruct (inv_label w HI id k Hid Hk). congruence. }
  split; [unfold uploadBoxEnabled, loading; cbn; rewrite Hc, Ho; reflexivity |].
  split; [unfold step, guard, submitEnabled; cbn;
          now rewrite orb_true_r, andb_false_r |].
  split; [unfold step, guard, scanEnabled; cbn;
          now rewrite orb_true_r, andb_false_r |].
  split; reflexivity.
Qed.

Lemma clear_returns_to_idle_witness :
  run scenario1 (initial true ["milk"]) = Some completed
  /\ step ClearImage completed = Some (resetState completed)
  /\ slots (st completed) <> noSlots
  /\ st (resetState completed) = initialState.
Proof.
  assert (Hrun : run scenario1 (initial true ["milk"]) = Some completed)
    by (vm_compute; reflexivity).
  assert (Hstep : step ClearImage completed = Some (resetState completed))
    by (vm_compute; reflexivity).
  destruct (clear_returns_to_idle _ _ _ _ _ Hrun Hstep) as (Hst & _).
  split; [exact Hrun |]. split; [exact Hstep |].
  split; [vm_compute; discriminate |].
  rewrite Hst. vm_compute. reflexivity.
Defined.

(** X8. Taking a photo from the upload box: opening the camera, the
    capture of [dataUri] and the arrival of its blob leave [dataUri] as
    preview, the file capture.jpg of the size of the blob as form image,
    the six slots empty and the camera closed; the clear button is
    enabled, and the form is valid exactly when the blob is not empty.
    Closing the camera instead gives the state of a cleared image. *)
Theorem camera_capture_stages_image (w : World) (dataUri : string) (size : N)
    (Hbox : uploadBoxEnabled (st w) = true) (Huri : dataUri <> "") :
  (exists w3,
     run [OpenCamera; Capture dataUri; Settle (nextId w) (Blob size)] w
     = Some w3
     /\ preview (st w3) = Some dataUri
     /\ formImage (st w3)
        = Some {| fileName := "capture.jpg"; fileType := "image/jpeg";
                  fileSize := size |}
     /\ slots (st w3) = noSlots
     /\ isCameraOpen (st w3) = false
     /\ cameraViewRendered (st w3) = false
     /\ clearEnabled (st w3) = true
     /\ formValid (st w3) = N.ltb 0 size
     /\ calls w3 = calls w /\ toasts w3 = toasts w)
  /\ run [OpenCamera; CameraClose] w = Some ((openCamera >> setIsCameraOpen false) w)
  /\ st ((openCamera >> setIsCameraOpen false) w) = st (resetState w).
Proof.
  pose proof Hbox as Hbox'. unfold uploadBoxEnabled, loading in Hbox'.
  apply andb_true_iff in Hbox' as [Hbox' Hl].
  apply negb_true_iff in Hl. apply orb_false_iff in Hl as [Hc Ho].
  apply nonempty_spec in Huri. unfold nonempty in Huri.
  set (w1 := openCamera w).
  assert (Hcam : cameraViewRendered (st w1) = true) by reflexivity.
  set (w2 := handleCapture dataUri w1).
  assert (H2 : pending w2 !! nextId w = Some BlobFetching).
  { unfold w2, w1. cbn. apply lookup_insert_eq. }
  split; [| split].
  - exists ((settled (nextId w) >> onblob size) w2). split.
    { rewrite run_cons. unfold step at 1, guard. rewrite Hbox. fold w1.
      rewrite run_cons. unfold step at 1, guard. rewrite Hcam. fold w2.
      rewrite run_cons, (step_Settle w2 _ _ (Blob size) _ H2 eq_refl).
      reflexivity. }
    unfold clearEnabled, cameraViewRendered, loading, formValid. cbn.
    rewrite Huri, Hc, Ho. repeat split; reflexivity.
  - rewrite run_cons. unfold step at 1, guard. rewrite Hbox. fold w1.
    rewrite run_cons. unfold step at 1, guard. rewrite Hcam. reflexivity.
  - cbn. reflexivity.
Qed.

Lemma camera_capture_stages_image_witness :
  uploadBoxEnabled (st (initial true ["milk"])) = true
  /\ exists w3,
       run [OpenCamera; Capture dishUri; Settle 0 (Blob 512)]
           (initial true ["milk"]) = Some w3
       /\ preview (st w3) = Some dishUri
       /\ formValid (st w3) = true.
Proof.
  assert (Hbox : uploadBoxEnabled (st (initial true ["milk"])) = true)
    by reflexivity.
  assert (Huri : dishUri <> "") by discriminate.
  split; [exact Hbox |].
  destruct (camera_capture_stages_image (initial true ["milk"]) dishUri 512
              Hbox Huri) as ((w3 & Hrun & Hp & _ & _ & _ & _ & _ & Hv & _) & _).
  exists w3. split; [exact Hrun |]. split; [exact Hp |].
  rewrite Hv. reflexivity.
Defined.

(** X9. The badge identifies the alert level: two levels, the absent
    one included, with the same badge text are the same; the badge is
    destructive exactly for HIGH and reads UNKNOWN exactly when there is
    no level.  On the cards the badge of the allergen check is rendered
    exactly when an allergen result is recorded, and is then the badge of
    its alert level.  With no result recorded, the header of the
    classification card holds the spinner while loading, and otherwise
    the plain UNKNOWN outline when the details are absent and nothing
    when they are present; the header of the scan card holds the spinner
    while loading and nothing otherwise. *)
Theorem badge_identifies_alert_level (a b : option AlertLevel) (s : State)
    (c : ClassifyFoodOutput) :
  (children (getAlertBadgeProps a) = children (getAlertBadgeProps b) <-> a = b)
  /\ (variant (getAlertBadgeProps a) = "destructive" <-> a = Some HIGH)
  /\ (children (getAlertBadgeProps a) = "UNKNOWN" <-> a = None)
  /\ classifyHeader s c
     = match allergenResult s with
       | Some r => AllergenBadge (getAlertBadgeProps (alert r))
       | None =>
           if isClassifyLoading s then Spinner
           else if isSome (foodDetails c) then Nothing else UnknownOutline
       end
  /\ scanHeader s
     = match ocrAllergenResult s with
       | Some r => AllergenBadge (getAlertBadgeProps (alert r))
       | None => if isOcrLoading s then Spinner else Nothing
       end
  /\ ((exists props, classifyHeader s c = AllergenBadge props)
      <-> exists r, allergenResult s = Some r)
  /\ ((exists props, scanHeader s = AllergenBadge props)
      <-> exists r, ocrAllergenResult s = Some r).
Proof.
  assert (Hc : classifyHeader s c
               = match allergenResult s with
                 | Some r => AllergenBadge (getAlertBadgeProps (alert r))
                 | None =>
                     if isClassifyLoading s then Spinner
                     else if isSome (foodDetails c) then Nothing
                          else UnknownOutline
                 end).
  { unfold classifyHeader, classifyBadgeProps.
    destruct (allergenResult s), (isClassifyLoading s), (foodDetails c);
      reflexivity. }
  assert (Hs : scanHeader s
               = match ocrAllergenResult s with
                 | Some r => AllergenBadge (getAlertBadgeProps (alert r))
                 | None => if isOcrLoading s then Spinner else Nothing
                 end).
  { unfold scanHeader, ocrBadgeProps.
    destruct (ocrAllergenResult s), (isOcrLoading s); reflexivity. }
  split; [| split; [| split; [| split; [exact Hc | split; [exact Hs | split]]]]].
  - destruct a as [[| |]|], b as [[| |]|]; cbn; split; congruence.
  - destruct a as [[| |]|]; cbn; split; congruence.
  - destruct a as [[| |]|]; cbn; split; congruence.
  - rewrite Hc. destruct (allergenResult s) as [r|].
    + split; eauto.
    + split; [| intros [r H]; discriminate].
      intros [props H].
      destruct (isClassifyLoading s), (isSome (foodDetails c)); discriminate.
  - rewrite Hs. destruct (ocrAllergenResult s) as [r|].
    + split; eauto.
    + split; [| intros [r H]; discriminate].
      intros [props H]. destruct (isOcrLoading s); discriminate.
Qed.

(** ** The two claims on what a trigger and a classification display *)

(** C2, as stated, fails.  A classification that is no food and yet
    comes with details ends the run after stage 1, as the claim says, but
    nothing on the card displays a risk: its header holds neither the
    badge of the allergen check nor the UNKNOWN outline. *)
Lemma not_food_with_details_shows_no_risk :
  isFood waxApple = false
  /\ isSome (foodDetails waxApple) = true
  /\ match step (Settle 1 (Classified waxApple)) awaitingClassification with
     | Some w' =>
         classificationCard (st w') = Some (waxApple, Nothing)
         /\ calls w' = [classifyFood dishUri]
         /\ isClassifyLoading (st w') = false
         /\ pending w' = ∅
     | None => False
     end.
Proof. vm_compute. repeat split; reflexivity. Qed.

(** C10. A trigger reaches its handler only through its button, and
    the button is disabled while no image is staged: without an image no
    trigger is delivered, and everything on display stays as it is.  A
    trigger that is delivered while offline leaves the state, hence all
    results, errors and loading flags, unchanged, calls nothing and
    suspends nothing; it only shows the toast.  A trigger that is
    delivered while online sets its loading flag and clears the six slots,
    in the world [w1], and issues its first remote call from [w1]. *)
Theorem trigger_through_interface (e : Event) (w w' : World)
    (He : e = Submit \/ e = ScanLabel)
    (Hstep : step e w = Some w') :
  truthy (preview (st w)) = true
  /\ (forall w0, truthy (preview (st w0)) = false ->
        step Submit w0 = None /\ step ScanLabel w0 = None)
  /\ if onLine w then
       exists w1 p,
         preview (st w) = Some p
         /\ w1 = match e with
                 | Submit => (setIsClassifyLoading true >> resetResults) w
                 | _ => (setIsOcrLoading true >> resetResults) w
                 end
         /\ slots (st w1) = noSlots
         /\ calls w1 = calls w /\ pending w1 = pending w
         /\ match e with
            | Submit =>
                isClassifyLoading (st w1) = true
                /\ w' = await (classifyFood p)
                              (AwaitClassify (userAllergens w)) w1
            | _ =>
                isOcrLoading (st w1) = true
                /\ w' = await (extractTextFromImage p)
                              (AwaitExtract (userAllergens w)) w1
            end
         /\ st w' = st w1
         /\ calls w' = calls w ++
              [match e with
               | Submit => classifyFood p
               | _ => extractTextFromImage p
               end]
     else
       st w' = st w /\ calls w' = calls w /\ pending w' = pending w
       /\ exists t, toasts w' = toasts w ++ [t]
                    /\ title t = "You're Offline".
Proof.
  assert (Hnone : forall w0, truthy (preview (st w0)) = false ->
                    step Submit w0 = None /\ step ScanLabel w0 = None).
  { intros w0 H0. unfold step, guard, submitEnabled, scanEnabled.
    rewrite H0. cbn. rewrite !orb_true_r, !andb_false_r. auto. }
  destruct He as [-> | ->]; cbn in Hstep;
    apply guard_Some in Hstep as [Hg ->].
  - apply andb_true_iff in Hg as [Hsub _].
    destruct (submitEnabled_tab _ Hsub) as (_ & Hprev & _).
    destruct (truthy_Some _ Hprev) as (p & Hp & _).
    split; [exact Hprev |]. split; [exact Hnone |].
    unfold onSubmit. rewrite Hprev, Hp.
    change (default "" (Some p)) with p.
    destruct (onLine w); cbv beta iota delta [negb].
    + eexists. exists p. split; [reflexivity |]. split; [reflexivity |].
      repeat split; reflexivity.
    + repeat split; try reflexivity. eexists. split; reflexivity.
  - destruct (scanEnabled_tab _ Hg) as (_ & Hprev & _).
    destruct (truthy_Some _ Hprev) as (p & Hp & _).
    split; [exact Hprev |]. split; [exact Hnone |].
    unfold handleScanLabel. rewrite Hprev, Hp.
    change (default "" (Some p)) with p.
    destruct (onLine w); cbv beta iota delta [negb].
    + eexists. exists p. split; [reflexivity |]. split; [reflexivity |].
      repeat split; reflexivity.
    + repeat split; try reflexivity. eexists. split; reflexivity.
Qed.

Lemma trigger_through_interface_witness :
  step Submit offlineWorld = Some (onSubmit offlineWorld)
  /\ st (onSubmit offlineWorld) = st offlineWorld
  /\ step Submit staged = Some (onSubmit staged)
  /\ slots (st (onSubmit staged)) = noSlots
  /\ calls (onSubmit staged) = [classifyFood dishUri]
  /\ step Submit (initial true ["milk"]) = None.
Proof.
  assert (Hoff : step Submit offlineWorld = Some (onSubmit offlineWorld))
    by (vm_compute; reflexivity).
  assert (Hon : step Submit staged = Some (onSubmit staged))
    by (vm_compute; reflexivity).
  destruct (trigger_through_interface Submit _ _ (or_introl eq_refl) Hoff)
    as (_ & Hnone & Hfail).
  destruct (trigger_through_interface Submit _ _ (or_introl eq_refl) Hon)
    as (_ & _ & Hpass).
  assert (Hfail' : st (onSubmit offlineWorld) = st offlineWorld).
  { assert (H : onLine offlineWorld = false) by (vm_compute; reflexivity).
    rewrite H in Hfail. exact (proj1 Hfail). }
  split; [exact Hoff |]. split; [exact Hfail' |]. split; [exact Hon |].
  split; [vm_compute; reflexivity |]. split; [vm_compute; reflexivity |].
  apply Hnone. reflexivity.
Defined.

End FoodScannerMore.

(** * Further properties of the camera view *)

Module CameraViewMore.
Import CameraView CameraSamples CameraViewFacts CameraViewRuns.

Lemma Holding_initial api : Holding (initial api).
Proof. intros i H. discriminate. Qed.

Lemma Holding_step e w w' : Holding w -> step e w = Some w' -> Holding w'.
Proof.
  intros HK Hstep. destruct e; unfold step in Hstep.
  - (* Mount *)
    destruct (current w) eqn:Hc; [discriminate |].
    inversion Hstep; subst; clear Hstep.
    unfold mount, startCamera, seq, stopCamera. cbn.
    rewrite lookup_insert_eq. cbn.
    destruct (apiPresent w); cbn; intros i Hi; cbn in *;
      inversion Hi; subst; clear Hi.
    + rewrite lookup_insert_eq. eexists. split; [reflexivity |].
      split; [reflexivity | discriminate].
    + rewrite lookup_alter_eq, lookup_insert_eq. cbn.
      eexists. split; [reflexivity |]. split; [reflexivity | discriminate].
  - destruct (current w) as [i|] eqn:Hc; [| discriminate].
    inversion Hstep; subst. intros j Hj. discriminate.
  - destruct (current w) as [i|] eqn:Hc; [| discriminate].
    destruct (instances w !! i) as [c|]; [| discriminate].
    destruct (hasPermission c) as [[|]|]; try discriminate.
    inversion Hstep; subst. intros j Hj. discriminate.
  - destruct (current w) as [i|] eqn:Hc; [| discriminate].
    inversion Hstep; subst. intros j Hj. discriminate.
  - (* Granted *)
    destruct (requests w !! rq) as [j|] eqn:Hrq; [| discriminate].
    inversion Hstep; subst; clear Hstep.
    intros i Hi. cbn in Hi. destruct (HK i Hi) as (c & Hl & Hm & Hs). cbn.
    destruct (decide (j = i)) as [-> | Hne].
    + rewrite !lookup_alter_eq, Hl. cbn. rewrite Hm.
      eexists. split; [reflexivity |]. split; [reflexivity |].
      intros _. eexists. split; [reflexivity |]. split; [reflexivity |].
      apply elem_of_union_r, elem_of_singleton. reflexivity.
    + rewrite !lookup_alter_ne by exact Hne.
      exists c. split; [exact Hl |]. split; [exact Hm |].
      intros Hp. destruct (Hs Hp) as (s & H1 & H2 & H3).
      exists s. split; [exact H1 |]. split; [exact H2 |].
      apply elem_of_union_l. exact H3.
  - (* Rejected *)
    destruct (requests w !! rq) as [j|] eqn:Hrq; [| discriminate].
    inversion Hstep; subst; clear Hstep.
    intros i Hi. cbn in Hi. destruct (HK i Hi) as (c & Hl & Hm & Hs). cbn.
    destruct (decide (j = i)) as [-> | Hne].
    + rewrite lookup_alter_eq, Hl. cbn. rewrite Hm.
      eexists. split; [reflexivity |]. split; [reflexivity | discriminate].
    + rewrite lookup_alter_ne by exact Hne.
      exists c. auto.
  - inversion Hstep; subst. exact HK.
Qed.

Lemma Holding_run es : forall w w',
  Holding w -> run es w = Some w' -> Holding w'.
Proof.
  induction es as [| e es IH]; cbn; intros w w' HK Hrun.
  - inversion Hrun; subst. exact HK.
  - destruct (step e w) as [w1|] eqn:Hstep; [| discriminate].
    eapply IH; [| exact Hrun]. eapply Holding_step; eauto.
Qed.

(** X10. Whatever the order of the events, the capture button is
    enabled only while the ref of the view holds a stream that is live
    and feeds the video element; a capture then hands the frame to
    [onCapture] once, stops that stream and leaves the view. *)
Theorem capture_needs_live_stream
    (es : list Event) (api : bool) (w w' : World) (dataUri : string)
    (Hrun : run es (initial api) = Some w)
    (Hstep : step (ClickCapture dataUri) w = Some w') :
  exists i c s,
    current w = Some i /\ instances w !! i = Some c
    /\ streamRef c = Some s /\ srcObject c = Some s /\ s ∈ live w
    /\ live w' = live w ∖ {[s]}
    /\ captured w' = captured w ++ [dataUri]
    /\ current w' = None
    /\ streamRef <$> (instances w' !! i) = Some None.
Proof.
  pose proof (Holding_run es _ _ (Holding_initial api) Hrun) as HK.
  unfold step in Hstep.
  destruct (current w) as [i|] eqn:Hc; [| discriminate].
  destruct (instances w !! i) as [c|] eqn:Hi; [| discriminate].
  destruct (hasPermission c) as [[|]|] eqn:Hp; try discriminate.
  inversion Hstep; subst; clear Hstep.
  destruct (HK i Hc) as (c0 & Hi0 & _ & Hs).
  assert (c0 = c) by congruence. subst c0.
  destruct (Hs Hp) as (s & H1 & H2 & H3).
  exists i, c, s. repeat split; auto.
  - unfold seq, unmount, handleCapture, onCapture, stopCamera. cbn.
    rewrite Hi, H1. reflexivity.
  - unfold seq, unmount, handleCapture, onCapture, stopCamera. cbn.
    rewrite Hi, H1. reflexivity.
  - unfold seq, unmount, handleCapture, onCapture, stopCamera. cbn.
    rewrite Hi, H1. cbn. rewrite !lookup_alter_eq, Hi. reflexivity.
Qed.

Lemma capture_needs_live_stream_witness :
  run [Mount; Granted 0] (initial true) = Some streaming
  /\ step (ClickCapture photo) streaming
     = Some ((handleCapture photo >> unmount 0) streaming)
  /\ live streaming = {[0]}
  /\ live ((handleCapture photo >> unmount 0) streaming) = ∅
  /\ captured ((handleCapture photo >> unmount 0) streaming) = [photo].
Proof.
  assert (Hrun : run [Mount; Granted 0] (initial true) = Some streaming)
    by (vm_compute; reflexivity).
  assert (Hstep : step (ClickCapture photo) streaming
                  = Some ((handleCapture photo >> unmount 0) streaming))
    by (vm_compute; reflexivity).
  destruct (capture_needs_live_stream _ _ _ _ _ Hrun Hstep)
    as (i & c & s & _ & _ & _ & _ & _ & Hlive & Hcap & _).
  split; [exact Hrun |]. split; [exact Hstep |].
  split; [vm_compute; reflexivity |].
  split; [vm_compute; reflexivity |].
  rewrite Hcap. vm_compute. reflexivity.
Defined.

(** X11. [stopCamera] is idempotent: a second call changes nothing.
    After it the ref of the instance is empty and its stream is no longer
    live; no other stream is stopped and no other instance is touched. *)
Theorem stopCamera_idempotent (i : nat) (w : World) :
  stopCamera i (stopCamera i w) = stopCamera i w
  /\ (forall c, instances (stopCamera i w) !! i = Some c -> streamRef c = None)
  /\ (forall c s, instances w !! i = Some c -> streamRef c = Some s ->
        live (stopCamera i w) = live w ∖ {[s]})
  /\ (forall c, instances w !! i = Some c -> streamRef c = None ->
        stopCamera i w = w)
  /\ (forall j, j <> i -> instances (stopCamera i w) !! j = instances w !! j)
  /\ requests (stopCamera i w) = requests w.
Proof.
  destruct (instances w !! i) as [c|] eqn:Hi.
  - destruct (streamRef c) as [s|] eqn:Hs.
    + assert (Hw : stopCamera i w
                   = (setLive (live w ∖ {[s]}) >> setStreamRef i None) w).
      { unfold stopCamera. now rewrite Hi, Hs. }
      assert (Hl : instances (stopCamera i w) !! i
                   = Some {| streamRef := None;
                             hasPermission := hasPermission c;
                             srcObject := srcObject c;
                             mounted := mounted c |}).
      { rewrite Hw. cbn. rewrite lookup_alter_eq, Hi. reflexivity. }
      split; [unfold stopCamera at 1; rewrite Hl; reflexivity |].
      split; [intros c' Hc'; rewrite Hl in Hc'; now inversion Hc' |].
      split; [intros c' s' Hc' Hs'; rewrite Hw; cbn; congruence |].
      split; [intros c' Hc' Hs'; congruence |].
      split; [intros j Hj; rewrite Hw; cbn;
              now rewrite lookup_alter_ne by congruence |].
      rewrite Hw. reflexivity.
    + assert (Hw : stopCamera i w = w).
      { unfold stopCamera. now rewrite Hi, Hs. }
      rewrite !Hw. repeat split; auto; try congruence.
  - assert (Hw : stopCamera i w = w).
    { unfold stopCamera. now rewrite Hi. }
    rewrite !Hw. repeat split; auto; try congruence.
Qed.

Lemma stopCamera_idempotent_witness :
  instances streaming !! 0
  = Some {| streamRef := Some 0; hasPermission := Some true;
            srcObject := Some 0; mounted := true |}
  /\ live streaming = {[0]}
  /\ live (stopCamera 0 streaming) = ∅
  /\ stopCamera 0 (stopCamera 0 streaming) = stopCamera 0 streaming.
Proof.
  assert (Hi : instances streaming !! 0
               = Some {| streamRef := Some 0; hasPermission := Some true;
                         srcObject := Some 0; mounted := true |})
    by (vm_compute; reflexivity).
  destruct (stopCamera_idempotent 0 streaming) as (Hidem & _ & Hlive & _).
  split; [exact Hi |]. split; [vm_compute; reflexivity |].
  split; [rewrite (Hlive _ 0 Hi eq_refl); vm_compute; reflexivity |].
  exact Hidem.
Defined.

(** X12. Leaving the view, by teardown or by Cancel, stops the stream in
    its ref, empties the ref and unmounts the instance; Cancel calls
    [onClose] once.  A [getUserMedia] that is still pending is not
    cancelled. *)
Theorem exit_releases_held_stream (e : Event) (w w' : World)
    (i : nat) (c : Instance)
    (He : e = Teardown \/ e = ClickCancel)
    (Hc : current w = Some i) (Hi : instances w !! i = Some c)
    (Hstep : step e w = Some w') :
  current w' = None
  /\ live w' = match streamRef c with
               | Some s => live w ∖ {[s]}
               | None => live w
               end
  /\ instances w' !! i
     = Some {| streamRef := None; hasPermission := hasPermission c;
               srcObject := srcObject c; mounted := false |}
  /\ requests w' = requests w
  /\ closed w' = match e with
                 | ClickCancel => S (closed w)
                 | _ => closed w
                 end
  /\ captured w' = captured w.
Proof.
  destruct He as [-> | ->]; unfold step in Hstep; rewrite Hc in Hstep;
    inversion Hstep; subst; clear Hstep;
    unfold seq, unmount, onClose, stopCamera; cbn; rewrite Hi;
    destruct (streamRef c) as [s|] eqn:Hs; cbn;
    rewrite ?lookup_alter_eq, ?Hi; cbn; rewrite ?Hs;
    repeat split; try reflexivity.
  all: destruct c; cbn in *; subst; reflexivity.
Qed.

Lemma exit_releases_held_stream_witness :
  current streaming = Some 0
  /\ step ClickCancel streaming = Some ((onClose >> unmount 0) streaming)
  /\ live streaming = {[0]}
  /\ live ((onClose >> unmount 0) streaming) = ∅
  /\ closed ((onClose >> unmount 0) streaming) = 1.
Proof.
  assert (Hc : current streaming = Some 0) by (vm_compute; reflexivity).
  assert (Hi : instances streaming !! 0
               = Some {| streamRef := Some 0; hasPermission := Some true;
                         srcObject := Some 0; mounted := true |})
    by (vm_compute; reflexivity).
  assert (Hstep : step ClickCancel streaming
                  = Some ((onClose >> unmount 0) streaming))
    by (vm_compute; reflexivity).
  destruct (exit_releases_held_stream ClickCancel _ _ 0 _
              (or_intror eq_refl) Hc Hi Hstep)
    as (_ & Hlive & _ & _ & Hclosed & _).
  split; [exact Hc |]. split; [exact Hstep |].
  split; [vm_compute; reflexivity |].
  split; [rewrite Hlive; vm_compute; reflexivity |].
  rewrite Hclosed. vm_compute. reflexivity.
Defined.


(** X13. As long as the view is never left while a [getUserMedia] is
    pending, at most one stream is live at any time: a live stream is the
    one in the ref of the instance on screen, and with no instance on
    screen no stream is live. *)
Theorem one_stream_when_exits_are_orderly
    (es : list Event) (api : bool) (w : World)
    (Hrun : run_orderly es (initial api) = Some w) :
  size (live w) <= 1
  /\ (forall s, s ∈ live w ->
        exists i c, current w = Some i /\ instances w !! i = Some c
                    /\ streamRef c = Some s)
  /\ (current w = None -> live w = ∅ /\ requests w = ∅).
Proof.
  pose proof (Exclusive_run es _ _ (Exclusive_initial api) Hrun) as HE.
  split; [exact (orderly_exits_one_stream es api w Hrun) |].
  split; [exact (ex_live w HE) |].
  exact (no_current_nothing_live w HE).
Qed.

Lemma one_stream_when_exits_are_orderly_witness :
  run_orderly reopenedInOrder (initial true) = Some streamingAgain
  /\ size (live streamingAgain) <= 1
  /\ live streamingAgain = {[1]}.
Proof.
  assert (Hrun : run_orderly reopenedInOrder (initial true)
                 = Some streamingAgain) by (vm_compute; reflexivity).
  destruct (one_stream_when_exits_are_orderly _ _ _ Hrun) as (Hsize & _).
  split; [exact Hrun |]. split; [exact Hsize |]. vm_compute. reflexivity.
Defined.

(** X14. After a failure of [startCamera] on the instance on screen,
    be it a rejection of [getUserMedia] or an absent capture API, the
    capture button is disabled, no stream has been opened, and no new
    request is made: there is no retry. *)
Theorem failure_disables_capture
    (es : list Event) (api : bool) (w w' : World) (e : Event)
    (Hrun : run es (initial api) = Some w)
    (Hfail : (e = Mount /\ apiPresent w = false)
             \/ (exists rq name, e = Rejected rq name
                                 /\ requests w !! rq = current w))
    (Hstep : step e w = Some w') :
  (forall dataUri, step (ClickCapture dataUri) w' = None)
  /\ live w' = live w
  /\ (forall rq, is_Some (requests w' !! rq) -> is_Some (requests w !! rq))
  /\ exists i c, current w' = Some i /\ instances w' !! i = Some c
                 /\ hasPermission c = Some false.
Proof.
  pose proof (Holding_run es _ _ (Holding_initial api) Hrun) as HK.
  destruct Hfail as [[-> Hapi] | (rq & name & -> & Hrq)];
    unfold step in Hstep.
  - destruct (current w) eqn:Hc; [discriminate |].
    inversion Hstep; subst; clear Hstep.
    assert (Hi : instances (mount w) !! nextInstance w
                 = Some {| streamRef := None; hasPermission := Some false;
                           srcObject := None; mounted := true |}).
    { unfold mount, startCamera, seq, stopCamera. cbn.
      rewrite lookup_insert_eq. cbn. rewrite Hapi. cbn.
      rewrite lookup_alter_eq, lookup_insert_eq. reflexivity. }
    assert (Hcur : current (mount w) = Some (nextInstance w)).
    { unfold mount, startCamera, seq, stopCamera. cbn.
      rewrite lookup_insert_eq. cbn. rewrite Hapi. reflexivity. }
    split; [intros d; unfold step; rewrite Hcur, Hi; reflexivity |].
    split; [unfold mount, startCamera, seq, stopCamera; cbn;
            rewrite lookup_insert_eq; cbn; rewrite Hapi; reflexivity |].
    split; [unfold mount, startCamera, seq, stopCamera; cbn;
            rewrite lookup_insert_eq; cbn; rewrite Hapi; cbn; auto |].
    eexists. eexists. split; [exact Hcur |]. split; [exact Hi |].
    reflexivity.
  - destruct (requests w !! rq) as [i|] eqn:Hq; [| discriminate].
    symmetry in Hrq.
    inversion Hstep; subst; clear Hstep.
    destruct (HK i Hrq) as (c & Hi & Hm & Hs).
    assert (Hi' : instances ((rejectRequest rq >> startCamera_catch i name) w)
                  !! i
                  = Some {| streamRef := streamRef c;
                            hasPermission := Some false;
                            srcObject := srcObject c; mounted := mounted c |}).
    { cbn. rewrite lookup_alter_eq, Hi. cbn. rewrite Hm. reflexivity. }
    split; [intros d; unfold step;
            change (current ((rejectRequest rq >> startCamera_catch i name) w))
              with (current w);
            rewrite Hrq, Hi'; reflexivity |].
    split; [reflexivity |].
    split.
    { intros rq' [j Hj]. cbn in Hj. apply lookup_delete_Some in Hj as [_ Hj].
      eauto. }
    eexists. eexists. split; [exact Hrq |]. split; [exact Hi' |].
    reflexivity.
Qed.

Lemma failure_disables_capture_witness :
  run [Mount] (initial true) = Some requested
  /\ step (Rejected 0 "NotAllowedError") requested
     = Some ((rejectRequest 0 >> startCamera_catch 0 "NotAllowedError")
               requested)
  /\ step (ClickCapture photo)
          ((rejectRequest 0 >> startCamera_catch 0 "NotAllowedError")
             requested) = None
  /\ requests ((rejectRequest 0 >> startCamera_catch 0 "NotAllowedError")
                 requested) = ∅.
Proof.
  assert (Hrun : run [Mount] (initial true) = Some requested)
    by (vm_compute; reflexivity).
  assert (Hstep : step (Rejected 0 "NotAllowedError") requested
                  = Some ((rejectRequest 0
                           >> startCamera_catch 0 "NotAllowedError")
                            requested))
    by (vm_compute; reflexivity).
  assert (Hfail : (Rejected 0 "NotAllowedError" = Mount
                   /\ apiPresent requested = false)
                  \/ (exists rq name,
                        Rejected 0 "NotAllowedError" = Rejected rq name
                        /\ requests requested !! rq = current requested)).
  { right. exists 0, "NotAllowedError". split; [reflexivity |].
    vm_compute. reflexivity. }
  destruct (failure_disables_capture _ _ _ _ _ Hrun Hfail Hstep)
    as (Hcap & _).
  split; [exact Hrun |]. split; [exact Hstep |].
  split; [apply Hcap |]. vm_compute. reflexivity.
Defined.

End CameraViewMore.

(** * Properties of the recommendations page *)

Module RecommendationsFacts.
Import RecommendationsPage RecommendationsSamples.

Lemma invoke_all_calls (recs : list RecommendedFood) : forall w,
  let w' := fold_left
              (fun w' rec => invoke (generateFoodImage (foodName_of rec)) w')
              recs w in
  calls w' = calls w ++ map (fun rec => generateFoodImage (foodName_of rec)) recs
  /\ st w' = st w /\ pending w' = pending w /\ nextId w' = nextId w
  /\ toasts w' = toasts w /\ onLine w' = onLine w /\ allergens w' = allergens w.
Proof.
  induction recs as [| rec recs IH]; intros w; cbn.
  - rewrite app_nil_r. repeat split; reflexivity.
  - destruct (IH (invoke (generateFoodImage (foodName_of rec)) w))
      as (Hc & Hs & Hp & Hn & Ht & Ho & Ha).
    cbn in *. rewrite Hc, Hs, Hp, Hn, Ht, Ho, Ha, <- app_assoc.
    repeat split; reflexivity.
Qed.

Lemma page_Inv_initial online profile : Inv (initial online profile).
Proof.
  constructor; cbn; try discriminate;
    intros *; rewrite lookup_empty; discriminate.
Qed.

Lemma page_Inv_step e w w' : Inv w -> step e w = Some w' -> Inv w'.
Proof.
  intros [Hf Hl Hu Hr] Hstep. destruct e; cbn in Hstep.
  - (* Click *)
    destruct (isLoading (st w)) eqn:Hload; [discriminate |].
    inversion Hstep; subst; clear Hstep.
    assert (Hnone : forall id k, pending w !! id = Some k -> False).
    { intros id k H. apply Hl in H. congruence. }
    unfold handleGetRecommendations.
    destruct (onLine w); cbn; [destruct (allergens w); cbn |].
    all: constructor; cbn.
    all: try (intros *; rewrite ?lookup_insert_Some; intros;
              repeat match goal with
                     | H : _ \/ _ |- _ => destruct H
                     | H : _ /\ _ |- _ => destruct H
                     end; subst; eauto; try lia;
              try (exfalso; eapply Hnone; eassumption)).
    all: try congruence.
    all: try discriminate.
    exists (nextId w), AwaitRecommendations. apply lookup_insert_eq.
  - destruct (isLoading (st w)) eqn:Hload; [discriminate |].
    inversion Hstep; subst; clear Hstep.
    constructor; cbn; rewrite ?Hload; auto.
  - destruct (pending w !! id) as [k|] eqn:Hid; [| discriminate].
    destruct (resume k o) as [c|] eqn:Hres; [| discriminate].
    inversion Hstep; subst; clear Hstep.
    assert (Hgone : forall id' k', delete id (pending w) !! id' = Some k' ->
                                   False).
    { intros id' k' H. apply lookup_delete_Some in H as [Hne H].
      apply Hne. eapply Hu; eauto. }
    destruct k, o; cbn in Hres; try discriminate.
    + inversion Hres; subst; clear Hres. unfold handle_recommended, seq.
      destruct (invoke_all_calls (recommendations_of result) (settled id w))
        as (Hc & Hs & Hp & Hn & _).
      cbn in Hp, Hn, Hs. constructor; cbn; rewrite ?Hp, ?Hn, ?Hs.
      * intros id' k'. rewrite lookup_insert_Some.
        intros [[<- _] | [_ H]]; [lia | exfalso; eauto].
      * intros id' k' _. eapply Hl; eauto.
      * intros id1 k1 id2 k2. rewrite !lookup_insert_Some.
        intros [[<- _] | [_ H1]] [[<- _] | [_ H2]]; auto; exfalso; eauto.
      * intros _. exists (nextId w). eexists. apply lookup_insert_eq.
    + inversion Hres; subst; clear Hres. unfold handle_catch, seq.
      destruct (keyCondition err);
        constructor; cbn; try discriminate; intros; exfalso; eauto.
    + destruct (Nat.eqb (length images) (length (recommendations_of result)));
        [| discriminate].
      inversion Hres; subst; clear Hres.
      constructor; cbn; try discriminate; intros; exfalso; eauto.
  - inversion Hstep; subst. constructor; cbn; auto.
  - inversion Hstep; subst. constructor; cbn; auto.
Qed.

Lemma page_Inv_run es : forall w w', Inv w -> run es w = Some w' -> Inv w'.
Proof.
  induction es as [| e es IH]; cbn; intros w w' HI Hrun.
  - inversion Hrun; subst. exact HI.
  - destruct (step e w) as [w1|] eqn:Hstep; [| discriminate].
    eapply IH; [| exact Hrun]. eapply page_Inv_step; eauto.
Qed.


(** X15. In every world the page can reach, the loading flag is set
    exactly when a run of [handleGetRecommendations] is suspended, and at
    most one run is suspended: the button is never left disabled by a run
    that has ended, and no second run starts beside a running one. *)
Theorem page_loading_tracks_run
    (es : list Event) (online : bool) (profile : list string) (w : World)
    (Hrun : run es (initial online profile) = Some w) :
  (isLoading (st w) = true <-> exists id k, pending w !! id = Some k)
  /\ (forall id1 k1 id2 k2,
        pending w !! id1 = Some k1 -> pending w !! id2 = Some k2 -> id1 = id2)
  /\ (isLoading (st w) = true -> step Click w = None).
Proof.
  pose proof (page_Inv_run es _ _ (page_Inv_initial online profile) Hrun)
    as [Hf Hl Hu Hr].
  split; [| split].
  - split; [exact Hr |]. intros (id & k & H). exact (Hl id k H).
  - exact Hu.
  - intros H. cbn. now rewrite H.
Qed.

Lemma page_loading_tracks_run_witness :
  run [CuisineInput "Ghanaian"; Click; Settle 0 (Recommended advice)]
      (initial true ["milk"]) = Some awaitingImages
  /\ isLoading (st awaitingImages) = true
  /\ pending awaitingImages !! 1 = Some (AwaitImages advice)
  /\ step Click awaitingImages = None.
Proof.
  assert (Hrun : run [CuisineInput "Ghanaian"; Click;
                      Settle 0 (Recommended advice)] (initial true ["milk"])
                 = Some awaitingImages) by (vm_compute; reflexivity).
  destruct (page_loading_tracks_run _ _ _ _ Hrun) as (Hload & _ & Hclick).
  assert (Hid : pending awaitingImages !! 1 = Some (AwaitImages advice))
    by (vm_compute; reflexivity).
  assert (Hl : isLoading (st awaitingImages) = true).
  { apply Hload. eauto. }
  split; [exact Hrun |]. split; [exact Hl |]. split; [exact Hid |].
  exact (Hclick Hl).
Defined.

Lemma page_run_cons (e : Event) (es : list Event) (w : World) :
  run (e :: es) w
  = match step e w with Some w' => run es w' | None => None end.
Proof. reflexivity. Qed.

Lemma page_step_Settle (w : World) (id : nat) (k : Pending) (o : Outcome) (c : Cmd) :
  pending w !! id = Some k -> resume k o = Some c ->
  step (Settle id o) w = Some ((settled id >> c) w).
Proof. intros Hid Hres. unfold step. now rewrite Hid, Hres. Qed.

Lemma zip_with_enrich_food (recs : list RecommendedFood) :
  forall images, length images = length recs ->
    map food (zip_with enrich recs images) = recs.
Proof.
  induction recs as [| rec recs IH]; intros [| im images] H;
    cbn in *; try discriminate; [reflexivity |].
  f_equal. apply IH. lia.
Qed.

(** X16. An uninterrupted run of the page: with the connection up and
    a profile that is not empty, the click, the recommendations and the
    images leave one enriched entry per recommendation, in the same
    order, each with its generated image or, where the generation of its
    image threw, with the placeholder; the reasoning is recorded, no
    error is set, no toast is shown and the loading flag is dropped.  The
    calls are the one of [recommendSafeFoods], with the profile and with
    the cuisine typed or "any", followed by one [generateFoodImage] per
    recommendation, in order. *)
Theorem recommendations_enriched (w : World) (result : Recommendations)
    (images : list (option string))
    (Hidle : isLoading (st w) = false) (Hon : onLine w = true)
    (Hprofile : allergens w <> [])
    (Hlen : length images = length (recommendations_of result)) :
  exists w3 enriched,
    run [Click; Settle (nextId w) (Recommended result);
         Settle (S (nextId w)) (Images images)] w = Some w3
    /\ recommendations (st w3) = Some enriched
    /\ length enriched = length (recommendations_of result)
    /\ map food enriched = recommendations_of result
    /\ (forall i rec image,
          recommendations_of result !! i = Some rec ->
          images !! i = Some image ->
          enriched !! i
          = Some {| food := rec; imageUrl := default placeholder image |})
    /\ overallReasoning (st w3) = Some (overallReasoning_of result)
    /\ error (st w3) = None
    /\ isLoading (st w3) = false
    /\ cuisine (st w3) = cuisine (st w)
    /\ toasts w3 = toasts w
    /\ calls w3
       = calls w ++
         recommendSafeFoods (allergens w) "None specified"
           "General healthy eating"
           (if cuisine (st w) =? "" then "any" else cuisine (st w))
         :: map (fun rec => generateFoodImage (name rec ++ ", " ++ dataAiHint rec))
                (recommendations_of result).
Proof.
  set (w1 := handleGetRecommendations w).
  assert (Hw1 : w1 = (setIsLoading true >> setRecommendations None >>
                      setOverallReasoning None >> setError None >>
                      invoke (recommendSafeFoods (allergens w) "None specified"
                                "General healthy eating"
                                (cuisinePreference_of (cuisine (st w)))) >>
                      suspend AwaitRecommendations) w).
  { unfold w1, handleGetRecommendations. rewrite Hon. cbn.
    destruct (allergens w); [congruence | reflexivity]. }
  assert (H1 : pending w1 !! nextId w = Some AwaitRecommendations).
  { rewrite Hw1. cbn. apply lookup_insert_eq. }
  set (w2 := (settled (nextId w) >> handle_recommended result) w1).
  destruct (invoke_all_calls (recommendations_of result)
              (settled (nextId w) w1))
    as (Hc & Hs & Hp & Hn & Ht & _).
  assert (H2 : pending w2 !! S (nextId w) = Some (AwaitImages result)).
  { unfold w2, handle_recommended, seq. cbn. rewrite Hn, Hw1. cbn.
    apply lookup_insert_eq. }
  assert (Hres : resume (AwaitImages result) (Images images)
                 = Some (handle_enriched result images)).
  { cbn. rewrite Hlen, Nat.eqb_refl. reflexivity. }
  set (w3 := (settled (S (nextId w)) >> handle_enriched result images) w2).
  exists w3, (zip_with enrich (recommendations_of result) images).
  split.
  { rewrite page_run_cons. unfold step at 1. rewrite Hidle. fold w1.
    rewrite page_run_cons, (page_step_Settle w1 _ _ (Recommended result) _ H1 eq_refl).
    fold w2.
    rewrite page_run_cons, (page_step_Settle w2 _ _ (Images images) _ H2 Hres).
    reflexivity. }
  split; [reflexivity |].
  split; [rewrite length_zip_with; lia |].
  split; [apply zip_with_enrich_food; exact Hlen |].
  split.
  { intros i rec image Hrec Him. rewrite lookup_zip_with, Hrec. cbn.
    rewrite Him. reflexivity. }
  split; [reflexivity |].
  unfold w3, w2, handle_recommended, seq. cbn.
  rewrite Hs, Ht, Hc, Hw1. cbn. rewrite <- app_assoc.
  repeat split; reflexivity.
Qed.


Lemma recommendations_enriched_witness :
  isLoading (st (initial true ["milk"])) = false
  /\ allergens (initial true ["milk"]) <> []
  /\ exists w3,
       run [Click; Settle 0 (Recommended advice);
            Settle 1 (Images [Some "data:image/png;base64,d2Fha3ll"; None])]
           (initial true ["milk"]) = Some w3
       /\ recommendations (st w3)
          = Some [{| food := waakye;
                     imageUrl := "data:image/png;base64,d2Fha3ll" |};
                  {| food := kelewele;
                     imageUrl := "https://placehold.co/600x400.png" |}]
       /\ calls w3 = [recommendSafeFoods ["milk"] "None specified"
                        "General healthy eating" "any";
                      generateFoodImage "Waakye, rice beans";
                      generateFoodImage "Kelewele, fried plantain"].
Proof.
  assert (Hp : allergens (initial true ["milk"]) <> []) by discriminate.
  split; [reflexivity |]. split; [exact Hp |].
  destruct (recommendations_enriched (initial true ["milk"]) advice
              [Some "data:image/png;base64,d2Fha3ll"; None]
              eq_refl eq_refl Hp eq_refl)
    as (w3 & enriched & Hrun & Hrec & _ & _ & Hith & _ & _ & _ & _ & _ & Hcalls).
  exists w3. split; [exact Hrun |].
  split; [| rewrite Hcalls; reflexivity].
  vm_compute in Hrun. inversion Hrun; subst. reflexivity.
Defined.

(** The preconditions of the page.  Offline, the click only shows
    the toast "You're Offline": results, error and loading flag are as
    before and nothing is called.  Online with an empty profile, the
    results and the error of the previous run are cleared, the toast
    "Update Your Profile" is shown, the loading flag ends up dropped, and
    nothing is called or suspended. *)
Theorem recommendation_preconditions (w : World) :
  let w' := handleGetRecommendations w in
  if onLine w then
    match allergens w with
    | [] =>
        st w' = {| recommendations := None; overallReasoning := None;
                   isLoading := false; cuisine := cuisine (st w);
                   error := None |}
        /\ toasts w' = toasts w ++
             [{| noticeVariant := None; noticeTitle := "Update Your Profile";
                 noticeDescription :=
                   "Please add at least one allergen to your profile to get recommendations." |}]
        /\ calls w' = calls w /\ pending w' = pending w
    | _ :: _ =>
        calls w' = calls w ++
          [recommendSafeFoods (allergens w) "None specified"
             "General healthy eating"
             (if cuisine (st w) =? "" then "any" else cuisine (st w))]
        /\ pending w' = <[nextId w := AwaitRecommendations]> (pending w)
        /\ st w' = {| recommendations := None; overallReasoning := None;
                      isLoading := true; cuisine := cuisine (st w);
                      error := None |}
        /\ toasts w' = toasts w
    end
  else
    st w' = st w /\ calls w' = calls w /\ pending w' = pending w
    /\ toasts w' = toasts w ++
         [{| noticeVariant := Some "destructive";
             noticeTitle := "You're Offline";
             noticeDescription :=
               "An internet connection is required to get recommendations." |}].
Proof.
  unfold handleGetRecommendations. destruct (onLine w); cbn.
  - destruct (allergens w); cbn; repeat split; reflexivity.
  - repeat split; reflexivity.
Qed.

(** X17. A step of the page calls a remote flow in two situations
    only: a click while online, not loading and with a profile that is
    not empty, which calls [recommendSafeFoods] once, with the profile
    and the cuisine typed or "any"; and the arrival of the
    recommendations, which calls [generateFoodImage] once for each of
    them, in order.  Offline, or with an empty profile, nothing is
    called. *)
Theorem page_calls_by_step (e : Event) (w w' : World)
    (Hstep : step e w = Some w') :
  calls w' = calls w
  \/ (e = Click /\ onLine w = true /\ allergens w <> []
      /\ isLoading (st w) = false
      /\ calls w' = calls w ++
           [recommendSafeFoods (allergens w) "None specified"
              "General healthy eating"
              (if cuisine (st w) =? "" then "any" else cuisine (st w))])
  \/ (exists id result,
        e = Settle id (Recommended result)
        /\ pending w !! id = Some AwaitRecommendations
        /\ calls w' = calls w ++
             map (fun rec =>
                    generateFoodImage (name rec ++ ", " ++ dataAiHint rec))
                 (recommendations_of result)).
Proof.
  destruct e; cbn in Hstep.
  - destruct (isLoading (st w)) eqn:Hload; [discriminate |].
    inversion Hstep; subst; clear Hstep. unfold handleGetRecommendations.
    destruct (onLine w) eqn:Hon; cbn; [| now left].
    destruct (allergens w) as [| a l] eqn:Ha; cbn; [now left |].
    right. left. repeat split; auto.
  - destruct (isLoading (st w)); [discriminate |].
    inversion Hstep; subst. now left.
  - destruct (pending w !! id) as [k|] eqn:Hid; [| discriminate].
    destruct (resume k o) as [c|] eqn:Hres; [| discriminate].
    inversion Hstep; subst; clear Hstep.
    destruct k, o; cbn in Hres; try discriminate.
    + inversion Hres; subst; clear Hres. right. right.
      exists id, result. split; [reflexivity |]. split; [exact Hid |].
      unfold seq, handle_recommended.
      destruct (invoke_all_calls (recommendations_of result) (settled id w))
        as (Hc & _).
      cbn in Hc |- *. exact Hc.
    + inversion Hres; subst. left. unfold handle_catch, seq.
      now destruct (keyCondition err).
    + destruct (Nat.eqb (length images) (length (recommendations_of result)));
        [| discriminate].
      inversion Hres; subst. now left.
  - inversion Hstep; subst. now left.
  - inversion Hstep; subst. now left.
Qed.

Lemma page_calls_by_step_witness :
  step Click (initial true []) = Some (handleGetRecommendations (initial true []))
  /\ calls (handleGetRecommendations (initial true [])) = []
  /\ step Click (initial true ["milk"])
     = Some (handleGetRecommendations (initial true ["milk"]))
  /\ calls (handleGetRecommendations (initial true ["milk"]))
     = [recommendSafeFoods ["milk"] "None specified"
          "General healthy eating" "any"].
Proof.
  assert (H0 : step Click (initial true [])
               = Some (handleGetRecommendations (initial true [])))
    by reflexivity.
  assert (H1 : step Click (initial true ["milk"])
               = Some (handleGetRecommendations (initial true ["milk"])))
    by reflexivity.
  split; [exact H0 |]. split.
  - destruct (page_calls_by_step _ _ _ H0)
      as [H | [(_ & _ & Hne & _) | (id & result & He & _)]].
    + exact H.
    + exfalso. apply Hne. reflexivity.
    + discriminate.
  - split; [exact H1 |].
    destruct (page_calls_by_step _ _ _ H1)
      as [H | [(_ & _ & _ & _ & H) | (id & result & He & _)]].
    + vm_compute in H. discriminate.
    + exact H.
    + discriminate.
Defined.

Lemma prefix_spec (sub s : string) :
  String.prefix sub s = true <-> exists b, s = (sub ++ b)%string.
Proof.
  revert s. induction sub as [| c sub IH]; intros [| d s]; cbn.
  - split; [intros _; exists ""; reflexivity | reflexivity].
  - split; [intros _; exists (String d s); reflexivity | reflexivity].
  - split; [discriminate | intros [b H]; discriminate].
  - destruct (Ascii.ascii_dec c d) as [-> | Hne].
    + rewrite IH. split; intros [b H]; exists b; [now rewrite H |].
      now inversion H.
    + split; [discriminate |]. intros [b H]. inversion H. congruence.
Qed.

Lemma includes_spec (sub s : string) :
  includes sub s = true <-> exists a b, s = (a ++ sub ++ b)%string.
Proof.
  induction s as [| d s IH]; cbn [includes].
  - destruct (String.prefix sub "") eqn:Hp.
    + split; [| reflexivity]. intros _. apply prefix_spec in Hp as [b Hb].
      exists "", b. exact Hb.
    + split; [discriminate |]. intros (a & b & H).
      destruct a; cbn in H.
      * assert (String.prefix sub "" = true)
          by (apply prefix_spec; exists b; exact H).
        congruence.
      * discriminate.
  - destruct (String.prefix sub (String d s)) eqn:Hp.
    + split; [| reflexivity]. intros _. apply prefix_spec in Hp as [b Hb].
      exists "", b. exact Hb.
    + rewrite IH. split.
      * intros (a & b & H). exists (String d a), b. cbn. now rewrite H.
      * intros (a & b & H). destruct a as [| e a]; cbn in H.
        -- assert (String.prefix sub (String d s) = true)
             by (apply prefix_spec; exists b; exact H).
           congruence.
        -- inversion H. eauto.
Qed.

(** X18. When [recommendSafeFoods] throws, the run ends and the
    loading flag is dropped, the results staying as the click has cleared
    them.  When the thrown value has a string as message, the toast
    "Error" is shown and the error is the message about the API key
    exactly when that string contains CONSUMER_SUSPENDED, and the general
    message otherwise; a thrown value without a message gives the general
    message as well.  When the thrown value is [null] or [undefined], or
    the [includes] of its message throws, the [catch] block throws in its
    turn: no error is set and no toast is shown. *)
Theorem recommendation_failure (w : World) (id : nat) (err : Rejection)
    (Hid : pending w !! id = Some AwaitRecommendations) :
  exists w',
    step (Settle id (Thrown err)) w = Some w'
    /\ isLoading (st w') = false
    /\ recommendations (st w') = recommendations (st w)
    /\ overallReasoning (st w') = overallReasoning (st w)
    /\ calls w' = calls w
    /\ pending w' = delete id (pending w)
    /\ match err with
       | Text message =>
           (error (st w') = Some keyError \/ error (st w') = Some fetchError)
           /\ (error (st w') = Some keyError <->
               exists a b,
                 message = (a ++ "CONSUMER_SUSPENDED" ++ b)%string)
           /\ toasts w' = toasts w ++
                [{| noticeVariant := Some "destructive";
                    noticeTitle := "Error";
                    noticeDescription :=
                      "Could not fetch recommendations. Please try again." |}]
       | NoMessage =>
           error (st w') = Some fetchError
           /\ toasts w' = toasts w ++
                [{| noticeVariant := Some "destructive";
                    noticeTitle := "Error";
                    noticeDescription :=
                      "Could not fetch recommendations. Please try again." |}]
       | Opaque (Some key) =>
           error (st w') = Some (if key then keyError else fetchError)
           /\ toasts w' = toasts w ++
                [{| noticeVariant := Some "destructive";
                    noticeTitle := "Error";
                    noticeDescription :=
                      "Could not fetch recommendations. Please try again." |}]
       | Nullish | Opaque None =>
           error (st w') = error (st w) /\ toasts w' = toasts w
       end.
Proof.
  eexists.
  split; [apply (page_step_Settle w id _ (Thrown err) _ Hid eq_refl) |].
  assert (Hk : keyError <> fetchError) by discriminate.
  destruct err as [| | m | [key|]]; cbn; repeat split; auto.
  - destruct (nonempty m && includes "CONSUMER_SUSPENDED" m); auto.
  - destruct (nonempty m) eqn:Hm; cbn.
    + destruct (includes "CONSUMER_SUSPENDED" m) eqn:Hinc.
      * intros _. apply includes_spec in Hinc as (a & b & H). eauto.
      * intros H. congruence.
    + intros H. congruence.
  - intros (a & b & H).
    assert (Hinc : includes "CONSUMER_SUSPENDED" m = true)
      by (apply includes_spec; eauto).
    assert (Hm : nonempty m = true).
    { apply FoodScannerFacts.nonempty_spec. intros ->.
      destruct a; discriminate. }
    rewrite Hm, Hinc. reflexivity.
Qed.

Lemma recommendation_failure_witness :
  pending (handleGetRecommendations (initial true ["milk"])) !! 0
  = Some AwaitRecommendations
  /\ (exists w',
        step (Settle 0 (Thrown (Text "403 CONSUMER_SUSPENDED: key")))
             (handleGetRecommendations (initial true ["milk"])) = Some w'
        /\ error (st w') = Some keyError)
  /\ (exists w',
        step (Settle 0 (Thrown Nullish))
             (handleGetRecommendations (initial true ["milk"])) = Some w'
        /\ error (st w') = None /\ toasts w' = []
        /\ isLoading (st w') = false).
Proof.
  assert (Hid : pending (handleGetRecommendations (initial true ["milk"])) !! 0
                = Some AwaitRecommendations) by (vm_compute; reflexivity).
  split; [exact Hid |]. split.
  - destruct (recommendation_failure _ 0 (Text "403 CONSUMER_SUSPENDED: key")
                Hid)
      as (w' & Hstep & _ & _ & _ & _ & _ & _ & Hkey & _).
    exists w'. split; [exact Hstep |].
    apply Hkey. exists "403 ", ": key". reflexivity.
  - destruct (recommendation_failure _ 0 Nullish Hid)
      as (w' & Hstep & Hload & _ & _ & _ & _ & Herr & Htoast).
    exists w'. split; [exact Hstep |].
    split; [rewrite Herr; reflexivity |].
    split; [rewrite Htoast; reflexivity | exact Hload].
Defined.

End RecommendationsFacts.
